(** * Orbital-mechanics engine of AIMS_backend: embedding and verified properties

    The development embeds [services/orbitalMechanics.ts] (the class
    [OrbitalMechanics], its constant tables and the records of
    [types/index.ts]) and proves or refutes the properties stated for it.
    It then embeds the callers of the engine -- the handlers of
    [routes/mission.ts], [routes/celestial.ts], [routes/simulation.ts] and
    [sockets/socketHandlers.ts] -- and proves further properties of both.

    Modelling conventions.
    - A JavaScript [number] is a value of [number]: a real, or one of the
      three IEEE special values [+Infinity], [-Infinity], [NaN].  Arithmetic
      on finite values is exact (rounding and overflow of binary64 are
      abstracted away); the special values follow IEEE 754 / ECMAScript
      (division by zero, [Infinity - Infinity], [0 * Infinity], comparisons
      with [NaN], ...).  Zero is unsigned: every zero behaves as [+0].
      Where the source leaves the range in which binary64 follows the exact
      value, a theorem states the range of its arguments: [Math.exp],
      [Math.sinh] and [Math.cosh] exceed the largest binary64 number for
      arguments beyond about 709.78 and return [Infinity]; [Math.tanh]
      returns exactly 1 or -1 for arguments beyond about 19.06 in absolute
      value; from [2 ^ 26] on, neighbouring binary64 numbers are further
      apart than the tolerance [1e-8] of the Kepler solvers; whole numbers
      are binary64 numbers up to [2 ^ 53].
    - A [while] loop is a recursive function with an iteration budget; it
      yields [None] when the budget runs out before the loop has exited.
    - A JavaScript exception is the [Throw] outcome of [completion].
    - [Date.now()] reads a [World]: the sequence of wall-clock readings that
      the successive calls observe.
    - [logger.info] / [logger.error] only write to the log and are omitted.
    - What a handler obtains from outside the program (the validated request
      body, a parsed date, the answer of the JPL Horizons service, a timer
      handle, a random identifier) is an argument of its model. *)

From Stdlib Require Import Reals Lra Lia List String Bool Arith.
Import ListNotations.

Local Open Scope R_scope.

(** ** JavaScript numbers *)

Module JsNumber.

Inductive number : Type :=
| Fin (r : R)
| PInf
| NInf
| NaN.

Definition Rltb (x y : R) : bool := if Rlt_dec x y then true else false.
Definition Reqb (x y : R) : bool := if Req_dec_T x y then true else false.

Definition sign (r : R) : comparison :=
  if Rltb 0 r then Gt else if Rltb r 0 then Lt else Eq.

Definition neg (x : number) : number :=
  match x with
  | Fin r => Fin (- r)
  | PInf => NInf
  | NInf => PInf
  | NaN => NaN
  end.

Definition add (x y : number) : number :=
  match x, y with
  | NaN, _ | _, NaN => NaN
  | Fin a, Fin b => Fin (a + b)
  | PInf, NInf | NInf, PInf => NaN
  | PInf, _ | _, PInf => PInf
  | NInf, _ | _, NInf => NInf
  end.

Definition sub (x y : number) : number := add x (neg y).

Definition signed_inf (s : comparison) : number :=
  match s with Gt => PInf | Lt => NInf | Eq => NaN end.

Definition mul (x y : number) : number :=
  match x, y with
  | NaN, _ | _, NaN => NaN
  | Fin a, Fin b => Fin (a * b)
  | Fin a, PInf | PInf, Fin a => signed_inf (sign a)
  | Fin a, NInf | NInf, Fin a => signed_inf (CompOpp (sign a))
  | PInf, PInf | NInf, NInf => PInf
  | PInf, NInf | NInf, PInf => NInf
  end.

Definition div (x y : number) : number :=
  match x, y with
  | NaN, _ | _, NaN => NaN
  | Fin a, Fin b => if Reqb b 0 then signed_inf (sign a) else Fin (a / b)
  | Fin _, PInf | Fin _, NInf => Fin 0
  | PInf, Fin b => if Rltb b 0 then NInf else PInf
  | NInf, Fin b => if Rltb b 0 then PInf else NInf
  | _, _ => NaN
  end.

(** [x > y] and [x < y]: false as soon as one side is [NaN]. *)
Definition gt (x y : number) : bool :=
  match x, y with
  | NaN, _ | _, NaN => false
  | Fin a, Fin b => Rltb b a
  | PInf, PInf => false
  | PInf, _ => true
  | _, NInf => match x with NInf => false | _ => true end
  | _, _ => false
  end.

Definition lt (x y : number) : bool := gt y x.

Definition is_finite (x : number) : bool :=
  match x with Fin _ => true | _ => false end.

Definition is_nan (x : number) : bool :=
  match x with NaN => true | _ => false end.

(** *** The [Math] object *)

Definition Math_abs (x : number) : number :=
  match x with
  | Fin r => Fin (Rabs r)
  | PInf | NInf => PInf
  | NaN => NaN
  end.

Definition Math_sqrt (x : number) : number :=
  match x with
  | Fin r => if Rltb r 0 then NaN else Fin (sqrt r)
  | PInf => PInf
  | NInf | NaN => NaN
  end.

Definition Math_sin (x : number) : number :=
  match x with Fin r => Fin (sin r) | _ => NaN end.

Definition Math_cos (x : number) : number :=
  match x with Fin r => Fin (cos r) | _ => NaN end.

(** The exact hyperbolic functions.  In binary64 [Math.sinh] and
    [Math.cosh] return an infinity for [|x|] beyond about 710.47, and
    [Math.tanh] returns exactly 1 or -1 for [|x|] beyond about 19.06. *)
Definition Math_sinh (x : number) : number :=
  match x with Fin r => Fin (sinh r) | other => other end.

Definition Math_cosh (x : number) : number :=
  match x with
  | Fin r => Fin (cosh r)
  | PInf | NInf => PInf
  | NaN => NaN
  end.

Definition Math_tanh (x : number) : number :=
  match x with
  | Fin r => Fin (tanh r)
  | PInf => Fin 1
  | NInf => Fin (-1)
  | NaN => NaN
  end.

(** The exact exponential.  In binary64 [Math.exp] returns [Infinity] for
    [x] beyond about 709.78. *)
Definition Math_exp (x : number) : number :=
  match x with
  | Fin r => Fin (exp r)
  | PInf => PInf
  | NInf => Fin 0
  | NaN => NaN
  end.

Definition Math_atan (x : number) : number :=
  match x with
  | Fin r => Fin (atan r)
  | PInf => Fin (PI / 2)
  | NInf => Fin (- (PI / 2))
  | NaN => NaN
  end.

Definition Math_atan2 (y x : number) : number :=
  match y, x with
  | NaN, _ | _, NaN => NaN
  | Fin b, Fin a =>
      if Rltb 0 a then Fin (atan (b / a))
      else if Rltb a 0 then
             (if Rltb b 0 then Fin (atan (b / a) - PI)
              else Fin (atan (b / a) + PI))
           else match sign b with
                | Gt => Fin (PI / 2)
                | Lt => Fin (- (PI / 2))
                | Eq => Fin 0
                end
  | Fin _, PInf => Fin 0
  | Fin b, NInf => if Rltb b 0 then Fin (- PI) else Fin PI
  | PInf, Fin _ => Fin (PI / 2)
  | NInf, Fin _ => Fin (- (PI / 2))
  | PInf, PInf => Fin (PI / 4)
  | PInf, NInf => Fin (3 * PI / 4)
  | NInf, PInf => Fin (- (PI / 4))
  | NInf, NInf => Fin (- (3 * PI / 4))
  end.

(** [Math.pow(x, n)] for a non-negative integer exponent [n]. *)
Definition Math_pow (x : number) (n : nat) : number :=
  match n with
  | O => Fin 1
  | S _ =>
      match x with
      | Fin r => Fin (r ^ n)
      | PInf => PInf
      | NInf => if Nat.even n then PInf else NInf
      | NaN => NaN
      end
  end.

Definition Math_max (x y : number) : number :=
  match x, y with
  | NaN, _ | _, NaN => NaN
  | _, _ => if gt y x then y else x
  end.

Definition Math_min (x y : number) : number :=
  match x, y with
  | NaN, _ | _, NaN => NaN
  | _, _ => if lt y x then y else x
  end.

(** A loop counter used as a number. *)
Definition of_nat (n : nat) : number := Fin (IZR (Z.of_nat n)).

End JsNumber.

Import JsNumber.

Declare Scope js_scope.
Delimit Scope js_scope with js.
Bind Scope js_scope with number.
Infix "+" := add : js_scope.
Infix "-" := sub : js_scope.
Infix "*" := mul : js_scope.
Infix "/" := div : js_scope.
Notation "- x" := (neg x) : js_scope.

Local Open Scope js_scope.

(** ** Runtime notions of JavaScript used by the engine *)

(** Outcome of a call: a returned value or a thrown exception. *)
Inductive JsError : Type :=
| TypeError.

Inductive completion (A : Type) : Type :=
| Return (a : A)
| Throw (e : JsError).
Arguments Return {A} a.
Arguments Throw {A} e.

(** Result of reading [obj[key]] on an object literal: an own property, a
    member inherited from [Object.prototype] (a function or an object, never
    a number), or [undefined]. *)
Inductive property (A : Type) : Type :=
| Own (a : A)
| Inherited
| Undefined.
Arguments Own {A} a.
Arguments Inherited {A}.
Arguments Undefined {A}.

Definition Object_prototype_keys : list string :=
  [ "constructor"; "hasOwnProperty"; "isPrototypeOf"; "propertyIsEnumerable";
    "toLocaleString"; "toString"; "valueOf"; "__proto__";
    "__defineGetter__"; "__defineSetter__"; "__lookupGetter__";
    "__lookupSetter__" ]%string.

Fixpoint own_property {A : Type} (obj : list (string * A)) (key : string)
  : option A :=
  match obj with
  | [] => None
  | (k, v) :: rest => if String.eqb k key then Some v else own_property rest key
  end.

Definition get_property {A : Type} (obj : list (string * A)) (key : string)
  : property A :=
  match own_property obj key with
  | Some v => Own v
  | None =>
      if existsb (String.eqb key) Object_prototype_keys then Inherited
      else Undefined
  end.

(** Numeric coercion of a looked-up member in an arithmetic context:
    [undefined], functions and plain objects all coerce to [NaN]. *)
Definition ToNumber (p : property number) : number :=
  match p with
  | Own n => n
  | Inherited | Undefined => NaN
  end.

(** The wall clock: [clock k] is what the [k]-th call of [Date.now()]
    returns; [reads] counts the calls made so far. *)
Record World : Type := {
  clock : nat -> number;
  reads : nat
}.

Definition Date_now (w : World) : number * World :=
  (clock w (reads w), {| clock := clock w; reads := S (reads w) |}).

(** ** Data model ([types/index.ts]) *)

Definition vec3 : Type := (number * number * number)%type.

Definition vec3_map (f : number -> number) (v : vec3) : vec3 :=
  let '(a, b, c) := v in (f a, f b, f c).

Record OrbitalElements : Type := {
  a : number;      (* semi-major axis (AU) *)
  e : number;      (* eccentricity *)
  i : number;      (* inclination (degrees) *)
  omega : number;  (* argument of periapsis (degrees) *)
  Omega : number;  (* longitude of ascending node (degrees) *)
  M : number;      (* mean anomaly (degrees) *)
  epoch : number   (* Julian date *)
}.

Record MissionConfig : Type := {
  launchWindow : string;
  propulsionType : string;
  payload : list string;
  trajectoryType : option string;
  fuelCapacity : option number;
  missionDuration : option number
}.

Record TrajectoryPoint : Type := {
  time : number;
  position : vec3;
  velocity : vec3;
  fuelMass : number;
  acceleration : vec3
}.

Record InterceptorTrajectory : Type := {
  points : list TrajectoryPoint;
  totalDeltaV : number;
  totalFuelUsed : number;
  flightTime : number;
  interceptProbability : number
}.

(** Result of [calculatePositionAtTime]. *)
Record StateVector : Type := {
  sv_position : vec3;
  sv_velocity : vec3
}.

(** Result of [orbitalStateVectors]: position and velocity in the orbital
    plane. *)
Record PlaneState : Type := {
  plane_position : number * number;
  plane_velocity : number * number
}.

(** ** Constant tables *)

Module Constants.
Definition AU : number := Fin 149597870.7.
Definition G : number := Fin 6.67430e-11.
Definition SOLAR_MASS : number := Fin 1.989e30.
Definition EARTH_MASS : number := Fin 5.972e24.
Definition GM_SUN : number := Fin 1.327e20.
Definition GM_EARTH : number := Fin 3.986e14.
Definition SPEED_OF_LIGHT : number := Fin 299792458.
Definition DAY_SECONDS : number := Fin 86400.
Definition YEAR_SECONDS : number := Fin 365.25 * Fin 86400.
End Constants.

Definition Math_PI : number := Fin PI.

Definition ATLAS_3I_ELEMENTS : OrbitalElements :=
  {| a := Fin (-2.1); e := Fin 6.141; i := Fin 175.1; omega := Fin 310.4;
     Omega := Fin 87.2; M := Fin 0; epoch := Fin 2460146.5 |}.

Definition PLANETARY_ELEMENTS : list (string * OrbitalElements) :=
  [ ("Mercury"%string,
     {| a := Fin 0.387; e := Fin 0.206; i := Fin 7.0; omega := Fin 29.1;
        Omega := Fin 48.3; M := Fin 0; epoch := Fin 2451545.0 |});
    ("Venus"%string,
     {| a := Fin 0.723; e := Fin 0.007; i := Fin 3.4; omega := Fin 54.9;
        Omega := Fin 76.7; M := Fin 0; epoch := Fin 2451545.0 |});
    ("Earth"%string,
     {| a := Fin 1.000; e := Fin 0.017; i := Fin 0.0; omega := Fin 114.2;
        Omega := Fin 0.0; M := Fin 0; epoch := Fin 2451545.0 |});
    ("Mars"%string,
     {| a := Fin 1.524; e := Fin 0.093; i := Fin 1.9; omega := Fin 286.5;
        Omega := Fin 49.6; M := Fin 0; epoch := Fin 2451545.0 |});
    ("Jupiter"%string,
     {| a := Fin 5.204; e := Fin 0.049; i := Fin 1.3; omega := Fin 273.9;
        Omega := Fin 100.5; M := Fin 0; epoch := Fin 2451545.0 |}) ].

(** ** The engine ([services/orbitalMechanics.ts]) *)

Module OrbitalMechanics.

Definition degToRad (degrees : number) : number :=
  degrees * (Math_PI / Fin 180).

Definition radToDeg (radians : number) : number :=
  radians * (Fin 180 / Math_PI).

(** The default of [centralBodyMass] is [Constants.SOLAR_MASS]; callers
    relying on it pass it explicitly. *)
Definition meanMotion (semiMajorAxis centralBodyMass : number) : number :=
  let auInMeters := semiMajorAxis * Constants.AU * Fin 1000 in
  Math_sqrt (Constants.G * centralBodyMass / Math_pow auInMeters 3).

(** The default of [tolerance] in both solvers. *)
Definition default_tolerance : number := Fin 1e-8.

(** One Newton-Raphson step of the elliptical solver: the body of its
    [while] loop, from the current [E] to the new [(E, deltaE)].  The step
    is the exact one; in binary64 the steps of the source follow it up to
    rounding while [|E|] is below [2 ^ 26], and can cycle without ever
    meeting the tolerance beyond. *)
Definition kepler_step (meanAnomaly eccentricity E : number)
  : number * number :=
  let f := E - eccentricity * Math_sin E - meanAnomaly in
  let df := Fin 1 - eccentricity * Math_cos E in
  let deltaE := f / df in
  (E - deltaE, deltaE).

(** [while (Math.abs(deltaE) > tolerance) { ... }] with at most [fuel]
    executions of the body. *)
Fixpoint kepler_while (fuel : nat) (meanAnomaly eccentricity tolerance : number)
  (E deltaE : number) : option number :=
  if gt (Math_abs deltaE) tolerance then
    match fuel with
    | O => None
    | S fuel' =>
        let '(E', deltaE') := kepler_step meanAnomaly eccentricity E in
        kepler_while fuel' meanAnomaly eccentricity tolerance E' deltaE'
    end
  else Some E.

Definition solveKeplerEquation (fuel : nat)
  (meanAnomaly eccentricity tolerance : number) : option number :=
  kepler_while fuel meanAnomaly eccentricity tolerance meanAnomaly (Fin 1).

(** The body of the [while] loop of the hyperbolic solver. *)
Definition hyperbolic_step (M e H : number) : number * number :=
  let f := e * Math_sinh H - H - M in
  let df := e * Math_cosh H - Fin 1 in
  let deltaH := f / df in
  (H - deltaH, deltaH).

Fixpoint hyperbolic_while (fuel : nat) (M e tolerance : number)
  (H deltaH : number) : option number :=
  if gt (Math_abs deltaH) tolerance then
    match fuel with
    | O => None
    | S fuel' =>
        let '(H', deltaH') := hyperbolic_step M e H in
        hyperbolic_while fuel' M e tolerance H' deltaH'
    end
  else Some H.

Definition solveHyperbolicKepler (fuel : nat) (M e tolerance : number)
  : option number :=
  hyperbolic_while fuel M e tolerance M (Fin 1).

Definition calculateTrueAnomaly (E e : number) : number :=
  Fin 2 * Math_atan2 (Math_sqrt (Fin 1 + e) * Math_sin (E / Fin 2))
                     (Math_sqrt (Fin 1 - e) * Math_cos (E / Fin 2)).

Definition calculateTrueAnomalyHyperbolic (H e : number) : number :=
  Fin 2 * Math_atan (Math_sqrt ((e + Fin 1) / (e - Fin 1))
                     * Math_tanh (H / Fin 2)).

Definition orbitalStateVectors (elements : OrbitalElements) (nu : number)
  : PlaneState :=
  let a := a elements in
  let e := e elements in
  let r := Math_abs a * (Fin 1 - e * e) / (Fin 1 + e * Math_cos nu) in
  let x := r * Math_cos nu in
  let y := r * Math_sin nu in
  let h := Math_sqrt (Constants.GM_SUN * Math_abs a * (Fin 1 - e * e)) in
  let vx := - h * Math_sin nu / r in
  let vy := h * (e + Math_cos nu) / r in
  {| plane_position := (x, y); plane_velocity := (vx, vy) |}.

(** The source never reads its [z] argument. *)
Definition transformToEcliptic (x y z : number) (elements : OrbitalElements)
  : vec3 :=
  let iRad := degToRad (i elements) in
  let omegaRad := degToRad (omega elements) in
  let OmegaRad := degToRad (Omega elements) in
  let cosOmega := Math_cos omegaRad in
  let sinOmega := Math_sin omegaRad in
  let cosI := Math_cos iRad in
  let sinI := Math_sin iRad in
  let cosCapitalOmega := Math_cos OmegaRad in
  let sinCapitalOmega := Math_sin OmegaRad in
  let X := (cosCapitalOmega * cosOmega - sinCapitalOmega * sinOmega * cosI) * x
           + (- cosCapitalOmega * sinOmega
              - sinCapitalOmega * cosOmega * cosI) * y in
  let Y := (sinCapitalOmega * cosOmega + cosCapitalOmega * sinOmega * cosI) * x
           + (- sinCapitalOmega * sinOmega
              + cosCapitalOmega * cosOmega * cosI) * y in
  let Z := (sinOmega * sinI) * x + (cosOmega * sinI) * y in
  (X, Y, Z).

(** Both branches end with the same rotation and unit conversion. *)
Definition ecliptic_state (elements : OrbitalElements) (nu : number)
  : StateVector :=
  let stateVectors := orbitalStateVectors elements nu in
  let '(x, y) := plane_position stateVectors in
  let '(vx, vy) := plane_velocity stateVectors in
  let '(X, Y, Z) := transformToEcliptic x y (Fin 0) elements in
  let '(VX, VY, VZ) := transformToEcliptic vx vy (Fin 0) elements in
  {| sv_position := (X / Constants.AU, Y / Constants.AU, Z / Constants.AU);
     sv_velocity := (VX / Fin 1000, VY / Fin 1000, VZ / Fin 1000) |}.

Definition calculatePositionAtTime (fuel : nat) (elements : OrbitalElements)
  (time : number) : option StateVector :=
  let a := a elements in
  let e := e elements in
  let epoch := epoch elements in
  let dt := (time - epoch) * Constants.DAY_SECONDS in
  if lt e (Fin 1) then
    let n := meanMotion (Math_abs a) Constants.SOLAR_MASS in
    let M := n * dt in
    match solveKeplerEquation fuel M e default_tolerance with
    | None => None
    | Some E =>
        let nu := calculateTrueAnomaly E e in
        Some (ecliptic_state elements nu)
    end
  else
    let n := Math_sqrt (Constants.GM_SUN
                        / Math_pow (Math_abs a * Constants.AU * Fin 1000) 3) in
    let M := n * dt in
    match solveHyperbolicKepler fuel M e default_tolerance with
    | None => None
    | Some H =>
        let nu := calculateTrueAnomalyHyperbolic H e in
        Some (ecliptic_state elements nu)
    end.

(** The [timeOfFlight] argument is accepted and ignored by the source. *)
Definition calculateDeltaV (r1 r2 : vec3) (timeOfFlight : number) : number :=
  let '(r1_0, r1_1, r1_2) := r1 in
  let '(r2_0, r2_1, r2_2) := r2 in
  let r1Mag := Math_sqrt (r1_0 * r1_0 + r1_1 * r1_1 + r1_2 * r1_2) in
  let r2Mag := Math_sqrt (r2_0 * r2_0 + r2_1 * r2_1 + r2_2 * r2_2) in
  let a := (r1Mag + r2Mag) / Fin 2 in
  let v1 := Math_sqrt (Constants.GM_SUN * (Fin 2 / r1Mag - Fin 1 / a)) in
  let v2 := Math_sqrt (Constants.GM_SUN * (Fin 2 / r2Mag - Fin 1 / a)) in
  let vCirc1 := Math_sqrt (Constants.GM_SUN / r1Mag) in
  let vCirc2 := Math_sqrt (Constants.GM_SUN / r2Mag) in
  let deltaV1 := Math_abs (v1 - vCirc1) in
  let deltaV2 := Math_abs (v2 - vCirc2) in
  deltaV1 + deltaV2.

Definition calculateFuelMass (deltaV isp dryMass : number) : number :=
  let ve := isp * Fin 9.81 in
  let massRatio := Math_exp (deltaV / ve) in
  dryMass * (massRatio - Fin 1).

Definition propulsionMultiplier : list (string * number) :=
  [ ("chemical"%string, Fin 0.9);
    ("ion"%string, Fin 0.95);
    ("nuclear"%string, Fin 0.85) ].

Definition calculateInterceptProbability (deltaV timeOfFlight : number)
  (config : MissionConfig) : number :=
  let baseProbability := Fin 0.85 in
  let baseProbability :=
    if gt deltaV (Fin 15000) then baseProbability * Fin 0.7
    else if gt deltaV (Fin 10000) then baseProbability * Fin 0.85
    else baseProbability in
  let flightTimeYears := timeOfFlight / Constants.YEAR_SECONDS in
  let baseProbability :=
    if gt flightTimeYears (Fin 2) then baseProbability * Fin 0.8
    else if gt flightTimeYears (Fin 1) then baseProbability * Fin 0.9
    else baseProbability in
  let baseProbability :=
    baseProbability
    * ToNumber (get_property propulsionMultiplier (propulsionType config)) in
  Math_max (Fin 0.1) (Math_min (Fin 0.99) baseProbability).

Record Propulsion : Type := {
  isp : number;
  thrust : number
}.

Definition propulsionEfficiency : list (string * Propulsion) :=
  [ ("chemical"%string, {| isp := Fin 450; thrust := Fin 100000 |});
    ("ion"%string, {| isp := Fin 3000; thrust := Fin 100 |});
    ("nuclear"%string, {| isp := Fin 900; thrust := Fin 50000 |}) ].

(** [propulsion.isp]: reading a member of [undefined] throws a [TypeError];
    an inherited member has no [isp], so the read gives [undefined], which the
    arithmetic of [calculateFuelMass] coerces to [NaN]. *)
Definition propulsion_isp (propulsion : property Propulsion)
  : completion number :=
  match propulsion with
  | Own p => Return (isp p)
  | Inherited => Return NaN
  | Undefined => Throw TypeError
  end.

Definition steps : nat := 100.

(** The body of the [for] loop at index [i]: one wall-clock reading and one
    trajectory point. *)
Definition trajectory_point (r1 r2 : vec3) (timeOfFlight fuelMass : number)
  (i : nat) (w : World) : TrajectoryPoint * World :=
  let '(r1_0, r1_1, r1_2) := r1 in
  let '(r2_0, r2_1, r2_2) := r2 in
  let t := of_nat i / of_nat steps in
  let '(now, w') := Date_now w in
  let currentTime := now + t * timeOfFlight * Fin 1000 in
  let position : vec3 :=
    (r1_0 + t * (r2_0 - r1_0),
     r1_1 + t * (r2_1 - r1_1),
     r1_2 + t * (r2_2 - r1_2)) in
  let velocity : vec3 :=
    ((r2_0 - r1_0) / timeOfFlight,
     (r2_1 - r1_1) / timeOfFlight,
     (r2_2 - r1_2) / timeOfFlight) in
  let acceleration : vec3 := (Fin 0, Fin 0, Fin 0) in
  ({| time := currentTime;
      position := vec3_map (fun x => x / Constants.AU / Fin 1000) position;
      velocity := vec3_map (fun x => x / Fin 1000) velocity;
      fuelMass := fuelMass * (Fin 1 - t);
      acceleration := acceleration |}, w').

(** [for (let i = ...; i <= steps; i++) { ...; points.push(...) }] with
    [remaining] iterations left, the next index being [i]. *)
Fixpoint trajectory_for (remaining i : nat) (r1 r2 : vec3)
  (timeOfFlight fuelMass : number) (points : list TrajectoryPoint) (w : World)
  : list TrajectoryPoint * World :=
  match remaining with
  | O => (points, w)
  | S remaining' =>
      let '(point, w') := trajectory_point r1 r2 timeOfFlight fuelMass i w in
      trajectory_for remaining' (S i) r1 r2 timeOfFlight fuelMass
        (points ++ [point]) w'
  end.

(** The [catch] block logs and rethrows, so a thrown exception propagates
    unchanged. *)
Definition calculateInterceptTrajectory (startPosition targetPosition : vec3)
  (timeOfFlight : number) (config : MissionConfig) (w : World)
  : completion InterceptorTrajectory * World :=
  let r1 := vec3_map (fun x => x * Constants.AU * Fin 1000) startPosition in
  let r2 := vec3_map (fun x => x * Constants.AU * Fin 1000) targetPosition in
  let propulsion := get_property propulsionEfficiency (propulsionType config) in
  let totalDeltaV := calculateDeltaV r1 r2 timeOfFlight in
  match propulsion_isp propulsion with
  | Throw err => (Throw err, w)
  | Return isp =>
      let fuelMass := calculateFuelMass totalDeltaV isp (Fin 1000) in
      let '(points, w') :=
        trajectory_for (S steps) 0 r1 r2 timeOfFlight fuelMass [] w in
      let interceptProbability :=
        calculateInterceptProbability totalDeltaV timeOfFlight config in
      (Return {| points := points;
                 totalDeltaV := totalDeltaV;
                 totalFuelUsed := fuelMass;
                 flightTime := timeOfFlight;
                 interceptProbability := interceptProbability |}, w')
  end.

End OrbitalMechanics.

Import OrbitalMechanics.

(** ** The position service ([OrbitalMechanics.getCurrentCelestialPositions]) *)

(** [obj[key] = value] on an object used as a map: an existing key keeps its
    place and takes the new value, a new key is appended. *)
Fixpoint set_property {A : Type} (obj : list (string * A)) (key : string)
  (value : A) : list (string * A) :=
  match obj with
  | [] => [(key, value)]
  | (k, x) :: rest =>
      if String.eqb k key then (k, value) :: rest
      else (k, x) :: set_property rest key value
  end.

(** [for (const [name, elements] of Object.entries(PLANETARY_ELEMENTS))]. *)
Fixpoint planetary_positions_for (fuel : nat)
  (entries : list (string * OrbitalElements)) (julianTime : number)
  (positions : list (string * vec3)) : option (list (string * vec3)) :=
  match entries with
  | [] => Some positions
  | (name, elements) :: rest =>
      match calculatePositionAtTime fuel elements julianTime with
      | None => None
      | Some planetState =>
          planetary_positions_for fuel rest julianTime
            (set_property positions name (sv_position planetState))
      end
  end.

(** The default of [time] is [Date.now()]; callers relying on it pass the
    clock reading explicitly. *)
Definition getCurrentCelestialPositions (fuel : nat) (time : number)
  : option (list (string * vec3)) :=
  let julianTime :=
    time / Fin 1000 / Constants.DAY_SECONDS + Fin 2440587.5 in
  let positions : list (string * vec3) := [] in
  match calculatePositionAtTime fuel ATLAS_3I_ELEMENTS julianTime with
  | None => None
  | Some atlasState =>
      let positions :=
        set_property positions "3I/ATLAS" (sv_position atlasState) in
      planetary_positions_for fuel PLANETARY_ELEMENTS julianTime positions
  end.

(** ** Route handlers *)

(** The envelope of a JSON answer, with the members the handlers below
    write ([ApiResponse] of [types/index.ts]). *)
Record ApiResponse (T : Type) : Type := {
  success : bool;
  data : T;
  timestamp : number
}.
Arguments success {T} _.
Arguments data {T} _.
Arguments timestamp {T} _.

(** What a handler does with a request: it answers with a JSON body, or it
    throws -- an exception of the engine, logged and rethrown by the [catch]
    block, or an [Error] of its own -- and leaves the answer to the error
    middleware. *)
Inductive RouteError : Type :=
| Rethrown (err : JsError)
| Error (message : string).

Inductive handled (A : Type) : Type :=
| Json (body : A)
| Thrown (err : RouteError).
Arguments Json {A} body.
Arguments Thrown {A} err.

(** Truthiness of a number: every number but [0] and [NaN]. *)
Definition truthy (x : number) : bool :=
  match x with
  | Fin r => negb (Reqb r 0)
  | PInf | NInf => true
  | NaN => false
  end.

(** [array.push(x)] on a list. *)
Definition push {A : Type} (array : list A) (x : A) : list A := array ++ [x].

(** *** [routes/mission.ts] *)

Module MissionCalculationResponse.
Record t : Type := {
  trajectory : InterceptorTrajectory;
  estimatedFuelUsage : number;
  interceptProbability : number;
  timeToTarget : number;
  warnings : list string
}.
End MissionCalculationResponse.

Module MissionValidation.
Record t : Type := {
  valid : bool;
  warnings : list string
}.
End MissionValidation.

Module MissionRoutes.

Definition velocityEstimates : list (string * number) :=
  [ ("chemical"%string, Fin 15);
    ("ion"%string, Fin 8);
    ("nuclear"%string, Fin 25) ].

(** [router.post('/calculate', ...)] from the point where
    [missionConfigSchema.validate] has accepted the body: [config] is the
    validated value and [launchTime] is what
    [new Date(config.launchWindow).getTime()] evaluates to.  The keys
    ['Earth'] and ['3I/ATLAS'] are not members of [Object.prototype], so
    reading them is reading an own property. *)
Definition calculate (fuel : nat) (config : MissionConfig)
  (launchTime : number) (w : World)
  : option (handled (ApiResponse MissionCalculationResponse.t) * World) :=
  match getCurrentCelestialPositions fuel launchTime with
  | None => None
  | Some positions =>
      match own_property positions "Earth",
            own_property positions "3I/ATLAS" with
      | Some earthPosition, Some atlasPosition =>
          let '(earth_0, earth_1, earth_2) := earthPosition in
          let '(atlas_0, atlas_1, atlas_2) := atlasPosition in
          let distance :=
            Math_sqrt (Math_pow (atlas_0 - earth_0) 2
                       + Math_pow (atlas_1 - earth_1) 2
                       + Math_pow (atlas_2 - earth_2) 2) in
          let estimatedVelocity :=
            ToNumber (get_property velocityEstimates (propulsionType config)) in
          let timeOfFlight :=
            (distance * Fin 149597870.7) / estimatedVelocity in
          match calculateInterceptTrajectory earthPosition atlasPosition
                  timeOfFlight config w with
          | (Throw err, w') => Some (Thrown (Rethrown err), w')
          | (Return trajectory, w') =>
              let warnings : list string := [] in
              let warnings :=
                if lt (interceptProbability trajectory) (Fin 50)
                then push warnings
                       "Low intercept probability - consider adjusting mission parameters"%string
                else warnings in
              let warnings :=
                if gt (totalDeltaV trajectory) (Fin 12000)
                then push warnings
                       "High delta-V requirement - may exceed fuel capacity"%string
                else warnings in
              let warnings :=
                if gt (flightTime trajectory)
                      (Fin 3 * Fin 365 * Fin 24 * Fin 60 * Fin 60)
                then push warnings
                       "Extended mission duration - consider reliability factors"%string
                else warnings in
              let response :=
                {| MissionCalculationResponse.trajectory := trajectory;
                   MissionCalculationResponse.estimatedFuelUsage :=
                     totalFuelUsed trajectory;
                   MissionCalculationResponse.interceptProbability :=
                     interceptProbability trajectory;
                   MissionCalculationResponse.timeToTarget :=
                     flightTime trajectory;
                   MissionCalculationResponse.warnings := warnings |} in
              let '(now, w'') := Date_now w' in
              Some (Json {| success := true; data := response;
                            timestamp := now |}, w'')
          end
      | _, _ =>
          Some (Thrown (Error "Unable to calculate celestial body positions"),
                w)
      end
  end.

(** [router.post('/validate', ...)] for a body that
    [missionConfigSchema.validate] has accepted, with [config] and
    [launchTime] as above. *)
Definition validate (config : MissionConfig) (launchTime : number)
  (w : World) : ApiResponse MissionValidation.t * World :=
  let warnings : list string := [] in
  let '(now, w') := Date_now w in
  let warnings :=
    if lt launchTime now
    then push warnings "Launch window is in the past"%string
    else warnings in
  let warnings :=
    if gt launchTime
          (now + Fin 5 * Fin 365 * Fin 24 * Fin 60 * Fin 60 * Fin 1000)
    then push warnings
           "Launch window is very far in the future - orbital predictions may be inaccurate"%string
    else warnings in
  let warnings :=
    if existsb (String.eqb "probe"%string) (payload config)
       && String.eqb (propulsionType config) "ion"
    then push warnings
           "Ion propulsion may not provide sufficient thrust for probe deployment"%string
    else warnings in
  let warnings :=
    if match fuelCapacity config with
       | Some capacity => truthy capacity && lt capacity (Fin 1000)
       | None => false
       end
       && String.eqb (propulsionType config) "chemical"
    then push warnings "Low fuel capacity for chemical propulsion system"%string
    else warnings in
  let '(stamp, w'') := Date_now w' in
  ({| success := true;
      data := {| MissionValidation.valid := true;
                 MissionValidation.warnings := warnings |};
      timestamp := stamp |}, w'').

End MissionRoutes.

(** *** [routes/celestial.ts] *)

Module CelestialBody.
Record t : Type := {
  id : string;
  name : string;
  type : string;
  position : vec3;
  velocity : vec3;
  mass : number;
  radius : number;
  color : string;
  orbitalElements : option OrbitalElements
}.
End CelestialBody.

(** [PLANETARY_ELEMENTS.Mercury] and the like: an own property of the table. *)
Definition CELESTIAL_BODIES : list CelestialBody.t :=
  [ {| CelestialBody.id := "sun"; CelestialBody.name := "Sun";
       CelestialBody.type := "star";
       CelestialBody.position := (Fin 0, Fin 0, Fin 0);
       CelestialBody.velocity := (Fin 0, Fin 0, Fin 0);
       CelestialBody.mass := Fin 1.989e30; CelestialBody.radius := Fin 696340;
       CelestialBody.color := "#FFD700";
       CelestialBody.orbitalElements := None |};
    {| CelestialBody.id := "mercury"; CelestialBody.name := "Mercury";
       CelestialBody.type := "planet";
       CelestialBody.position := (Fin 0.387, Fin 0, Fin 0);
       CelestialBody.velocity := (Fin 0, Fin 47.87, Fin 0);
       CelestialBody.mass := Fin 3.301e23; CelestialBody.radius := Fin 2439.7;
       CelestialBody.color := "#8C7853";
       CelestialBody.orbitalElements :=
         own_property PLANETARY_ELEMENTS "Mercury" |};
    {| CelestialBody.id := "venus"; CelestialBody.name := "Venus";
       CelestialBody.type := "planet";
       CelestialBody.position := (Fin 0.723, Fin 0, Fin 0);
       CelestialBody.velocity := (Fin 0, Fin 35.02, Fin 0);
       CelestialBody.mass := Fin 4.867e24; CelestialBody.radius := Fin 6051.8;
       CelestialBody.color := "#FFC649";
       CelestialBody.orbitalElements :=
         own_property PLANETARY_ELEMENTS "Venus" |};
    {| CelestialBody.id := "earth"; CelestialBody.name := "Earth";
       CelestialBody.type := "planet";
       CelestialBody.position := (Fin 1.0, Fin 0, Fin 0);
       CelestialBody.velocity := (Fin 0, Fin 29.78, Fin 0);
       CelestialBody.mass := Fin 5.972e24; CelestialBody.radius := Fin 6371;
       CelestialBody.color := "#6B93D6";
       CelestialBody.orbitalElements :=
         own_property PLANETARY_ELEMENTS "Earth" |};
    {| CelestialBody.id := "mars"; CelestialBody.name := "Mars";
       CelestialBody.type := "planet";
       CelestialBody.position := (Fin 1.524, Fin 0, Fin 0);
       CelestialBody.velocity := (Fin 0, Fin 24.07, Fin 0);
       CelestialBody.mass := Fin 6.39e23; CelestialBody.radius := Fin 3389.5;
       CelestialBody.color := "#CD5C5C";
       CelestialBody.orbitalElements :=
         own_property PLANETARY_ELEMENTS "Mars" |};
    {| CelestialBody.id := "jupiter"; CelestialBody.name := "Jupiter";
       CelestialBody.type := "planet";
       CelestialBody.position := (Fin 5.204, Fin 0, Fin 0);
       CelestialBody.velocity := (Fin 0, Fin 13.07, Fin 0);
       CelestialBody.mass := Fin 1.898e27; CelestialBody.radius := Fin 69911;
       CelestialBody.color := "#D8CA9D";
       CelestialBody.orbitalElements :=
         own_property PLANETARY_ELEMENTS "Jupiter" |} ]%string.

(** An element of the answer of [GET /bodies]:
    [{ ...body, position, lastUpdated, dataSource }]. *)
Module PositionedBody.
Record t : Type := {
  id : string;
  name : string;
  type : string;
  position : vec3;
  velocity : vec3;
  mass : number;
  radius : number;
  color : string;
  orbitalElements : option OrbitalElements;
  lastUpdated : number;
  dataSource : string
}.
End PositionedBody.

Module BodiesResponse.
Record Metadata : Type := {
  liveDataCount : number;
  totalBodies : number
}.
Record t : Type := {
  success : bool;
  data : list PositionedBody.t;
  timestamp : number;
  metadata : option Metadata;
  warning : option string
}.
End BodiesResponse.

Module AtlasData.
Record PhysicalProperties : Type := {
  nucleusRadius : number;
  rotationPeriod : number;
  activity : string;
  composition : list string
}.
Record t : Type := {
  id : string;
  designation : string;
  discoveryDate : string;
  position : vec3;
  velocity : vec3;
  orbitalElements : OrbitalElements;
  physicalProperties : PhysicalProperties
}.
End AtlasData.

(** [req.query.time ? Number(req.query.time) : Date.now()]: [query_time] is
    [Number(req.query.time)] when the parameter is present and not empty. *)
Definition request_time (query_time : option number) (w : World)
  : number * World :=
  match query_time with
  | Some time => (time, w)
  | None => Date_now w
  end.

Section CelestialRoutes.

(** The two requests to the JPL Horizons service, with their caches: they
    are given the request time, may read the clock, and yield a record of
    positions -- or reject, [None] -- respectively a position or [null]. *)
Variable fetchAllPlanetaryPositions :
  number -> World -> option (list (string * vec3)) * World.
Variable fetchAtlasLivePosition : number -> World -> option vec3 * World.

(** [{ ...body, position, lastUpdated: time, dataSource }]. *)
Definition positioned (body : CelestialBody.t) (position : vec3)
  (time : number) (dataSource : string) : PositionedBody.t :=
  {| PositionedBody.id := CelestialBody.id body;
     PositionedBody.name := CelestialBody.name body;
     PositionedBody.type := CelestialBody.type body;
     PositionedBody.position := position;
     PositionedBody.velocity := CelestialBody.velocity body;
     PositionedBody.mass := CelestialBody.mass body;
     PositionedBody.radius := CelestialBody.radius body;
     PositionedBody.color := CelestialBody.color body;
     PositionedBody.orbitalElements := CelestialBody.orbitalElements body;
     PositionedBody.lastUpdated := time;
     PositionedBody.dataSource := dataSource |}.

(** [a[key] || b], for records of positions read at the name of a body (no
    such name is a member of [Object.prototype]). *)
Definition or_else (a : option vec3) (b : vec3) : vec3 :=
  match a with
  | Some position => position
  | None => b
  end.

(** [router.get('/bodies', ...)]. *)
Definition bodies (fuel : nat) (query_time : option number) (w : World)
  : option (BodiesResponse.t * World) :=
  let '(time, w) := request_time query_time w in
  match fetchAllPlanetaryPositions time w with
  | (Some livePositions, w) =>
      match getCurrentCelestialPositions fuel time with
      | None => None
      | Some fallbackPositions =>
          let bodiesWithPositions :=
            map (fun body =>
                   positioned body
                     (or_else
                        (own_property livePositions (CelestialBody.name body))
                        (or_else
                           (own_property fallbackPositions
                              (CelestialBody.name body))
                           (CelestialBody.position body)))
                     time
                     (match own_property livePositions
                              (CelestialBody.name body) with
                      | Some _ => "nasa_live"
                      | None => "calculated"
                      end)%string)
                CELESTIAL_BODIES in
          let '(now, w) := Date_now w in
          Some ({| BodiesResponse.success := true;
                   BodiesResponse.data := bodiesWithPositions;
                   BodiesResponse.timestamp := now;
                   BodiesResponse.metadata :=
                     Some {| BodiesResponse.liveDataCount :=
                               of_nat (List.length livePositions);
                             BodiesResponse.totalBodies :=
                               of_nat (List.length bodiesWithPositions) |};
                   BodiesResponse.warning := None |}, w)
      end
  | (None, w) =>
      match getCurrentCelestialPositions fuel time with
      | None => None
      | Some fallbackPositions =>
          let bodiesWithPositions :=
            map (fun body =>
                   positioned body
                     (or_else
                        (own_property fallbackPositions
                           (CelestialBody.name body))
                        (CelestialBody.position body))
                     time "calculated_fallback"%string)
                CELESTIAL_BODIES in
          let '(now, w) := Date_now w in
          Some ({| BodiesResponse.success := true;
                   BodiesResponse.data := bodiesWithPositions;
                   BodiesResponse.timestamp := now;
                   BodiesResponse.metadata := None;
                   BodiesResponse.warning :=
                     Some "Using calculated positions due to API error"%string
                |}, w)
      end
  end.

(** [router.get('/atlas', ...)]. *)
Definition atlas (fuel : nat) (query_time : option number) (w : World)
  : option (ApiResponse AtlasData.t * World) :=
  let '(time, w) := request_time query_time w in
  let julianTime := time / Fin 1000 / Fin 86400 + Fin 2440587.5 in
  let '(livePos, w) := fetchAtlasLivePosition time w in
  match
    match livePos with
    | Some position => Some (position, (Fin 0, Fin 0, Fin 0))
    | None =>
        match calculatePositionAtTime fuel ATLAS_3I_ELEMENTS julianTime with
        | None => None
        | Some state => Some (sv_position state, sv_velocity state)
        end
    end
  with
  | None => None
  | Some (position, velocity) =>
      let atlasData :=
        {| AtlasData.id := "3I/ATLAS";
           AtlasData.designation := "C/2025 N1";
           AtlasData.discoveryDate := "2025-07-01";
           AtlasData.position := position;
           AtlasData.velocity := velocity;
           AtlasData.orbitalElements := ATLAS_3I_ELEMENTS;
           AtlasData.physicalProperties :=
             {| AtlasData.nucleusRadius := Fin 1.4;
                AtlasData.rotationPeriod := Fin 16.79;
                AtlasData.activity := "active";
                AtlasData.composition :=
                  ["H2O ice"; "CO2 ice"; "CO"; "HCN"; "dust"] |} |}%string in
      let '(now, w) := Date_now w in
      Some ({| success := true; data := atlasData; timestamp := now |}, w)
  end.

End CelestialRoutes.

(** *** [sockets/socketHandlers.ts] *)

Module SocketHandlers.

(** What a handler sends back with [socket.emit]. *)
Inductive emitted : Type :=
| trajectory_calculated (config : MissionConfig)
    (trajectory : InterceptorTrajectory) (positions : list (string * vec3))
    (timestamp : number)
| mission_alert (type message : string) (timestamp : number).

(** [socket.on('update-mission-config', ...)]: [launchTime] is what
    [new Date(config.launchWindow).getTime()] evaluates to.  Nothing
    validates [config] here; an exception of the engine ends in the [catch]
    block, which emits an alert. *)
Definition update_mission_config (fuel : nat) (config : MissionConfig)
  (launchTime : number) (w : World) : option (list emitted * World) :=
  match getCurrentCelestialPositions fuel launchTime with
  | None => None
  | Some positions =>
      match own_property positions "Earth",
            own_property positions "3I/ATLAS" with
      | Some earthPosition, Some atlasPosition =>
          match calculateInterceptTrajectory earthPosition atlasPosition
                  (Fin 365 * Fin 24 * Fin 60 * Fin 60) config w with
          | (Return trajectory, w) =>
              let '(now, w) := Date_now w in
              Some ([trajectory_calculated config trajectory positions now],
                    w)
          | (Throw _, w) =>
              let '(now, w) := Date_now w in
              Some ([mission_alert "error"
                       "Failed to process mission configuration" now], w)
          end
      | _, _ => Some ([], w)
      end
  end.

End SocketHandlers.

(** *** [routes/simulation.ts] *)

(** [Math.floor], the remainder operator [%] (whose result has the sign of
    the dividend) and the conversion of a number to a string.  Every
    integer up to [2 ^ 53] in absolute value is a binary64 number and is
    printed with all its digits; the digits of any other finite number
    depend on its binary64 representation (at most 17 of them are
    significant): for those [Number_toString] yields [None]. *)
Definition Math_floor (x : number) : number :=
  match x with
  | Fin r => Fin (IZR (Zfloor r))
  | PInf => PInf
  | NInf => NInf
  | NaN => NaN
  end.

Definition truncate (q : R) : Z := if Rltb q 0 then Zceil q else Zfloor q.

Definition remainder (x y : number) : number :=
  match x, y with
  | NaN, _ | _, NaN => NaN
  | PInf, _ | NInf, _ => NaN
  | Fin a, PInf | Fin a, NInf => Fin a
  | Fin a, Fin b =>
      if Reqb b 0 then NaN else Fin (a - b * IZR (truncate (a / b)))
  end.

Definition digit (n : nat) : Ascii.ascii := Ascii.ascii_of_nat (48 + n).

(** The decimal digits of [n] in front of [tail]; [fuel] bounds their
    number. *)
Fixpoint digits (fuel n : nat) (tail : string) : string :=
  match fuel with
  | O => tail
  | S fuel' =>
      let tail' := String (digit (n mod 10)) tail in
      if n <? 10 then tail' else digits fuel' (n / 10) tail'
  end.

Definition decimal (n : nat) : string := digits (S n) n "".

Definition Number_toString (x : number) : option string :=
  match x with
  | Fin r =>
      let z := Zfloor r in
      if Reqb r (IZR z) && (Z.abs z <=? 2 ^ 53)%Z then
        Some (if (z <? 0)%Z then ("-" ++ decimal (Z.abs_nat z))%string
              else decimal (Z.abs_nat z))
      else None
  | PInf => Some "Infinity"%string
  | NInf => Some "-Infinity"%string
  | NaN => Some "NaN"%string
  end.

(** [s.padStart(targetLength, fill)] for a [fill] of one character. *)
Fixpoint repeat_before (fill : Ascii.ascii) (count : nat) (s : string) : string :=
  match count with
  | O => s
  | S count' => String fill (repeat_before fill count' s)
  end.

Definition padStart (s : string) (targetLength : nat) (fill : Ascii.ascii)
  : string :=
  repeat_before fill (targetLength - String.length s) s.

(** [(digit 0)] is the character ['0']. *)
Definition formatTime (seconds : number) : option string :=
  let hours := Math_floor (seconds / Fin 3600) in
  let minutes := Math_floor (remainder seconds (Fin 3600) / Fin 60) in
  let secs := Math_floor (remainder seconds (Fin 60)) in
  match Number_toString hours, Number_toString minutes,
        Number_toString secs with
  | Some hours, Some minutes, Some secs =>
      Some (padStart hours 2 (digit 0) ++ ":" ++ padStart minutes 2 (digit 0)
            ++ ":" ++ padStart secs 2 (digit 0))%string
  | _, _, _ => None
  end.

Inductive Phase : Type :=
| PLANNING | LAUNCH | CRUISE | APPROACH | INTERCEPT | COMPLETE | FAILED.

Module MissionStatus.
Record t : Type := {
  phase : Phase;
  timeToIntercept : string;
  distanceToTarget : number;
  velocity : number;
  fuelRemaining : number;
  successProbability : number;
  missionElapsed : string
}.
End MissionStatus.

Module SimulationState.
Record t : Type := {
  id : string;
  isRunning : bool;
  currentTime : number;
  timeAcceleration : number;
  elapsedTime : number;
  config : MissionConfig
}.
End SimulationState.

Definition calculateMissionStatus (simulation : SimulationState.t)
  : option MissionStatus.t :=
  let elapsedDays :=
    SimulationState.elapsedTime simulation / (Fin 24 * Fin 60 * Fin 60) in
  let phase :=
    if SimulationState.isRunning simulation then
      if lt elapsedDays (Fin 1) then LAUNCH
      else if lt elapsedDays (Fin 30) then CRUISE
      else if lt elapsedDays (Fin 365) then APPROACH
      else INTERCEPT
    else PLANNING in
  let timeToIntercept := Math_max (Fin 365 - elapsedDays) (Fin 0) in
  let distanceToTarget :=
    Math_max (Fin 1000000 - elapsedDays * Fin 50000) (Fin 10000) in
  let velocity := Fin 15 + elapsedDays * Fin 0.1 in
  let fuelRemaining := Math_max (Fin 100 - elapsedDays * Fin 0.3) (Fin 0) in
  match formatTime (timeToIntercept * Fin 24 * Fin 60 * Fin 60),
        formatTime (SimulationState.elapsedTime simulation) with
  | Some timeToIntercept, Some missionElapsed =>
      Some {| MissionStatus.phase := phase;
              MissionStatus.timeToIntercept := timeToIntercept;
              MissionStatus.distanceToTarget := distanceToTarget;
              MissionStatus.velocity := velocity;
              MissionStatus.fuelRemaining := fuelRemaining;
              MissionStatus.successProbability :=
                Math_max (Fin 85 - elapsedDays * Fin 0.1) (Fin 20);
              MissionStatus.missionElapsed := missionElapsed |}
  | _, _ => None
  end.

(** The payload of a 'simulation-tick' event. *)
Module SimulationTick.
Record t : Type := {
  simulationId : string;
  time : number;
  positions : list (string * vec3);
  status : MissionStatus.t
}.
End SimulationTick.

(** [map.delete(key)]: no entry is left under [key]. *)
Fixpoint delete_property {A : Type} (obj : list (string * A)) (key : string)
  : list (string * A) :=
  match obj with
  | [] => []
  | (k, x) :: rest =>
      if String.eqb k key then delete_property rest key
      else (k, x) :: delete_property rest key
  end.

(** The two maps of the module: the simulations and their timers (a timer
    is represented by its handle). *)
Record SimulationStore : Type := {
  simulations : list (string * SimulationState.t);
  simulationIntervals : list (string * nat)
}.

(** [updateSimulation]: the new store and the events emitted; [io] tells
    whether [global.io] is set.  The source mutates the stored object in
    place and stores it again at the end; its [try] block contains no call
    that throws. *)
Definition updateSimulation (fuel : nat) (io : bool) (simulationId : string)
  (store : SimulationStore) (w : World)
  : option (SimulationStore * list SimulationTick.t * World) :=
  match own_property (simulations store) simulationId with
  | None => Some (store, [], w)
  | Some simulation =>
      if negb (SimulationState.isRunning simulation) then Some (store, [], w)
      else
        let '(now, w) := Date_now w in
        let simulation :=
          {| SimulationState.id := SimulationState.id simulation;
             SimulationState.isRunning := SimulationState.isRunning simulation;
             SimulationState.currentTime := now;
             SimulationState.timeAcceleration :=
               SimulationState.timeAcceleration simulation;
             SimulationState.elapsedTime :=
               SimulationState.elapsedTime simulation + Fin 1;
             SimulationState.config := SimulationState.config simulation |} in
        match getCurrentCelestialPositions fuel
                (SimulationState.currentTime simulation) with
        | None => None
        | Some positions =>
            match calculateMissionStatus simulation with
            | None => None
            | Some missionStatus =>
                let emitted :=
                  if io then
                    [ {| SimulationTick.simulationId := simulationId;
                         SimulationTick.time :=
                           SimulationState.currentTime simulation;
                         SimulationTick.positions := positions;
                         SimulationTick.status := missionStatus |} ]
                  else [] in
                let stop :=
                  gt (SimulationState.elapsedTime simulation)
                     (Fin 365 * Fin 24 * Fin 60 * Fin 60) in
                let intervals :=
                  if stop then
                    match own_property (simulationIntervals store)
                            simulationId with
                    | Some _ =>
                        delete_property (simulationIntervals store)
                          simulationId
                    | None => simulationIntervals store
                    end
                  else simulationIntervals store in
                let simulation :=
                  if stop then
                    {| SimulationState.id := SimulationState.id simulation;
                       SimulationState.isRunning := false;
                       SimulationState.currentTime :=
                         SimulationState.currentTime simulation;
                       SimulationState.timeAcceleration :=
                         SimulationState.timeAcceleration simulation;
                       SimulationState.elapsedTime :=
                         SimulationState.elapsedTime simulation;
                       SimulationState.config :=
                         SimulationState.config simulation |}
                  else simulation in
                Some ({| simulations :=
                           set_property (simulations store) simulationId
                             simulation;
                         simulationIntervals := intervals |}, emitted, w)
            end
        end
  end.

(** The timer that [setInterval] registered for [simulationId] comes due
    [count] times: as long as it has not been cleared, each time is a call
    of [updateSimulation].  The events are collected in order. *)
Fixpoint timer_fires (fuel : nat) (io : bool) (simulationId : string)
  (count : nat) (store : SimulationStore) (w : World)
  : option (SimulationStore * list SimulationTick.t * World) :=
  match count with
  | O => Some (store, [], w)
  | S count' =>
      match own_property (simulationIntervals store) simulationId with
      | None => Some (store, [], w)
      | Some _ =>
          match updateSimulation fuel io simulationId store w with
          | None => None
          | Some (store', emitted, w') =>
              match timer_fires fuel io simulationId count' store' w' with
              | None => None
              | Some (store'', emitted', w'') =>
                  Some (store'', emitted ++ emitted', w'')
              end
          end
      end
  end.

(** [x >= y]: false as soon as one side is [NaN]. *)
Definition ge (x y : number) : bool :=
  match x, y with
  | NaN, _ | _, NaN => false
  | Fin a, Fin b => negb (Rltb a b)
  | PInf, _ => true
  | _, NInf => true
  | _, _ => false
  end.

(** The answer of [POST /start]: the HTTP status and the members of the
    JSON body. *)
Module StartAnswer.
Record t : Type := {
  status : nat;
  success : bool;
  error : option string;
  data : option (string * SimulationState.t);
  timestamp : number
}.
End StartAnswer.

Section SimulationRoutes.

(** [generateSimulationId] reads the clock and [Math.random()];
    [maxConcurrent] is
    [parseInt(process.env.MAX_CONCURRENT_SIMULATIONS || '10')]. *)
Variable generateSimulationId : World -> string * World.
Variable maxConcurrent : number.

(** [router.post('/start', ...)] for a body that
    [missionConfigSchema.validate] has accepted; [handle] is the timer that
    [setInterval] returns. *)
Definition start (config : MissionConfig) (handle : nat)
  (store : SimulationStore) (w : World)
  : StartAnswer.t * SimulationStore * World :=
  let '(simulationId, w) := generateSimulationId w in
  if ge (of_nat (List.length (simulations store))) maxConcurrent then
    let '(now, w) := Date_now w in
    ({| StartAnswer.status := 429;
        StartAnswer.success := false;
        StartAnswer.error :=
          Some "Maximum concurrent simulations reached"%string;
        StartAnswer.data := None;
        StartAnswer.timestamp := now |}, store, w)
  else
    let '(now, w) := Date_now w in
    let simulationState :=
      {| SimulationState.id := simulationId;
         SimulationState.isRunning := true;
         SimulationState.currentTime := now;
         SimulationState.timeAcceleration := Fin 1;
         SimulationState.elapsedTime := Fin 0;
         SimulationState.config := config |} in
    let store :=
      {| simulations :=
           set_property (simulations store) simulationId simulationState;
         simulationIntervals :=
           set_property (simulationIntervals store) simulationId handle |} in
    let '(stamp, w) := Date_now w in
    ({| StartAnswer.status := 200;
        StartAnswer.success := true;
        StartAnswer.error := None;
        StartAnswer.data := Some (simulationId, simulationState);
        StartAnswer.timestamp := stamp |}, store, w).

(** What happens to the module over time: a validated [POST /start]
    arrives, or the timer of a simulation comes due. *)
Inductive occurrence : Type :=
| start_request (config : MissionConfig) (handle : nat)
| timer_due (simulationId : string).

(** The answers to the start requests and the stores after a sequence of
    occurrences; a cleared timer does not fire. *)
Fixpoint serve (fuel : nat) (io : bool) (occurrences : list occurrence)
  (store : SimulationStore) (w : World)
  : option (list StartAnswer.t * SimulationStore * World) :=
  match occurrences with
  | [] => Some ([], store, w)
  | start_request config handle :: rest =>
      let '(answer, store, w) := start config handle store w in
      match serve fuel io rest store w with
      | None => None
      | Some (answers, store, w) => Some (answer :: answers, store, w)
      end
  | timer_due simulationId :: rest =>
      match own_property (simulationIntervals store) simulationId with
      | None => serve fuel io rest store w
      | Some _ =>
          match updateSimulation fuel io simulationId store w with
          | None => None
          | Some (store, _, w) => serve fuel io rest store w
          end
      end
  end.

End SimulationRoutes.

Definition empty_store : SimulationStore :=
  {| simulations := []; simulationIntervals := [] |}.

(** ** Specified quantities and sample inputs *)

Definition year_seconds : R := 365.25 * 86400.

Definition deltaV_factor (deltaV : number) : R :=
  if gt deltaV (Fin 15000) then 0.7
  else if gt deltaV (Fin 10000) then 0.85
  else 1.

Definition flightTime_factor (timeOfFlight : number) : R :=
  if gt timeOfFlight (Fin (2 * year_seconds)) then 0.8
  else if gt timeOfFlight (Fin (1 * year_seconds)) then 0.9
  else 1.

Definition propulsion_factor (propulsion : string) : option R :=
  if String.eqb propulsion "chemical" then Some 0.9%R
  else if String.eqb propulsion "ion" then Some 0.95%R
  else if String.eqb propulsion "nuclear" then Some 0.85%R
  else None.

Definition clamp (lo hi x : R) : R := Rmax lo (Rmin hi x).

Definition specified_probability (deltaV timeOfFlight : number) (factor : R) : R :=
  clamp 0.1 0.99
    (0.85 * deltaV_factor deltaV * flightTime_factor timeOfFlight * factor).


Definition sample_config (propulsion : string) : MissionConfig :=
  {| launchWindow := "2025-10-29T00:00:00.000Z";
     propulsionType := propulsion;
     payload := ["camera"%string];
     trajectoryType := None;
     fuelCapacity := None;
     missionDuration := None |}.

Definition other_config (propulsion : string) : MissionConfig :=
  {| launchWindow := "2026-01-01T00:00:00.000Z";
     propulsionType := propulsion;
     payload := ["spectrometer"%string; "probe"%string];
     trajectoryType := Some "hohmann"%string;
     fuelCapacity := Some (Fin 5000);
     missionDuration := Some (Fin 400) |}.

(** The world after [k] further calls of [Date.now()]. *)
Definition advance (w : World) (k : nat) : World :=
  {| clock := clock w; reads := (reads w + k)%nat |}.

(** The point pushed by the [k]-th iteration of a loop started at index [i]
    in world [w]. *)
Definition sample (r1 r2 : vec3) (timeOfFlight fuel : number) (w : World)
  (i k : nat) : TrajectoryPoint :=
  fst (trajectory_point r1 r2 timeOfFlight fuel (i + k) (advance w k)).

(** A position given in AU, converted to metres as the builder does. *)
Definition metres (x : number) : number := x * Constants.AU * Fin 1000.

(** The velocity the builder reports: (target - start) in metres, divided by
    the flight time, converted to km/s. *)
Definition reported_velocity (startPosition targetPosition : vec3)
  (timeOfFlight : number) : vec3 :=
  let '(s0, s1, s2) := startPosition in
  let '(t0, t1, t2) := targetPosition in
  ((metres t0 - metres s0) / timeOfFlight / Fin 1000,
   (metres t1 - metres s1) / timeOfFlight / Fin 1000,
   (metres t2 - metres s2) / timeOfFlight / Fin 1000).

(** Euclidean norm of a finite vector. *)
Definition norm3 (x y z : R) : R := sqrt (x * x + y * y + z * z).

Definition fin3 (x y z : R) : vec3 := (Fin x, Fin y, Fin z).

(** The delta-v heuristic on two heliocentric distances (metres). *)
Definition visviva_deltaV (m1 m2 : R) : R :=
  let gm := 1.327e20%R in
  let a := ((m1 + m2) / 2)%R in
  (Rabs (sqrt (gm * (2 / m1 - 1 / a)) - sqrt (gm / m1))
   + Rabs (sqrt (gm * (2 / m2 - 1 / a)) - sqrt (gm / m2)))%R.

(** The fraction of the flight at which sample [k] is taken. *)
Definition fraction (k : nat) : number := of_nat k / of_nat steps.

(** Linear interpolation between two coordinates (metres), reported in AU. *)
Definition interpolate (t a b : number) : number :=
  (a + t * (b - a)) / Constants.AU / Fin 1000.

Definition interpolated_position (startPosition targetPosition : vec3)
  (k : nat) : vec3 :=
  let '(s0, s1, s2) := startPosition in
  let '(t0, t1, t2) := targetPosition in
  (interpolate (fraction k) (metres s0) (metres t0),
   interpolate (fraction k) (metres s1) (metres t1),
   interpolate (fraction k) (metres s2) (metres t2)).

(** The record the builder returns once [propulsion.isp] has been read. *)
Definition built_trajectory (startPosition targetPosition : vec3)
  (timeOfFlight : number) (config : MissionConfig) (isp : number) (w : World)
  : InterceptorTrajectory :=
  let r1 := vec3_map metres startPosition in
  let r2 := vec3_map metres targetPosition in
  let totalDeltaV := calculateDeltaV r1 r2 timeOfFlight in
  let fuelMass := calculateFuelMass totalDeltaV isp (Fin 1000) in
  {| points := map (sample r1 r2 timeOfFlight fuelMass w 0) (seq 0 (S steps));
     totalDeltaV := totalDeltaV;
     totalFuelUsed := fuelMass;
     flightTime := timeOfFlight;
     interceptProbability :=
       calculateInterceptProbability totalDeltaV timeOfFlight config |}.

(** Sample wall clocks: one that stands still, one that advances by one
    millisecond per reading. *)
Definition frozen_clock (now : R) : World :=
  {| clock := fun _ => Fin now; reads := 0 |}.

Definition ticking_clock (start : R) : World :=
  {| clock := fun k => Fin (start + IZR (Z.of_nat k)); reads := 0 |}.

(** What the hyperbolic true-anomaly conversion evaluates to at [e = 1]. *)
Definition parabolic_true_anomaly (H : number) : number :=
  match H with
  | Fin h => if Reqb h 0 then NaN else if Rltb 0 h then Fin PI else Fin (- PI)
  | PInf => Fin PI
  | NInf => Fin (- PI)
  | NaN => NaN
  end.

Definition nan3 : vec3 := (NaN, NaN, NaN).

(** The elements of 3I/ATLAS with the eccentricity set to exactly 1. *)
Definition parabolic_elements : OrbitalElements :=
  {| a := Fin (-2.1); e := Fin 1; i := Fin 175.1; omega := Fin 310.4;
     Omega := Fin 87.2; M := Fin 0; epoch := Fin 2460146.5 |}.

(** Euclidean magnitude of a position vector. *)
Definition euclidean_norm (v : vec3) : number :=
  let '(x, y, z) := v in Math_sqrt (x * x + y * y + z * z).

(** First column of the rotation applied by [transformToEcliptic], for
    angles given in radians. *)
Definition rotation_column (i omega Omega : R) : R * R * R :=
  ((cos Omega * cos omega - sin Omega * sin omega * cos i)%R,
   (sin Omega * cos omega + cos Omega * sin omega * cos i)%R,
   (sin omega * sin i)%R).

Definition radians (degrees : R) : R := (degrees * (PI / 180))%R.

(** The loop test of both solvers and the shape they share: start from
    [(x, delta)], run [step] on the current iterate while the test holds. *)
Definition continues (tolerance delta : number) : bool :=
  gt (Math_abs delta) tolerance.

Fixpoint newton_while (step : number -> number * number) (fuel : nat)
  (tolerance x delta : number) : option number :=
  if continues tolerance delta then
    match fuel with
    | O => None
    | S fuel' =>
        let '(x', delta') := step x in
        newton_while step fuel' tolerance x' delta'
    end
  else Some x.

(** The pair [(iterate, last step)] after [k] executions of the loop body. *)
Fixpoint newton_iterate (step : number -> number * number) (k : nat)
  (s : number * number) : number * number :=
  match k with
  | O => s
  | S k' => newton_iterate step k' (step (fst s))
  end.

(** The loop exits after exactly [k] executions of its body with result [r]. *)
Definition exits_after (step : number -> number * number)
  (tolerance : number) (s : number * number) (k : nat) (r : number) : Prop :=
  (forall j, (j < k)%nat ->
             continues tolerance (snd (newton_iterate step j s)) = true) /\
  continues tolerance (snd (newton_iterate step k s)) = false /\
  r = fst (newton_iterate step k s).

(** The hyperbolic Newton step on reals: residual [f], its derivative [df],
    the step [f / df] and the next iterate. *)
Definition hyperbolic_residual (M0 e0 h : R) : R := (e0 * sinh h - h - M0)%R.

Definition hyperbolic_slope (e0 h : R) : R := (e0 * cosh h - 1)%R.

Definition hyperbolic_delta (M0 e0 h : R) : R :=
  (hyperbolic_residual M0 e0 h / hyperbolic_slope e0 h)%R.

Definition hyperbolic_next (M0 e0 h : R) : R := (h - hyperbolic_delta M0 e0 h)%R.

Fixpoint hyperbolic_orbit (M0 e0 : R) (k : nat) (h : R) : R :=
  match k with
  | O => h
  | S k' => hyperbolic_orbit M0 e0 k' (hyperbolic_next M0 e0 h)
  end.

(** ** Real-valued views used for the additional properties *)

(** The elliptical Newton step on reals. *)
Definition kepler_residual (M0 e0 E : R) : R := (E - e0 * sin E - M0)%R.

Definition kepler_slope (e0 E : R) : R := (1 - e0 * cos E)%R.

Definition kepler_delta (M0 e0 E : R) : R :=
  (kepler_residual M0 e0 E / kepler_slope e0 E)%R.

Definition kepler_next (M0 e0 E : R) : R := (E - kepler_delta M0 e0 E)%R.

Fixpoint kepler_orbit (M0 e0 : R) (k : nat) (E : R) : R :=
  match k with
  | O => E
  | S k' => kepler_orbit M0 e0 k' (kepler_next M0 e0 E)
  end.

(** Radius of the conic at true anomaly [nu]. *)
Definition conic_radius (a0 e0 nu : R) : R :=
  (Rabs a0 * (1 - e0 * e0) / (1 + e0 * cos nu))%R.

(** [PLANETARY_ELEMENTS[name]] for a registered planet (sample inputs). *)
Definition planetary_elements (name : string) : OrbitalElements :=
  match own_property PLANETARY_ELEMENTS name with
  | Some elements => elements
  | None => ATLAS_3I_ELEMENTS
  end.

(** The magnitude of a computed position lies between the periapsis and the
    apoapsis distance of [elements], each divided by the kilometres in an AU. *)
Definition within_apsides (elements : OrbitalElements) (p : vec3) : Prop :=
  exists a0 e0 m : R,
    a elements = Fin a0 /\ e elements = Fin e0 /\
    euclidean_norm p = Fin m /\
    (Rabs a0 * (1 - e0) / 149597870.7 <= m
     <= Rabs a0 * (1 + e0) / 149597870.7)%R.

Definition finite3 (p : vec3) : Prop :=
  exists X Y Z : R, p = (Fin X, Fin Y, Fin Z).

(** What the live record holds for a body, if the request for live data
    yielded a record at all. *)
Definition live_position (fetched : option (list (string * vec3)))
  (name : string) : option vec3 :=
  match fetched with
  | Some livePositions => own_property livePositions name
  | None => None
  end.

(** A count written with at least two digits. *)
Definition two_digits (n : nat) : string :=
  if n <? 10 then String (digit 0) (decimal n) else decimal n.

(** [hh:mm:ss]. *)
Definition clock_string (h m s : nat) : string :=
  (two_digits h ++ ":" ++ two_digits m ++ ":" ++ two_digits s)%string.

(** The phase reported after [seconds] whole seconds of simulation. *)
Definition phase_after (running : bool) (seconds : Z) : Phase :=
  if running then
    if (seconds <? 86400)%Z then LAUNCH
    else if (seconds <? 30 * 86400)%Z then CRUISE
    else if (seconds <? 365 * 86400)%Z then APPROACH
    else INTERCEPT
  else PLANNING.

(** [hh:mm:ss] of a whole number of seconds. *)
Definition clock_of_seconds (seconds : Z) : string :=
  clock_string (Z.to_nat (seconds / 3600)) (Z.to_nat (seconds mod 3600 / 60))
    (Z.to_nat (seconds mod 60)).

(** The phases reported while a simulation runs. *)
Definition active_phase (phase : Phase) : Prop :=
  phase = LAUNCH \/ phase = CRUISE \/ phase = APPROACH \/ phase = INTERCEPT.

(** Every running simulation of the store has run for a whole number of
    seconds, at most 365 days. *)
Definition steady (store : SimulationStore) : Prop :=
  forall (id : string) (simulation : SimulationState.t),
    own_property (simulations store) id = Some simulation ->
    SimulationState.isRunning simulation = true ->
    exists z : Z,
      (0 <= z <= 365 * 86400)%Z /\
      SimulationState.elapsedTime simulation = Fin (IZR z).

Definition admitted (answer : StartAnswer.t) : Prop :=
  StartAnswer.status answer = 200%nat /\ StartAnswer.success answer = true.

Definition refused (answer : StartAnswer.t) : Prop :=
  StartAnswer.status answer = 429%nat /\ StartAnswer.success answer = false.

(** The mean anomaly [M = n * dt] that [calculatePositionAtTime] hands to
    its solver: to the elliptical one for [e < 1], to the hyperbolic one
    otherwise. *)
Definition mean_anomaly (elements : OrbitalElements) (time : number)
  : number :=
  let dt := (time - epoch elements) * Constants.DAY_SECONDS in
  if lt (e elements) (Fin 1) then
    meanMotion (Math_abs (a elements)) Constants.SOLAR_MASS * dt
  else
    Math_sqrt (Constants.GM_SUN
               / Math_pow (Math_abs (a elements) * Constants.AU * Fin 1000) 3)
    * dt.

(** The Julian date [getCurrentCelestialPositions] computes from a time in
    milliseconds since the Unix epoch. *)
Definition julian_date (time : number) : number :=
  time / Fin 1000 / Constants.DAY_SECONDS + Fin 2440587.5.

(** The times, in milliseconds since the Unix epoch, for which the theorems
    on the position service are stated: from [-5e12] (July 1811) to [1e13]
    (November 2286).  Within them the mean anomaly of 3I/ATLAS stays below
    600 in absolute value, so that [e * sinh H] is far from the largest
    binary64 number (it exceeds it, and the position of 3I/ATLAS is [NaN],
    from the year 2367 on), and the mean anomalies of the planets stay below
    [1e4], where the elliptical solver is not disturbed by rounding (it can
    cycle for mean anomalies of [2 ^ 26] and more). *)
Definition supported_time (t : R) : Prop := (-5e12 <= t <= 1e13)%R.

(** ** Facts about JavaScript numbers *)

Section NumberFacts.

Lemma Rltb_true (x y : R) : (x < y)%R -> Rltb x y = true.
Proof. intros H. unfold Rltb. destruct (Rlt_dec x y); [reflexivity | contradiction]. Qed.

Lemma Rltb_false (x y : R) : (y <= x)%R -> Rltb x y = false.
Proof. intros H. unfold Rltb. destruct (Rlt_dec x y); [lra | reflexivity]. Qed.

Lemma Rltb_spec (x y : R) : Rltb x y = true <-> (x < y)%R.
Proof.
  unfold Rltb. destruct (Rlt_dec x y); split; intros; try easy.
Qed.

Lemma Reqb_true (x y : R) : x = y -> Reqb x y = true.
Proof. intros H. unfold Reqb. destruct (Req_dec_T x y); [reflexivity | contradiction]. Qed.

Lemma Reqb_false (x y : R) : x <> y -> Reqb x y = false.
Proof. intros H. unfold Reqb. destruct (Req_dec_T x y); [contradiction | reflexivity]. Qed.

Lemma sign_pos (r : R) : (0 < r)%R -> sign r = Gt.
Proof. intros H. unfold sign. now rewrite Rltb_true. Qed.

Lemma sign_neg (r : R) : (r < 0)%R -> sign r = Lt.
Proof. intros H. unfold sign. rewrite Rltb_false by lra. now rewrite Rltb_true. Qed.

Lemma sign_zero (r : R) : r = 0%R -> sign r = Eq.
Proof. intros ->. unfold sign. now rewrite !Rltb_false by lra. Qed.

Lemma div_Fin (x y : R) : y <> 0%R -> Fin x / Fin y = Fin (x / y).
Proof. intros H. simpl. now rewrite Reqb_false. Qed.

Lemma sqrt_Fin (x : R) : (0 <= x)%R -> Math_sqrt (Fin x) = Fin (sqrt x).
Proof. intros H. simpl. now rewrite Rltb_false. Qed.

Lemma gt_Fin (x y : R) : gt (Fin x) (Fin y) = true <-> (y < x)%R.
Proof. simpl. apply Rltb_spec. Qed.

Lemma mul_NaN_r (x : number) : x * NaN = NaN.
Proof. now destruct x. Qed.

Lemma add_NaN_r (x : number) : x + NaN = NaN.
Proof. now destruct x. Qed.

Lemma sub_NaN_r (x : number) : x - NaN = NaN.
Proof. now destruct x. Qed.

Lemma div_NaN_r (x : number) : x / NaN = NaN.
Proof. now destruct x. Qed.

End NumberFacts.

Lemma Math_min_Fin (x y : R) : Math_min (Fin x) (Fin y) = Fin (Rmin x y).
Proof.
  simpl. unfold Rmin, Rltb.
  destruct (Rlt_dec y x), (Rle_dec x y); try reflexivity; f_equal; lra.
Qed.

Lemma Math_max_Fin (x y : R) : Math_max (Fin x) (Fin y) = Fin (Rmax x y).
Proof.
  simpl. unfold Rmax, Rltb.
  destruct (Rlt_dec x y), (Rle_dec x y); try reflexivity; f_equal; lra.
Qed.

Lemma years_gt (timeOfFlight : number) (k : R) :
  (0 <= k)%R ->
  gt (timeOfFlight / Constants.YEAR_SECONDS) (Fin k)
  = gt timeOfFlight (Fin (k * year_seconds)).
Proof.
  intros Hk. unfold Constants.YEAR_SECONDS, year_seconds.
  change (Fin 365.25 * Fin 86400) with (Fin (365.25 * 86400)).
  destruct timeOfFlight as [t | | |].
  - rewrite div_Fin by lra.
    apply eq_true_iff_eq. rewrite !gt_Fin.
    split; intros H.
    + apply (Rmult_lt_compat_r (365.25 * 86400)) in H; [| lra].
      replace (t / (365.25 * 86400) * (365.25 * 86400))%R with t in H by (field; lra).
      exact H.
    + apply (Rmult_lt_reg_r (365.25 * 86400)); [lra |].
      replace (t / (365.25 * 86400) * (365.25 * 86400))%R with t by (field; lra).
      exact H.
  - simpl. rewrite Rltb_false by lra. reflexivity.
  - simpl. rewrite Rltb_false by lra. reflexivity.
  - reflexivity.
Qed.

Lemma propulsion_factor_cases (p : string) (f : R) :
  propulsion_factor p = Some f ->
  (p = "chemical"%string /\ f = 0.9%R) \/
  (p = "ion"%string /\ f = 0.95%R) \/
  (p = "nuclear"%string /\ f = 0.85%R).
Proof.
  unfold propulsion_factor.
  destruct (String.eqb_spec p "chemical"); [intros [= <-]; auto |].
  destruct (String.eqb_spec p "ion"); [intros [= <-]; auto |].
  destruct (String.eqb_spec p "nuclear"); [intros [= <-]; auto |].
  discriminate.
Qed.

(** C7: for every [deltaV], every flight time and every valid propulsion type,
    [calculateInterceptProbability] returns the specified piecewise product:
    base 0.85, times 0.7 if [deltaV > 15000] else 0.85 if [deltaV > 10000],
    times 0.8 if the flight time exceeds two years else 0.9 if it exceeds one
    year, times the propulsion factor (chemical 0.9, ion 0.95, nuclear 0.85),
    clamped to the interval [[0.1, 0.99]]. *)
Theorem calculateInterceptProbability_piecewise
  (deltaV timeOfFlight : number) (config : MissionConfig) (factor : R) :
  propulsion_factor (propulsionType config) = Some factor ->
  calculateInterceptProbability deltaV timeOfFlight config
  = Fin (specified_probability deltaV timeOfFlight factor).
Proof.
  intros Hp. unfold calculateInterceptProbability.
  rewrite (years_gt timeOfFlight 2), (years_gt timeOfFlight 1) by lra.
  unfold specified_probability, clamp, deltaV_factor, flightTime_factor.
  apply propulsion_factor_cases in Hp.
  destruct Hp as [[-> ->] | [[-> ->] | [-> ->]]]; cbn [get_property own_property propulsionMultiplier String.eqb Ascii.eqb Bool.eqb ToNumber];
  destruct (gt deltaV (Fin 15000)), (gt deltaV (Fin 10000)),
    (gt timeOfFlight (Fin (2 * year_seconds))),
    (gt timeOfFlight (Fin (1 * year_seconds)));
  cbn [mul]; rewrite Math_min_Fin, Math_max_Fin; do 3 f_equal; lra.
Qed.

Lemma calculateInterceptProbability_piecewise_witness :
  propulsion_factor (propulsionType (sample_config "ion")) = Some 0.95%R /\
  calculateInterceptProbability (Fin 12000) (Fin 40000000) (sample_config "ion")
  = Fin (specified_probability (Fin 12000) (Fin 40000000) 0.95).
Proof.
  split; [reflexivity |].
  apply (calculateInterceptProbability_piecewise
           (Fin 12000) (Fin 40000000) (sample_config "ion") 0.95).
  reflexivity.
Defined.

(** C10: [calculateInterceptProbability] depends on the mission configuration
    only through [propulsionType]: two configurations that agree on it give
    the same probability for the same [deltaV] and flight time, whatever their
    payload, trajectory type, fuel capacity, mission duration or launch
    window. *)
Theorem calculateInterceptProbability_only_propulsionType
  (deltaV timeOfFlight : number) (config1 config2 : MissionConfig) :
  propulsionType config1 = propulsionType config2 ->
  calculateInterceptProbability deltaV timeOfFlight config1
  = calculateInterceptProbability deltaV timeOfFlight config2.
Proof.
  intros Hp. unfold calculateInterceptProbability. rewrite Hp. reflexivity.
Qed.

Lemma calculateInterceptProbability_only_propulsionType_witness :
  propulsionType (sample_config "nuclear")
  = propulsionType (other_config "nuclear") /\
  calculateInterceptProbability (Fin 16000) (Fin 1000) (sample_config "nuclear")
  = calculateInterceptProbability (Fin 16000) (Fin 1000) (other_config "nuclear").
Proof.
  split; [reflexivity |].
  apply (calculateInterceptProbability_only_propulsionType
           (Fin 16000) (Fin 1000)
           (sample_config "nuclear") (other_config "nuclear")).
  reflexivity.
Defined.

Lemma exhaust_velocity_pos (isp : R) : (0 < isp)%R -> (0 < isp * 9.81)%R.
Proof. intros H. lra. Qed.

Lemma calculateFuelMass_Fin (deltaV isp dryMass : R) :
  (0 < isp)%R ->
  calculateFuelMass (Fin deltaV) (Fin isp) (Fin dryMass)
  = Fin (dryMass * (exp (deltaV / (isp * 9.81)) - 1)).
Proof.
  intros Hisp. pose proof (exhaust_velocity_pos isp Hisp) as Hve.
  unfold calculateFuelMass.
  change (Fin isp * Fin 9.81) with (Fin (isp * 9.81)).
  rewrite div_Fin by lra. reflexivity.
Qed.





(** ** The sampling loop of the trajectory builder *)

Section TrajectoryLoop.

Variables (r1 r2 : vec3) (timeOfFlight fuel : number).

Lemma trajectory_point_world (i : nat) (w : World) :
  snd (trajectory_point r1 r2 timeOfFlight fuel i w) = advance w 1.
Proof.
  unfold trajectory_point, advance.
  destruct r1 as [[? ?] ?], r2 as [[? ?] ?]. simpl.
  f_equal. lia.
Qed.

Lemma trajectory_for_unfold (n i : nat) (pts : list TrajectoryPoint) (w : World) :
  trajectory_for n i r1 r2 timeOfFlight fuel pts w
  = (pts ++ map (sample r1 r2 timeOfFlight fuel w i) (seq 0 n), advance w n).
Proof.
  revert i pts w. induction n as [| n IH]; intros i pts w.
  - simpl. rewrite app_nil_r. unfold advance. destruct w as [c r]. simpl.
    do 2 f_equal. lia.
  - cbn [trajectory_for].
    destruct (trajectory_point r1 r2 timeOfFlight fuel i w) as [p w1] eqn:Hp.
    pose proof (trajectory_point_world i w) as Hw. rewrite Hp in Hw.
    simpl in Hw. subst w1. rewrite IH.
    f_equal.
    + rewrite <- app_assoc. f_equal. cbn [seq map app]. f_equal.
      * unfold sample. replace (i + 0)%nat with i by lia.
        replace (advance w 0) with w.
        -- now rewrite Hp.
        -- unfold advance. destruct w as [c r]. simpl. f_equal. lia.
      * rewrite <- seq_shift, map_map. apply map_ext. intros k.
        unfold sample. replace (S i + k)%nat with (i + S k)%nat by lia.
        f_equal. f_equal. unfold advance. simpl. f_equal. lia.
    + unfold advance. simpl. f_equal. lia.
Qed.

End TrajectoryLoop.

Lemma visviva_radicand_pos (m1 m2 : R) :
  (0 < m1)%R -> (0 < m2)%R ->
  (0 < 2 / m1 - 1 / ((m1 + m2) / 2))%R.
Proof.
  intros H1 H2.
  replace (2 / m1 - 1 / ((m1 + m2) / 2))%R
    with (2 * m2 / (m1 * (m1 + m2)))%R by (field; lra).
  apply Rdiv_lt_0_compat; nra.
Qed.

Lemma sum_squares_nonneg (x y z : R) : (0 <= x * x + y * y + z * z)%R.
Proof. nra. Qed.

Lemma calculateDeltaV_Fin (x1 y1 z1 x2 y2 z2 : R) (timeOfFlight : number) :
  (0 < norm3 x1 y1 z1)%R -> (0 < norm3 x2 y2 z2)%R ->
  calculateDeltaV (fin3 x1 y1 z1) (fin3 x2 y2 z2) timeOfFlight
  = Fin (visviva_deltaV (norm3 x1 y1 z1) (norm3 x2 y2 z2)).
Proof.
  intros H1 H2. unfold calculateDeltaV, fin3, visviva_deltaV.
  cbn [mul add].
  rewrite !sqrt_Fin by apply sum_squares_nonneg.
  fold (norm3 x1 y1 z1) (norm3 x2 y2 z2).
  pose proof (visviva_radicand_pos _ _ H1 H2) as Hr1.
  pose proof (visviva_radicand_pos _ _ H2 H1) as Hr2.
  rewrite (Rplus_comm (norm3 x2 y2 z2)) in Hr2.
  set (m1 := norm3 x1 y1 z1) in *. set (m2 := norm3 x2 y2 z2) in *.
  cbn [add]. unfold Constants.GM_SUN.
  rewrite !div_Fin by lra.
  cbn [sub neg add mul].
  assert (Hq1 : (0 < 1.327e20 / m1)%R) by (apply Rdiv_lt_0_compat; lra).
  assert (Hq2 : (0 < 1.327e20 / m2)%R) by (apply Rdiv_lt_0_compat; lra).
  assert (Hp1 : (0 <= 1.327e20 * (2 / m1 + - (1 / ((m1 + m2) / 2))))%R)
    by (apply Rmult_le_pos; [lra | unfold Rminus in Hr1; lra]).
  assert (Hp2 : (0 <= 1.327e20 * (2 / m2 + - (1 / ((m1 + m2) / 2))))%R)
    by (apply Rmult_le_pos; [lra | unfold Rminus in Hr2; lra]).
  rewrite (sqrt_Fin _ Hp1), (sqrt_Fin _ Hp2).
  rewrite !sqrt_Fin by lra.
  reflexivity.
Qed.

(** ** Closed form of the trajectory builder *)

Lemma calculateInterceptTrajectory_closed
  (startPosition targetPosition : vec3) (timeOfFlight : number)
  (config : MissionConfig) (w : World) :
  calculateInterceptTrajectory startPosition targetPosition timeOfFlight config w
  = match propulsion_isp
            (get_property propulsionEfficiency (propulsionType config)) with
    | Return isp =>
        (Return (built_trajectory startPosition targetPosition timeOfFlight
                   config isp w), advance w (S steps))
    | Throw err => (Throw err, w)
    end.
Proof.
  unfold calculateInterceptTrajectory, built_trajectory.
  destruct (propulsion_isp _) as [ispv | err]; [| reflexivity].
  rewrite trajectory_for_unfold. reflexivity.
Qed.

Lemma valid_propulsion_isp (propulsion : string) (p : Propulsion) :
  own_property propulsionEfficiency propulsion = Some p ->
  propulsion_isp (get_property propulsionEfficiency propulsion) = Return (isp p)
  /\ (isp p = Fin 450 \/ isp p = Fin 3000 \/ isp p = Fin 900).
Proof.
  intros H. unfold get_property. rewrite H. split; [reflexivity |].
  unfold propulsionEfficiency in H. cbn [own_property] in H.
  repeat match type of H with
         | (if ?c then _ else _) = _ => destruct c
         end; inversion H; subst; cbn [isp]; auto.
Qed.

Lemma built_points_length s t tof config ispv w :
  List.length (points (built_trajectory s t tof config ispv w)) = 101%nat.
Proof. unfold built_trajectory. cbn [points]. now rewrite length_map, length_seq. Qed.

Lemma built_points_nth s t tof config ispv w (k : nat) :
  (k <= 100)%nat ->
  nth_error (points (built_trajectory s t tof config ispv w)) k
  = Some (sample (vec3_map metres s) (vec3_map metres t) tof
            (totalFuelUsed (built_trajectory s t tof config ispv w)) w 0 k).
Proof.
  intros Hk. unfold built_trajectory. cbn [points totalFuelUsed].
  rewrite nth_error_map.
  replace (nth_error (seq 0 (S steps)) k) with (Some k); [reflexivity |].
  symmetry. rewrite nth_error_seq.
  unfold steps. destruct (Nat.ltb_spec k 101); [reflexivity | lia].
Qed.

Section SampleFields.

Variables (s t : vec3) (tof fuel : number) (w : World) (k : nat).

Lemma sample_time :
  time (sample (vec3_map metres s) (vec3_map metres t) tof fuel w 0 k)
  = clock w (reads w + k) + fraction k * tof * Fin 1000.
Proof. destruct s as [[? ?] ?], t as [[? ?] ?]. reflexivity. Qed.

Lemma sample_position :
  position (sample (vec3_map metres s) (vec3_map metres t) tof fuel w 0 k)
  = interpolated_position s t k.
Proof. destruct s as [[? ?] ?], t as [[? ?] ?]. reflexivity. Qed.

Lemma sample_velocity :
  velocity (sample (vec3_map metres s) (vec3_map metres t) tof fuel w 0 k)
  = reported_velocity s t tof.
Proof. destruct s as [[? ?] ?], t as [[? ?] ?]. reflexivity. Qed.

Lemma sample_fuelMass :
  fuelMass (sample (vec3_map metres s) (vec3_map metres t) tof fuel w 0 k)
  = fuel * (Fin 1 - fraction k).
Proof. destruct s as [[? ?] ?], t as [[? ?] ?]. reflexivity. Qed.

Lemma sample_acceleration :
  acceleration (sample (vec3_map metres s) (vec3_map metres t) tof fuel w 0 k)
  = (Fin 0, Fin 0, Fin 0).
Proof. destruct s as [[? ?] ?], t as [[? ?] ?]. reflexivity. Qed.

End SampleFields.

(** C9: whenever [calculateInterceptTrajectory] returns, its 101 trajectory
    points all carry the same velocity vector: componentwise (target minus
    start, in metres) divided by the flight time and converted to km/s; the
    reported velocity does not vary with the sample index. *)
Theorem trajectory_velocity_constant
  (startPosition targetPosition : vec3) (timeOfFlight : number)
  (config : MissionConfig) (w w' : World) (traj : InterceptorTrajectory) :
  calculateInterceptTrajectory startPosition targetPosition timeOfFlight config w
  = (Return traj, w') ->
  List.length (points traj) = 101%nat /\
  forall pt, In pt (points traj) ->
             velocity pt
             = reported_velocity startPosition targetPosition timeOfFlight.
Proof.
  rewrite calculateInterceptTrajectory_closed.
  destruct (propulsion_isp _) as [ispv | err]; [| discriminate].
  intros [= <- <-]. split.
  - apply built_points_length.
  - intros pt Hin. unfold built_trajectory in Hin. cbn [points] in Hin.
    apply in_map_iff in Hin. destruct Hin as [k [<- _]].
    apply sample_velocity.
Qed.

Lemma trajectory_velocity_constant_witness :
  let w := frozen_clock 1761696000000 in
  let traj :=
    built_trajectory (fin3 1 0 0) (fin3 1.524 0 0) (Fin 200 * Fin 86400)
      (sample_config "chemical") (Fin 450) w in
  calculateInterceptTrajectory (fin3 1 0 0) (fin3 1.524 0 0)
    (Fin 200 * Fin 86400) (sample_config "chemical") w
  = (Return traj, advance w 101) /\
  List.length (points traj) = 101%nat /\
  forall pt, In pt (points traj) ->
             velocity pt
             = reported_velocity (fin3 1 0 0) (fin3 1.524 0 0)
                 (Fin 200 * Fin 86400).
Proof.
  intros w traj.
  assert (H : calculateInterceptTrajectory (fin3 1 0 0) (fin3 1.524 0 0)
                (Fin 200 * Fin 86400) (sample_config "chemical") w
              = (Return traj, advance w 101)) by reflexivity.
  split; [exact H |].
  exact (trajectory_velocity_constant _ _ _ _ _ _ _ H).
Defined.

(** ** The delta-v heuristic on finite positions *)

Lemma visviva_gap (m1 m2 : R) :
  (0 < m1)%R -> (0 < m2)%R ->
  (1.327e20 * (2 / m1 - 1 / ((m1 + m2) / 2)) - 1.327e20 / m1
   = 1.327e20 * (m2 - m1) / (m1 * (m1 + m2)))%R.
Proof. intros H1 H2. field. lra. Qed.

Lemma visviva_term_zero (m1 m2 : R) :
  (0 < m1)%R -> (0 < m2)%R ->
  (sqrt (1.327e20 * (2 / m1 - 1 / ((m1 + m2) / 2))) - sqrt (1.327e20 / m1)
   = 0)%R ->
  m1 = m2.
Proof.
  intros H1 H2 H0.
  pose proof (visviva_radicand_pos m1 m2 H1 H2) as Hr.
  assert (Hq : (0 < 1.327e20 / m1)%R) by (apply Rdiv_lt_0_compat; lra).
  assert (Heq : (1.327e20 * (2 / m1 - 1 / ((m1 + m2) / 2)) = 1.327e20 / m1)%R).
  { apply sqrt_inj; [nra | lra | lra]. }
  pose proof (visviva_gap m1 m2 H1 H2) as Hg.
  rewrite Heq in Hg. rewrite Rminus_diag in Hg.
  symmetry in Hg. apply Rmult_integral in Hg. destruct Hg as [Hg | Hg].
  - lra.
  - assert (Hpos : (0 < / (m1 * (m1 + m2)))%R) by (apply Rinv_0_lt_compat; nra).
    lra.
Qed.

Lemma visviva_deltaV_nonneg (m1 m2 : R) : (0 <= visviva_deltaV m1 m2)%R.
Proof.
  unfold visviva_deltaV.
  apply Rplus_le_le_0_compat; apply Rabs_pos.
Qed.

Lemma visviva_deltaV_equal (m : R) : (0 < m)%R -> visviva_deltaV m m = 0%R.
Proof.
  intros Hm. unfold visviva_deltaV. cbv zeta.
  replace (1.327e20 * (2 / m - 1 / ((m + m) / 2)))%R with (1.327e20 / m)%R
    by (field; lra).
  rewrite Rminus_diag, Rabs_R0. lra.
Qed.

Lemma visviva_deltaV_pos_iff (m1 m2 : R) :
  (0 < m1)%R -> (0 < m2)%R ->
  (0 < visviva_deltaV m1 m2)%R <-> m1 <> m2.
Proof.
  intros H1 H2. split.
  - intros Hpos Heq. subst m2. rewrite visviva_deltaV_equal in Hpos; lra.
  - intros Hne. unfold visviva_deltaV. cbv zeta.
    apply Rplus_lt_le_0_compat; [| apply Rabs_pos].
    apply Rabs_pos_lt. intros H0. apply Hne.
    now apply visviva_term_zero.
Qed.

Lemma norm3_nonneg (x y z : R) : (0 <= norm3 x y z)%R.
Proof. apply sqrt_pos. Qed.

Lemma norm3_scale (c x y z : R) :
  (0 <= c)%R -> norm3 (x * c) (y * c) (z * c) = (c * norm3 x y z)%R.
Proof.
  intros Hc. unfold norm3.
  replace (x * c * (x * c) + y * c * (y * c) + z * c * (z * c))%R
    with (c * c * (x * x + y * y + z * z))%R by ring.
  rewrite sqrt_mult; [| nra | apply sum_squares_nonneg].
  now rewrite sqrt_square.
Qed.

Lemma metres_fin3 (x y z : R) :
  vec3_map metres (fin3 x y z)
  = fin3 (x * (149597870.7 * 1000)) (y * (149597870.7 * 1000))
      (z * (149597870.7 * 1000)).
Proof.
  unfold fin3, vec3_map, metres, Constants.AU. cbn [mul].
  now rewrite !Rmult_assoc.
Qed.

Lemma calculateDeltaV_metres (s0 s1 s2 t0 t1 t2 : R) (timeOfFlight : number) :
  (0 < norm3 s0 s1 s2)%R -> (0 < norm3 t0 t1 t2)%R ->
  calculateDeltaV (vec3_map metres (fin3 s0 s1 s2))
    (vec3_map metres (fin3 t0 t1 t2)) timeOfFlight
  = Fin (visviva_deltaV (149597870.7 * 1000 * norm3 s0 s1 s2)
           (149597870.7 * 1000 * norm3 t0 t1 t2)).
Proof.
  intros Hs Ht. rewrite !metres_fin3.
  rewrite calculateDeltaV_Fin; rewrite !norm3_scale by lra;
    [reflexivity | nra | nra].
Qed.

Lemma mul_one_r (x : number) (r : R) : r = 1%R -> x * Fin r = x.
Proof.
  intros ->. destruct x as [v | | |]; cbn [mul].
  - f_equal. ring.
  - now rewrite sign_pos by lra.
  - now rewrite sign_pos by lra.
  - reflexivity.
Qed.

Lemma fraction_Fin (k : nat) : fraction k = Fin (IZR (Z.of_nat k) / 100).
Proof.
  unfold fraction, of_nat, steps.
  change (IZR (Z.of_nat 100)) with 100%R.
  now rewrite div_Fin by lra.
Qed.

Lemma abs_sum_never_negative (x y : number) :
  (exists dv : R, Math_abs x + Math_abs y = Fin dv /\ (0 <= dv)%R) \/
  Math_abs x + Math_abs y = PInf \/ Math_abs x + Math_abs y = NaN.
Proof.
  destruct x as [a | | |], y as [b | | |]; cbn [Math_abs add]; auto.
  left. eexists. split; [reflexivity |].
  apply Rplus_le_le_0_compat; apply Rabs_pos.
Qed.

Lemma calculateDeltaV_never_negative (r1 r2 : vec3) (timeOfFlight : number) :
  (exists dv : R, calculateDeltaV r1 r2 timeOfFlight = Fin dv /\ (0 <= dv)%R) \/
  calculateDeltaV r1 r2 timeOfFlight = PInf \/
  calculateDeltaV r1 r2 timeOfFlight = NaN.
Proof.
  destruct r1 as [[r1_0 r1_1] r1_2], r2 as [[r2_0 r2_1] r2_2].
  unfold calculateDeltaV. cbv zeta. apply abs_sum_never_negative.
Qed.

(** C4 (as stated) fails: two distinct positions at the same heliocentric
    distance, with a positive flight time, give a trajectory whose
    [totalDeltaV] is exactly 0. *)
Lemma equal_radius_zero_deltaV :
  fin3 1 0 0 <> fin3 0 1 0 /\
  gt (Fin 86400) (Fin 0) = true /\
  exists traj w',
    calculateInterceptTrajectory (fin3 1 0 0) (fin3 0 1 0) (Fin 86400)
      (sample_config "chemical") (frozen_clock 0) = (Return traj, w') /\
    totalDeltaV traj = Fin 0 /\
    gt (totalDeltaV traj) (Fin 0) = false.
Proof.
  split; [| split].
  - unfold fin3. intros [= H _]. lra.
  - apply gt_Fin. lra.
  - rewrite calculateInterceptTrajectory_closed.
    cbn [sample_config propulsionType get_property own_property
         propulsionEfficiency String.eqb Ascii.eqb Bool.eqb propulsion_isp isp].
    do 2 eexists. split; [reflexivity |].
    cbn [built_trajectory totalDeltaV].
    assert (Hn1 : norm3 1 0 0 = 1%R).
    { unfold norm3. replace (1 * 1 + 0 * 0 + 0 * 0)%R with 1%R by ring.
      apply sqrt_1. }
    assert (Hn2 : norm3 0 1 0 = 1%R).
    { unfold norm3. replace (0 * 0 + 1 * 1 + 0 * 0)%R with 1%R by ring.
      apply sqrt_1. }
    rewrite calculateDeltaV_metres by (rewrite ?Hn1, ?Hn2; lra).
    rewrite Hn1, Hn2, visviva_deltaV_equal by lra.
    split; [reflexivity |]. cbn [gt]. apply Rltb_false. lra.
Qed.

(** C4 (amended): for every call of [calculateInterceptTrajectory] with a
    valid propulsion type, whatever the flight time, the returned trajectory
    has exactly 101 points, sampled at the fractions [k / 100]; point [k]
    has the fuel mass [totalFuelUsed * (1 - k / 100)] and the zero
    acceleration vector; point 0 has the fuel mass [totalFuelUsed], and
    point 100 the fuel mass [totalFuelUsed * 0]: 0 whenever [totalFuelUsed]
    is finite, [NaN] when it is [Infinity].  [totalDeltaV] is never
    negative: it is a finite number that is at least 0 (exactly 0 for the
    equal radii above), [Infinity] or [NaN]. *)
Theorem trajectory_shape
  (startPosition targetPosition : vec3) (timeOfFlight : number)
  (config : MissionConfig) (w : World) (p : Propulsion) :
  own_property propulsionEfficiency (propulsionType config) = Some p ->
  exists traj w',
    calculateInterceptTrajectory startPosition targetPosition timeOfFlight
      config w = (Return traj, w') /\
    List.length (points traj) = 101%nat /\
    (forall k, (k <= 100)%nat ->
       exists pt,
         nth_error (points traj) k = Some pt /\
         position pt = interpolated_position startPosition targetPosition k /\
         fuelMass pt = totalFuelUsed traj * (Fin 1 - fraction k) /\
         acceleration pt = (Fin 0, Fin 0, Fin 0)) /\
    (exists p0,
       nth_error (points traj) 0 = Some p0 /\
       fuelMass p0 = totalFuelUsed traj) /\
    (exists p100,
       nth_error (points traj) 100 = Some p100 /\
       fuelMass p100 = totalFuelUsed traj * Fin 0 /\
       (forall fuel : R,
           totalFuelUsed traj = Fin fuel -> fuelMass p100 = Fin 0) /\
       (totalFuelUsed traj = PInf -> fuelMass p100 = NaN)) /\
    (forall fuel : R,
        totalFuelUsed traj = Fin fuel ->
        forall k, (k <= 100)%nat ->
          exists pt,
            nth_error (points traj) k = Some pt /\
            fuelMass pt = Fin (fuel * (1 - IZR (Z.of_nat k) / 100))) /\
    ((exists dv : R, totalDeltaV traj = Fin dv /\ (0 <= dv)%R) \/
     totalDeltaV traj = PInf \/ totalDeltaV traj = NaN).
Proof.
  intros Hp. destruct (valid_propulsion_isp _ _ Hp) as [Hisp Hval].
  rewrite calculateInterceptTrajectory_closed, Hisp.
  set (traj := built_trajectory _ _ _ _ _ _).
  exists traj, (advance w (S steps)).
  assert (Hnth : forall k, (k <= 100)%nat ->
            exists pt,
              nth_error (points traj) k = Some pt /\
              position pt = interpolated_position startPosition targetPosition k /\
              fuelMass pt = totalFuelUsed traj * (Fin 1 - fraction k) /\
              acceleration pt = (Fin 0, Fin 0, Fin 0)).
  { intros k Hk. eexists. split; [apply built_points_nth; exact Hk |].
    rewrite sample_position, sample_fuelMass, sample_acceleration. auto. }
  split; [reflexivity |]. split; [apply built_points_length |].
  split; [exact Hnth |]. split; [| split; [| split]].
  - destruct (Hnth 0%nat) as [p0 [H0 [_ [Hf _]]]]; [lia |].
    exists p0. split; [exact H0 |]. rewrite Hf, fraction_Fin.
    apply mul_one_r. cbn [Z.of_nat]. lra.
  - destruct (Hnth 100%nat) as [p100 [H100 [_ [Hf _]]]]; [lia |].
    exists p100. split; [exact H100 |].
    assert (Hlast : fuelMass p100 = totalFuelUsed traj * Fin 0).
    { rewrite Hf, fraction_Fin. cbn [sub neg add]. do 2 f_equal.
      change (IZR (Z.of_nat 100)) with 100%R. field. }
    split; [exact Hlast |]. rewrite Hlast. split.
    + intros fuel ->. cbn [mul]. f_equal. ring.
    + intros ->. cbn [mul]. now rewrite sign_zero.
  - intros fuel Hfuel k Hk. destruct (Hnth k Hk) as [pt [Hk1 [_ [Hf _]]]].
    exists pt. split; [exact Hk1 |].
    rewrite Hf, Hfuel, fraction_Fin. reflexivity.
  - apply calculateDeltaV_never_negative.
Qed.

Lemma norm3_x_axis (x : R) : (0 <= x)%R -> norm3 x 0 0 = x.
Proof.
  intros Hx. unfold norm3.
  replace (x * x + 0 * 0 + 0 * 0)%R with (x * x)%R by ring.
  now apply sqrt_square.
Qed.

Lemma trajectory_shape_witness :
  own_property propulsionEfficiency (propulsionType (sample_config "chemical"))
  = Some {| isp := Fin 450; thrust := Fin 100000 |} /\
  exists traj w',
    calculateInterceptTrajectory (fin3 1 0 0) (fin3 1.524 0 0)
      (Fin (200 * 86400)) (sample_config "chemical")
      (frozen_clock 1761696000000) = (Return traj, w') /\
    List.length (points traj) = 101%nat /\
    (exists p0,
       nth_error (points traj) 0 = Some p0 /\
       fuelMass p0 = totalFuelUsed traj) /\
    (exists p100,
       nth_error (points traj) 100 = Some p100 /\
       fuelMass p100 = totalFuelUsed traj * Fin 0).
Proof.
  assert (Hp : own_property propulsionEfficiency
                 (propulsionType (sample_config "chemical"))
               = Some {| isp := Fin 450; thrust := Fin 100000 |})
    by reflexivity.
  split; [exact Hp |].
  destruct (trajectory_shape (fin3 1 0 0) (fin3 1.524 0 0) (Fin (200 * 86400))
              (sample_config "chemical") (frozen_clock 1761696000000) _ Hp)
    as [traj [w' [Hrun [Hlen [_ [H0 [[p100 [H100 [Hlast _]]] _]]]]]]].
  exists traj, w'.
  repeat (split; [assumption |]).
  exists p100. now split.
Defined.

(** ** The wall clock in the trajectory builder *)

Lemma sample_clock_only (r1 r2 : vec3) (tof fuel : number) (w1 w2 : World)
  (i k : nat) :
  clock w1 (reads w1 + k) = clock w2 (reads w2 + k) ->
  sample r1 r2 tof fuel w1 i k = sample r1 r2 tof fuel w2 i k.
Proof.
  intros H. unfold sample, trajectory_point.
  destruct r1 as [[? ?] ?], r2 as [[? ?] ?]. cbn. now rewrite H.
Qed.

(** C5 (as stated) fails: the same explicit arguments give two different
    results when the wall clock differs between the calls. *)
Lemma clock_changes_output :
  fst (calculateInterceptTrajectory (fin3 1 0 0) (fin3 1.524 0 0)
         (Fin (200 * 86400)) (sample_config "chemical") (frozen_clock 0))
  <> fst (calculateInterceptTrajectory (fin3 1 0 0) (fin3 1.524 0 0)
            (Fin (200 * 86400)) (sample_config "chemical")
            (frozen_clock 1000)).
Proof.
  rewrite !calculateInterceptTrajectory_closed.
  cbn [sample_config propulsionType get_property own_property
       propulsionEfficiency String.eqb Ascii.eqb Bool.eqb propulsion_isp isp fst].
  intros H.
  apply (f_equal (fun c => match c with
                           | Return tr => option_map time (nth_error (points tr) 0)
                           | Throw _ => None
                           end)) in H.
  rewrite !built_points_nth in H by lia.
  cbn [option_map] in H. rewrite !sample_time, fraction_Fin in H.
  cbn [frozen_clock clock reads mul add Nat.add] in H.
  injection H as H. lra.
Qed.

(** C5 (amended): [calculateInterceptTrajectory] takes no reference instant;
    it calls [Date.now()] once per sample (101 readings), and sample [k] is
    stamped with the [k]-th reading plus [(k / 100) * timeOfFlight * 1000].
    Two invocations with identical arguments agree on the outcome, on
    [totalDeltaV], [totalFuelUsed], [flightTime], [interceptProbability] and on
    the position, velocity, fuel mass and acceleration of every sample; they
    return identical trajectories when the 101 clock readings coincide, and,
    for a finite flight time, different trajectories when the first readings
    differ (sample 0 is stamped with the first reading itself). *)
Theorem trajectory_clock_dependence
  (startPosition targetPosition : vec3) (timeOfFlight : number)
  (config : MissionConfig) (w1 w2 : World) :
  match calculateInterceptTrajectory startPosition targetPosition timeOfFlight
          config w1,
        calculateInterceptTrajectory startPosition targetPosition timeOfFlight
          config w2 with
  | (Return tr1, w1'), (Return tr2, w2') =>
      w1' = advance w1 101 /\ w2' = advance w2 101 /\
      totalDeltaV tr1 = totalDeltaV tr2 /\
      totalFuelUsed tr1 = totalFuelUsed tr2 /\
      flightTime tr1 = flightTime tr2 /\
      interceptProbability tr1 = interceptProbability tr2 /\
      List.length (points tr1) = 101%nat /\
      List.length (points tr2) = 101%nat /\
      (forall k, (k <= 100)%nat ->
         exists p1 p2,
           nth_error (points tr1) k = Some p1 /\
           nth_error (points tr2) k = Some p2 /\
           time p1 = clock w1 (reads w1 + k)
                     + fraction k * timeOfFlight * Fin 1000 /\
           time p2 = clock w2 (reads w2 + k)
                     + fraction k * timeOfFlight * Fin 1000 /\
           position p1 = position p2 /\
           velocity p1 = velocity p2 /\
           fuelMass p1 = fuelMass p2 /\
           acceleration p1 = acceleration p2) /\
      ((forall k, (k <= 100)%nat ->
          clock w1 (reads w1 + k) = clock w2 (reads w2 + k)) ->
       tr1 = tr2) /\
      (forall tof now1 now2 : R,
          timeOfFlight = Fin tof ->
          clock w1 (reads w1) = Fin now1 ->
          clock w2 (reads w2) = Fin now2 ->
          now1 <> now2 -> tr1 <> tr2)
  | (Throw e1, w1'), (Throw e2, w2') => e1 = e2 /\ w1' = w1 /\ w2' = w2
  | _, _ => False
  end.
Proof.
  rewrite !calculateInterceptTrajectory_closed.
  destruct (propulsion_isp _) as [ispv | err]; [| auto].
  repeat (split; [first [reflexivity | apply built_points_length] |]).
  split; [| split].
  - intros k Hk. do 2 eexists.
    split; [apply built_points_nth; exact Hk |].
    split; [apply built_points_nth; exact Hk |].
    rewrite !sample_time, !sample_position, !sample_velocity,
      !sample_fuelMass, !sample_acceleration.
    repeat split; reflexivity.
  - intros Hclock. unfold built_trajectory. f_equal.
    apply map_ext_in. intros k Hk. apply in_seq in Hk.
    apply sample_clock_only. apply Hclock. unfold steps in Hk. lia.
  - intros tof now1 now2 Htof Hnow1 Hnow2 Hne Heq.
    apply (f_equal (fun tr => option_map time (nth_error (points tr) 0)))
      in Heq.
    rewrite !(built_points_nth _ _ _ _ _ _ 0%nat) in Heq by lia.
    cbn [option_map] in Heq. rewrite !sample_time in Heq.
    rewrite !Nat.add_0_r, Hnow1, Hnow2, Htof, fraction_Fin in Heq.
    cbn [mul add Z.of_nat] in Heq. injection Heq as Heq. lra.
Qed.

(** ** Unknown propulsion types *)

Lemma unknown_propulsion_own {A : Type} (x y z : A) (propulsion : string) :
  propulsion <> "chemical"%string ->
  propulsion <> "ion"%string ->
  propulsion <> "nuclear"%string ->
  own_property
    [("chemical"%string, x); ("ion"%string, y); ("nuclear"%string, z)]
    propulsion = None.
Proof.
  intros H1 H2 H3. cbn [own_property].
  destruct (String.eqb_spec "chemical" propulsion); [congruence |].
  destruct (String.eqb_spec "ion" propulsion); [congruence |].
  destruct (String.eqb_spec "nuclear" propulsion); [congruence |].
  reflexivity.
Qed.

Lemma calculateFuelMass_NaN_isp (deltaV dryMass : number) :
  calculateFuelMass deltaV NaN dryMass = NaN.
Proof.
  unfold calculateFuelMass. cbn [mul]. rewrite div_NaN_r. cbn [Math_exp sub neg add].
  apply mul_NaN_r.
Qed.

Lemma calculateInterceptProbability_unknown
  (deltaV timeOfFlight : number) (config : MissionConfig) :
  own_property propulsionMultiplier (propulsionType config) = None ->
  calculateInterceptProbability deltaV timeOfFlight config = NaN.
Proof.
  intros Hown. unfold calculateInterceptProbability, get_property.
  rewrite Hown.
  assert (Hnan : ToNumber
                   (if existsb (String.eqb (propulsionType config))
                         Object_prototype_keys
                    then Inherited else Undefined) = NaN)
    by (destruct (existsb _ _); reflexivity).
  rewrite Hnan.
  destruct (gt deltaV (Fin 15000)), (gt deltaV (Fin 10000)),
    (gt (timeOfFlight / Constants.YEAR_SECONDS) (Fin 2)),
    (gt (timeOfFlight / Constants.YEAR_SECONDS) (Fin 1)); reflexivity.
Qed.

(** C6 (as stated) fails: with the propulsion type ["solar"] the probability
    heuristic silently returns [NaN] and the trajectory builder throws a
    [TypeError]. *)
Lemma unknown_propulsion_outcomes :
  calculateInterceptProbability (Fin 5000) (Fin 86400) (sample_config "solar")
  = NaN /\
  calculateInterceptTrajectory (fin3 1 0 0) (fin3 1.524 0 0) (Fin 86400)
    (sample_config "solar") (frozen_clock 0)
  = (Throw TypeError, frozen_clock 0).
Proof.
  split.
  - apply calculateInterceptProbability_unknown. reflexivity.
  - rewrite calculateInterceptTrajectory_closed. reflexivity.
Qed.

(** C6 (amended): for every mission configuration whose [propulsionType] is
    not chemical, ion or nuclear, [calculateInterceptProbability] returns [NaN]
    (no failure), and [calculateInterceptTrajectory] throws a [TypeError]
    without reading the clock -- unless the propulsion type names a member of
    [Object.prototype], in which case it returns a trajectory whose
    [totalFuelUsed] and [interceptProbability] are [NaN]. *)
Theorem unknown_propulsion_behaviour (config : MissionConfig) :
  propulsionType config <> "chemical"%string ->
  propulsionType config <> "ion"%string ->
  propulsionType config <> "nuclear"%string ->
  (forall deltaV timeOfFlight : number,
     calculateInterceptProbability deltaV timeOfFlight config = NaN) /\
  (forall (startPosition targetPosition : vec3) (timeOfFlight : number)
          (w : World),
     if existsb (String.eqb (propulsionType config)) Object_prototype_keys
     then exists traj w',
         calculateInterceptTrajectory startPosition targetPosition
           timeOfFlight config w = (Return traj, w') /\
         totalFuelUsed traj = NaN /\
         interceptProbability traj = NaN
     else calculateInterceptTrajectory startPosition targetPosition
            timeOfFlight config w = (Throw TypeError, w)).
Proof.
  intros H1 H2 H3.
  pose proof (unknown_propulsion_own (Fin 0.9) (Fin 0.95) (Fin 0.85) _ H1 H2 H3)
    as Hmul.
  fold propulsionMultiplier in Hmul.
  split.
  - intros deltaV timeOfFlight.
    now apply calculateInterceptProbability_unknown.
  - intros startPosition targetPosition timeOfFlight w.
    rewrite calculateInterceptTrajectory_closed. unfold get_property.
    unfold propulsionEfficiency.
    rewrite (unknown_propulsion_own _ _ _ _ H1 H2 H3).
    destruct (existsb _ _); cbn [propulsion_isp]; [| reflexivity].
    do 2 eexists. split; [reflexivity |].
    unfold built_trajectory. cbn [totalFuelUsed interceptProbability].
    split.
    + apply calculateFuelMass_NaN_isp.
    + now apply calculateInterceptProbability_unknown.
Qed.

Lemma unknown_propulsion_behaviour_witness :
  propulsionType (sample_config "solar") <> "chemical"%string /\
  propulsionType (sample_config "solar") <> "ion"%string /\
  propulsionType (sample_config "solar") <> "nuclear"%string /\
  calculateInterceptProbability (Fin 16000) (Fin 86400) (sample_config "solar")
  = NaN /\
  calculateInterceptTrajectory (fin3 1 0 0) (fin3 1.524 0 0) (Fin 86400)
    (sample_config "solar") (frozen_clock 0)
  = (Throw TypeError, frozen_clock 0).
Proof.
  assert (H1 : propulsionType (sample_config "solar") <> "chemical"%string)
    by discriminate.
  assert (H2 : propulsionType (sample_config "solar") <> "ion"%string)
    by discriminate.
  assert (H3 : propulsionType (sample_config "solar") <> "nuclear"%string)
    by discriminate.
  destruct (unknown_propulsion_behaviour (sample_config "solar") H1 H2 H3)
    as [Hprob Htraj].
  repeat (split; [assumption |]).
  split; [apply Hprob |].
  exact (Htraj (fin3 1 0 0) (fin3 1.524 0 0) (Fin 86400) (frozen_clock 0)).
Defined.

(** ** Hyperbolic functions *)

Lemma cosh_ge_1 (x : R) : (1 <= cosh x)%R.
Proof.
  unfold cosh. rewrite exp_Ropp.
  pose proof (exp_pos x) as Hy. revert Hy. generalize (exp x). intros y Hy.
  assert (H : (2 <= y + / y)%R).
  { apply (Rmult_le_reg_r y); [exact Hy |].
    replace ((y + / y) * y)%R with (y * y + 1)%R by (field; lra).
    pose proof (Rle_0_sqr (y - 1)) as Hsq. unfold Rsqr in Hsq. lra. }
  lra.
Qed.

Lemma sinh_pos (x : R) : (0 < x)%R -> (0 < sinh x)%R.
Proof. intros H. rewrite <- sinh_0. now apply sinh_lt. Qed.

Lemma sinh_neg (x : R) : (x < 0)%R -> (sinh x < 0)%R.
Proof. intros H. rewrite <- sinh_0. now apply sinh_lt. Qed.

Lemma tanh_pos (x : R) : (0 < x)%R -> (0 < tanh x)%R.
Proof.
  intros H. unfold tanh. apply Rdiv_lt_0_compat; [now apply sinh_pos |].
  pose proof (cosh_ge_1 x). lra.
Qed.

Lemma tanh_neg (x : R) : (x < 0)%R -> (tanh x < 0)%R.
Proof.
  intros H. unfold tanh. pose proof (cosh_ge_1 x) as Hc.
  pose proof (sinh_neg x H) as Hs.
  assert (Hi : (0 < / cosh x)%R) by (apply Rinv_0_lt_compat; lra).
  unfold Rdiv. nra.
Qed.

Lemma tanh_0 : tanh 0 = 0%R.
Proof. unfold tanh. rewrite sinh_0. unfold Rdiv. ring. Qed.

(** ** Eccentricity exactly 1 *)

Lemma parabolic_ratio : (Fin 1 + Fin 1) / (Fin 1 - Fin 1) = PInf.
Proof.
  cbn [add sub neg div]. rewrite Reqb_true by lra. now rewrite sign_pos by lra.
Qed.

Lemma calculateTrueAnomalyHyperbolic_parabolic (H : number) :
  calculateTrueAnomalyHyperbolic H (Fin 1) = parabolic_true_anomaly H.
Proof.
  unfold calculateTrueAnomalyHyperbolic. rewrite parabolic_ratio.
  cbn [Math_sqrt]. destruct H as [h | | |]; cbn [parabolic_true_anomaly].
  - rewrite div_Fin by lra. cbn [Math_tanh mul].
    destruct (Req_dec_T h 0) as [-> | Hne].
    + rewrite Reqb_true by reflexivity.
      replace (0 / 2)%R with 0%R by field. rewrite tanh_0.
      now rewrite sign_zero.
    + rewrite Reqb_false by assumption.
      destruct (Rlt_dec 0 h) as [Hpos | Hneg].
      * rewrite (Rltb_true 0 h) by assumption.
        rewrite sign_pos by (apply tanh_pos; lra).
        cbn [signed_inf Math_atan mul]. f_equal. field.
      * rewrite (Rltb_false 0 h) by lra.
        rewrite sign_neg by (apply tanh_neg; lra).
        cbn [signed_inf Math_atan mul]. f_equal. field.
  - cbn [div]. rewrite Rltb_false by lra. cbn [Math_tanh mul].
    rewrite sign_pos by lra. cbn [signed_inf Math_atan mul]. f_equal. field.
  - cbn [div]. rewrite Rltb_false by lra. cbn [Math_tanh mul].
    rewrite sign_neg by lra. cbn [signed_inf CompOpp Math_atan mul].
    f_equal. field.
  - reflexivity.
Qed.

Lemma mul_zero_cases (n : number) (d : R) :
  d = 0%R -> n * Fin d = Fin 0 \/ n * Fin d = NaN.
Proof.
  intros ->. destruct n as [x | | |]; cbn [mul].
  - left. f_equal. ring.
  - right. now rewrite sign_zero.
  - right. now rewrite sign_zero.
  - now right.
Qed.

Lemma tolerance_exceeded_initially :
  gt (Math_abs (Fin 1)) default_tolerance = true.
Proof.
  unfold default_tolerance. cbn [Math_abs]. apply gt_Fin.
  rewrite Rabs_R1. lra.
Qed.

Lemma solveHyperbolicKepler_parabolic_epoch (fuel : nat) (M : number) :
  M = Fin 0 \/ M = NaN ->
  solveHyperbolicKepler (S fuel) M (Fin 1) default_tolerance = Some NaN.
Proof.
  intros HM. unfold solveHyperbolicKepler. cbn [hyperbolic_while].
  rewrite tolerance_exceeded_initially.
  assert (Hstep : hyperbolic_step M (Fin 1) M = (NaN, NaN)).
  { unfold hyperbolic_step. destruct HM as [-> | ->]; [| reflexivity].
    cbn [Math_sinh Math_cosh mul sub neg add].
    rewrite sinh_0, cosh_0. cbn [div].
    rewrite Reqb_true by lra. rewrite sign_zero by lra. reflexivity. }
  rewrite Hstep. destruct fuel; reflexivity.
Qed.

Lemma orbitalStateVectors_NaN (elements : OrbitalElements) :
  orbitalStateVectors elements NaN
  = {| plane_position := (NaN, NaN); plane_velocity := (NaN, NaN) |}.
Proof.
  unfold orbitalStateVectors. cbn [Math_cos Math_sin].
  rewrite !mul_NaN_r, !add_NaN_r, !div_NaN_r. reflexivity.
Qed.

Lemma transformToEcliptic_NaN (z : number) (elements : OrbitalElements) :
  transformToEcliptic NaN NaN z elements = nan3.
Proof.
  unfold transformToEcliptic. rewrite !mul_NaN_r. reflexivity.
Qed.

Lemma ecliptic_state_NaN (elements : OrbitalElements) :
  ecliptic_state elements NaN
  = {| sv_position := nan3; sv_velocity := nan3 |}.
Proof.
  unfold ecliptic_state. rewrite orbitalStateVectors_NaN.
  cbn [plane_position plane_velocity].
  rewrite transformToEcliptic_NaN. reflexivity.
Qed.

Lemma calculatePositionAtTime_parabolic_epoch
  (fuel : nat) (elements : OrbitalElements) (t0 : R) :
  e elements = Fin 1 ->
  epoch elements = Fin t0 ->
  calculatePositionAtTime (S fuel) elements (Fin t0)
  = Some {| sv_position := nan3; sv_velocity := nan3 |}.
Proof.
  intros He Hepoch. unfold calculatePositionAtTime.
  rewrite He, Hepoch.
  assert (Hlt : lt (Fin 1) (Fin 1) = false) by (apply Rltb_false; lra).
  rewrite Hlt.
  assert (Hdt : (Fin t0 - Fin t0) * Constants.DAY_SECONDS
                = Fin ((t0 + - t0) * 86400)) by reflexivity.
  rewrite Hdt.
  rewrite solveHyperbolicKepler_parabolic_epoch
    by (apply mul_zero_cases; ring).
  rewrite calculateTrueAnomalyHyperbolic_parabolic.
  cbn [parabolic_true_anomaly]. now rewrite ecliptic_state_NaN.
Qed.

(** C3 (as stated) fails: at [e = 1] the conversion returns [NaN] for [H = 0]
    and the state-vector computation returns an all-[NaN] state at the epoch;
    neither fails. *)
Lemma parabolic_returns_NaN :
  calculateTrueAnomalyHyperbolic (Fin 0) (Fin 1) = NaN /\
  calculatePositionAtTime 1 parabolic_elements (Fin 2460146.5)
  = Some {| sv_position := nan3; sv_velocity := nan3 |}.
Proof.
  split.
  - rewrite calculateTrueAnomalyHyperbolic_parabolic.
    cbn [parabolic_true_anomaly]. now rewrite Reqb_true.
  - now apply calculatePositionAtTime_parabolic_epoch.
Qed.

(** C3 (amended): for eccentricity exactly 1 nothing fails.  The hyperbolic
    true-anomaly conversion returns [NaN] when [H] is 0 or [NaN], [PI] when [H]
    is positive and [-PI] when [H] is negative; the state-vector computation,
    evaluated at the epoch of elements with [e = 1], returns a state whose
    position and velocity components are all [NaN]. *)
Theorem parabolic_orbit_not_rejected :
  (forall H : number,
     calculateTrueAnomalyHyperbolic H (Fin 1) = parabolic_true_anomaly H) /\
  (forall (fuel : nat) (elements : OrbitalElements) (t0 : R),
     e elements = Fin 1 ->
     epoch elements = Fin t0 ->
     calculatePositionAtTime (S fuel) elements (Fin t0)
     = Some {| sv_position := nan3; sv_velocity := nan3 |}).
Proof.
  split.
  - exact calculateTrueAnomalyHyperbolic_parabolic.
  - exact calculatePositionAtTime_parabolic_epoch.
Qed.

Lemma parabolic_orbit_not_rejected_witness :
  e parabolic_elements = Fin 1 /\
  epoch parabolic_elements = Fin 2460146.5 /\
  calculateTrueAnomalyHyperbolic (Fin 3) (Fin 1) = parabolic_true_anomaly (Fin 3) /\
  calculatePositionAtTime 1 parabolic_elements (Fin 2460146.5)
  = Some {| sv_position := nan3; sv_velocity := nan3 |}.
Proof.
  destruct parabolic_orbit_not_rejected as [Hconv Hstate].
  split; [reflexivity |]. split; [reflexivity |].
  split; [apply Hconv |].
  apply (Hstate 0%nat parabolic_elements 2460146.5%R); reflexivity.
Defined.

(** ** Elliptical orbits at their epoch *)

Lemma solveKeplerEquation_zero_anomaly (fuel : nat) (e0 : R) :
  (e0 < 1)%R ->
  solveKeplerEquation (S fuel) (Fin 0) (Fin e0) default_tolerance
  = Some (Fin 0).
Proof.
  intros He. unfold solveKeplerEquation. cbn [kepler_while].
  rewrite tolerance_exceeded_initially.
  assert (Hstep : kepler_step (Fin 0) (Fin e0) (Fin 0) = (Fin 0, Fin 0)).
  { unfold kepler_step. cbn [Math_sin Math_cos mul sub neg add].
    rewrite sin_0, cos_0. rewrite div_Fin by lra.
    cbn [sub neg add]. f_equal; f_equal; field; lra. }
  rewrite Hstep.
  assert (Hexit : gt (Math_abs (Fin 0)) default_tolerance = false).
  { unfold default_tolerance. cbn [Math_abs gt]. apply Rltb_false.
    rewrite Rabs_R0. lra. }
  destruct fuel; cbn [kepler_while]; now rewrite Hexit.
Qed.

Lemma calculateTrueAnomaly_zero (e0 : R) :
  (-1 <= e0 < 1)%R -> calculateTrueAnomaly (Fin 0) (Fin e0) = Fin 0.
Proof.
  intros He. unfold calculateTrueAnomaly.
  rewrite div_Fin by lra. cbn [add sub neg Math_sin Math_cos].
  replace (0 / 2)%R with 0%R by field. rewrite sin_0, cos_0.
  rewrite !sqrt_Fin by lra. cbn [mul Math_atan2].
  assert (Hs : (0 < sqrt (1 + - e0))%R) by (apply sqrt_lt_R0; lra).
  rewrite Rltb_true by lra. cbn [mul]. f_equal.
  replace (sqrt (1 + e0) * 0 / (sqrt (1 + - e0) * 1))%R with 0%R
    by (field; lra).
  rewrite atan_0. ring.
Qed.

Lemma meanMotion_finite (x : R) :
  (0 < x)%R -> exists n : R, meanMotion (Fin x) Constants.SOLAR_MASS = Fin n.
Proof.
  intros Hx. unfold meanMotion, Constants.AU, Constants.G, Constants.SOLAR_MASS.
  cbn [mul Math_pow].
  assert (Hc : (0 < (x * 149597870.7 * 1000) ^ 3)%R)
    by (apply pow_lt; nra).
  rewrite div_Fin by lra.
  rewrite sqrt_Fin.
  - eexists. reflexivity.
  - apply Rlt_le, Rdiv_lt_0_compat; [lra | exact Hc].
Qed.

Lemma degToRad_Fin (degrees : R) : degToRad (Fin degrees) = Fin (radians degrees).
Proof. unfold degToRad, Math_PI. now rewrite div_Fin by lra. Qed.

Lemma rotation_column_unit (i0 w0 O0 : R) :
  let '(c1, c2, c3) := rotation_column i0 w0 O0 in
  (c1 * c1 + c2 * c2 + c3 * c3 = 1)%R.
Proof.
  unfold rotation_column.
  pose proof (sin2_cos2 i0) as Hi. pose proof (sin2_cos2 w0) as Hw.
  pose proof (sin2_cos2 O0) as HO. unfold Rsqr in *.
  replace ((cos O0 * cos w0 - sin O0 * sin w0 * cos i0)
           * (cos O0 * cos w0 - sin O0 * sin w0 * cos i0)
           + (sin O0 * cos w0 + cos O0 * sin w0 * cos i0)
             * (sin O0 * cos w0 + cos O0 * sin w0 * cos i0)
           + sin w0 * sin i0 * (sin w0 * sin i0))%R
    with ((sin O0 * sin O0 + cos O0 * cos O0)
          * (cos w0 * cos w0 + sin w0 * sin w0 * (cos i0 * cos i0))
          + sin w0 * sin w0 * (sin i0 * sin i0))%R by ring.
  rewrite HO.
  replace (1 * (cos w0 * cos w0 + sin w0 * sin w0 * (cos i0 * cos i0))
           + sin w0 * sin w0 * (sin i0 * sin i0))%R
    with (cos w0 * cos w0
          + sin w0 * sin w0 * (sin i0 * sin i0 + cos i0 * cos i0))%R by ring.
  rewrite Hi. lra.
Qed.

Lemma ecliptic_state_periapsis_position
  (elements : OrbitalElements) (a0 e0 i0 w0 O0 : R) :
  a elements = Fin a0 -> e elements = Fin e0 -> i elements = Fin i0 ->
  omega elements = Fin w0 -> Omega elements = Fin O0 ->
  (-1 < e0)%R ->
  let '(c1, c2, c3) := rotation_column (radians i0) (radians w0) (radians O0) in
  let r := (Rabs a0 * (1 - e0) / 149597870.7)%R in
  sv_position (ecliptic_state elements (Fin 0))
  = (Fin (c1 * r), Fin (c2 * r), Fin (c3 * r)).
Proof.
  intros Ha He Hi Hw HO Hecc. unfold rotation_column. cbv zeta.
  unfold ecliptic_state, orbitalStateVectors, transformToEcliptic.
  rewrite Ha, He, Hi, Hw, HO, !degToRad_Fin.
  cbn [Math_cos Math_sin Math_abs mul add sub neg plane_position
       plane_velocity].
  rewrite cos_0, sin_0.
  rewrite (div_Fin (Rabs a0 * (1 + - (e0 * e0))) (1 + e0 * 1)) by lra.
  cbn [mul add sub neg sv_position]. unfold Constants.AU.
  rewrite !div_Fin by lra.
  f_equal; [f_equal |]; f_equal; field; lra.
Qed.

Lemma calculatePositionAtTime_elliptic_epoch
  (fuel : nat) (elements : OrbitalElements) (a0 e0 t0 : R) :
  a elements = Fin a0 -> e elements = Fin e0 -> epoch elements = Fin t0 ->
  a0 <> 0%R -> (-1 <= e0 < 1)%R ->
  calculatePositionAtTime (S fuel) elements (Fin t0)
  = Some (ecliptic_state elements (Fin 0)).
Proof.
  intros Ha He Hepoch Ha0 Hecc. unfold calculatePositionAtTime.
  rewrite Ha, He, Hepoch.
  assert (Hlt : lt (Fin e0) (Fin 1) = true) by (apply gt_Fin; lra).
  rewrite Hlt. cbn [Math_abs].
  destruct (meanMotion_finite (Rabs a0)) as [n Hn];
    [now apply Rabs_pos_lt |].
  rewrite Hn.
  assert (HM : Fin n * ((Fin t0 - Fin t0) * Constants.DAY_SECONDS) = Fin 0).
  { unfold Constants.DAY_SECONDS. cbn [sub neg add mul]. f_equal. ring. }
  rewrite HM, solveKeplerEquation_zero_anomaly by lra.
  now rewrite calculateTrueAnomaly_zero.
Qed.

Lemma euclidean_norm_scaled (c1 c2 c3 r : R) :
  (c1 * c1 + c2 * c2 + c3 * c3 = 1)%R -> (0 <= r)%R ->
  euclidean_norm (Fin (c1 * r), Fin (c2 * r), Fin (c3 * r)) = Fin r.
Proof.
  intros Hunit Hr. unfold euclidean_norm. cbn [mul add].
  rewrite sqrt_Fin by apply sum_squares_nonneg. f_equal.
  replace (c1 * r * (c1 * r) + c2 * r * (c2 * r) + c3 * r * (c3 * r))%R
    with ((c1 * c1 + c2 * c2 + c3 * c3) * (r * r))%R by ring.
  rewrite Hunit, Rmult_1_l. now apply sqrt_square.
Qed.

(** C2: evaluated for Earth's registered elements at Earth's own epoch,
    [calculatePositionAtTime] returns a position whose Euclidean magnitude is
    [0.983 / 149597870.7] (about 6.6e-9), far below [1.0 - 0.02]: the
    orbital-plane radius is already in AU when it is divided by the number of
    kilometres in an AU. *)
Theorem Earth_epoch_position_magnitude :
  exists (earth : OrbitalElements) (st : StateVector),
    own_property PLANETARY_ELEMENTS "Earth" = Some earth /\
    calculatePositionAtTime 1 earth (Fin 2451545.0) = Some st /\
    euclidean_norm (sv_position st) = Fin (0.983 / 149597870.7) /\
    (0.983 / 149597870.7 < 1e-8)%R /\
    gt (Fin (1.0 - 0.02)) (euclidean_norm (sv_position st)) = true.
Proof.
  eexists. eexists. split; [reflexivity |].
  split.
  { apply (calculatePositionAtTime_elliptic_epoch 0 _ 1.000 0.017 2451545.0);
      try reflexivity; lra. }
  pose proof (ecliptic_state_periapsis_position
                {| a := Fin 1.000; e := Fin 0.017; i := Fin 0.0;
                   omega := Fin 114.2; Omega := Fin 0.0; M := Fin 0;
                   epoch := Fin 2451545.0 |}
                1.000 0.017 0.0 114.2 0.0
                eq_refl eq_refl eq_refl eq_refl eq_refl) as Hpos.
  pose proof (rotation_column_unit (radians 0.0) (radians 114.2) (radians 0.0))
    as Hunit.
  destruct (rotation_column (radians 0.0) (radians 114.2) (radians 0.0))
    as [[c1 c2] c3].
  cbv zeta in Hpos. rewrite Hpos by lra.
  assert (Hr : (Rabs 1.000 * (1 - 0.017) / 149597870.7
                = 0.983 / 149597870.7)%R).
  { rewrite Rabs_pos_eq by lra. lra. }
  rewrite Hr.
  rewrite euclidean_norm_scaled by (try assumption; lra).
  split; [reflexivity |]. split; [lra |]. apply gt_Fin. lra.
Qed.

(** ** The Newton-Raphson loops *)

Lemma kepler_while_newton (fuel : nat) (M e tol E d : number) :
  kepler_while fuel M e tol E d = newton_while (kepler_step M e) fuel tol E d.
Proof.
  revert E d. induction fuel as [| n IH]; intros E d; cbn; [reflexivity |].
  unfold continues. destruct (gt (Math_abs d) tol); [| reflexivity].
  destruct (kepler_step M e E) as [E' d']. apply IH.
Qed.

Lemma hyperbolic_while_newton (fuel : nat) (M e tol H d : number) :
  hyperbolic_while fuel M e tol H d
  = newton_while (hyperbolic_step M e) fuel tol H d.
Proof.
  revert H d. induction fuel as [| n IH]; intros H d; cbn; [reflexivity |].
  unfold continues. destruct (gt (Math_abs d) tol); [| reflexivity].
  destruct (hyperbolic_step M e H) as [H' d']. apply IH.
Qed.

Section NewtonLoop.

Variables (step : number -> number * number) (tol : number).

Lemma newton_while_exits (n : nat) (x d r : number) :
  newton_while step n tol x d = Some r <->
  exists k, (k <= n)%nat /\ exits_after step tol (x, d) k r.
Proof.
  revert x d. induction n as [| n IH]; intros x d; cbn [newton_while].
  - destruct (continues tol d) eqn:Hc; split.
    + discriminate.
    + intros [k [Hk [_ [Hstop _]]]]. assert (k = 0)%nat as -> by lia.
      cbn in Hstop. congruence.
    + intros [= <-]. exists 0%nat. split; [lia |].
      repeat split; [intros j Hj; lia | exact Hc].
    + intros [k [Hk [_ [_ ->]]]]. assert (k = 0)%nat as -> by lia.
      reflexivity.
  - destruct (continues tol d) eqn:Hc.
    + destruct (step x) as [x' d'] eqn:Hs. rewrite IH. split.
      * intros [k [Hk [Hrun [Hstop ->]]]]. exists (S k). split; [lia |].
        repeat split; cbn [newton_iterate fst]; rewrite ?Hs; auto.
        intros [| j] Hj; cbn [newton_iterate fst snd]; [exact Hc |].
        rewrite Hs. apply Hrun. lia.
      * intros [[| k] [Hk [Hrun [Hstop ->]]]].
        -- cbn in Hstop. congruence.
        -- exists k. split; [lia |].
           cbn [newton_iterate fst] in Hstop. rewrite Hs in Hstop.
           repeat split; cbn [newton_iterate fst]; rewrite ?Hs; auto.
           intros j Hj. specialize (Hrun (S j)).
           cbn [newton_iterate fst] in Hrun. rewrite Hs in Hrun.
           apply Hrun. lia.
    + split.
      * intros [= <-]. exists 0%nat. split; [lia |].
        repeat split; [intros j Hj; lia | exact Hc].
      * intros [[| k] [Hk [Hrun [Hstop ->]]]]; [reflexivity |].
        specialize (Hrun 0%nat). cbn in Hrun. rewrite Hrun in Hc by lia.
        discriminate.
Qed.

Lemma newton_while_pending (n : nat) (x d : number) :
  newton_while step n tol x d = None <->
  forall j, (j <= n)%nat ->
            continues tol (snd (newton_iterate step j (x, d))) = true.
Proof.
  revert x d. induction n as [| n IH]; intros x d; cbn [newton_while].
  - destruct (continues tol d) eqn:Hc; split; try discriminate; auto.
    + intros _ j Hj. assert (j = 0)%nat as -> by lia. exact Hc.
    + intros H. specialize (H 0%nat). cbn in H. rewrite H in Hc by lia.
      discriminate.
  - destruct (continues tol d) eqn:Hc.
    + destruct (step x) as [x' d'] eqn:Hs. rewrite IH. split.
      * intros H [| j] Hj; cbn [newton_iterate fst snd]; [exact Hc |].
        rewrite Hs. apply H. lia.
      * intros H j Hj. specialize (H (S j)).
        cbn [newton_iterate fst] in H. rewrite Hs in H. apply H. lia.
    + split; [discriminate |].
      intros H. specialize (H 0%nat). cbn in H. rewrite H in Hc by lia.
      discriminate.
Qed.

Lemma newton_while_more_fuel (n m : nat) (x d r : number) :
  (n <= m)%nat ->
  newton_while step n tol x d = Some r ->
  newton_while step m tol x d = Some r.
Proof.
  intros Hnm H. apply newton_while_exits in H. destruct H as [k [Hk Hex]].
  apply newton_while_exits. exists k. split; [lia | exact Hex].
Qed.

End NewtonLoop.

(** ** The hyperbolic solver far from its root *)

Lemma exp_ge_square (h : R) : (0 <= h)%R -> ((1 + h / 2) * (1 + h / 2) <= exp h)%R.
Proof.
  intros Hh.
  assert (Hsplit : exp h = (exp (h / 2) * exp (h / 2))%R)
    by (rewrite <- exp_plus; f_equal; field).
  rewrite Hsplit.
  assert (H1 : (1 + h / 2 <= exp (h / 2))%R).
  { destruct (Req_dec_T (h / 2) 0) as [-> | Hne].
    - rewrite exp_0. lra.
    - left. now apply exp_ineq1. }
  assert (H0 : (0 <= 1 + h / 2)%R) by lra.
  apply Rmult_le_compat; assumption.
Qed.

Lemma exp_neg_le_1 (h : R) : (0 <= h)%R -> (0 < exp (- h) <= 1)%R.
Proof.
  intros Hh. split; [apply exp_pos |].
  destruct Hh as [Hh | <-].
  - left. rewrite <- exp_0. apply exp_increasing. lra.
  - rewrite Ropp_0, exp_0. lra.
Qed.

Lemma quotient_gt (a c lo : R) : (0 < c)%R -> (lo * c < a)%R -> (lo < a / c)%R.
Proof.
  intros Hc H. apply (Rmult_lt_reg_r c); [exact Hc |].
  replace (a / c * c)%R with a by (field; lra). exact H.
Qed.

Lemma quotient_le (a c hi : R) : (0 < c)%R -> (a <= hi * c)%R -> (a / c <= hi)%R.
Proof.
  intros Hc H. apply (Rmult_le_reg_r c); [exact Hc |].
  replace (a / c * c)%R with a by (field; lra). exact H.
Qed.

Lemma quotient_ge (a c lo : R) : (0 < c)%R -> (lo * c <= a)%R -> (lo <= a / c)%R.
Proof.
  intros Hc H. apply (Rmult_le_reg_r c); [exact Hc |].
  replace (a / c * c)%R with a by (field; lra). exact H.
Qed.

(** For [M = 200], [e = 1.5] and an iterate between 100 and 200, the Newton
    step lies strictly above the tolerance and does not exceed 1. *)
Lemma hyperbolic_far_step (h : R) :
  (100 <= h <= 200)%R ->
  let df := (1.5 * cosh h - 1)%R in
  let d := ((1.5 * sinh h - h - 200) / df)%R in
  (0 < df)%R /\ (1e-8 < d <= 1)%R.
Proof.
  intros [Hlo Hhi]. cbv zeta.
  pose proof (exp_ge_square h ltac:(lra)) as HX.
  pose proof (exp_neg_le_1 h ltac:(lra)) as [HY0 HY1].
  assert (HXbig : (2601 <= exp h)%R) by nra.
  unfold sinh, cosh.
  revert HX HY0 HY1 HXbig. generalize (exp h), (exp (- h)). intros X Y HX HY0 HY1 HXbig.
  assert (Hdf : (0 < 1.5 * ((X + Y) / 2) - 1)%R) by lra.
  split; [exact Hdf |]. split.
  - apply quotient_gt; [exact Hdf | lra].
  - apply quotient_le; [exact Hdf | lra].
Qed.

Lemma hyperbolic_step_Fin (M0 e0 h : R) :
  (e0 * cosh h - 1 <> 0)%R ->
  hyperbolic_step (Fin M0) (Fin e0) (Fin h)
  = (Fin (h - (e0 * sinh h - h - M0) / (e0 * cosh h - 1)),
     Fin ((e0 * sinh h - h - M0) / (e0 * cosh h - 1))).
Proof.
  intros Hdf. unfold hyperbolic_step.
  cbn [Math_sinh Math_cosh mul sub neg add].
  rewrite div_Fin by exact Hdf. reflexivity.
Qed.

Lemma continues_Fin (d : R) :
  continues default_tolerance (Fin d) = true <-> (1e-8 < Rabs d)%R.
Proof. unfold continues, default_tolerance. cbn [Math_abs]. apply gt_Fin. Qed.

Lemma hyperbolic_far_pending (n : nat) (h d : R) :
  (100 + INR n <= h <= 200)%R -> (1e-8 < Rabs d)%R ->
  newton_while (hyperbolic_step (Fin 200) (Fin 1.5)) n default_tolerance
    (Fin h) (Fin d) = None.
Proof.
  revert h d. induction n as [| n IH]; intros h d Hh Hd; cbn [newton_while];
    rewrite (proj2 (continues_Fin d) Hd); [reflexivity |].
  rewrite S_INR in Hh. pose proof (pos_INR n) as Hn.
  destruct (hyperbolic_far_step h ltac:(lra)) as [Hdf [Hd1 Hd2]].
  rewrite hyperbolic_step_Fin by lra.
  apply IH.
  - lra.
  - rewrite Rabs_pos_eq; lra.
Qed.

Lemma solveHyperbolicKepler_still_iterating :
  solveHyperbolicKepler 100 (Fin 200) (Fin 1.5) default_tolerance = None.
Proof.
  unfold solveHyperbolicKepler. rewrite hyperbolic_while_newton.
  apply hyperbolic_far_pending.
  - replace (INR 100) with 100%R by (rewrite INR_IZR_INZ; reflexivity). lra.
  - rewrite Rabs_R1. lra.
Qed.

(** ** Convexity facts for the hyperbolic functions *)

Lemma sinh_mean_value (x y : R) :
  (x < y)%R ->
  exists c : R, (sinh y - sinh x = cosh c * (y - x))%R /\ (x < c < y)%R.
Proof.
  intros Hxy. apply (MVT_cor2 sinh cosh x y Hxy).
  intros c _. apply derivable_pt_lim_sinh.
Qed.

Lemma cosh_mean_value (x y : R) :
  (x < y)%R ->
  exists c : R, (cosh y - cosh x = sinh c * (y - x))%R /\ (x < c < y)%R.
Proof.
  intros Hxy. apply (MVT_cor2 cosh sinh x y Hxy).
  intros c _. apply derivable_pt_lim_cosh.
Qed.

Lemma cosh_increasing (x y : R) : (0 <= x <= y)%R -> (cosh x <= cosh y)%R.
Proof.
  intros [Hx [Hxy | <-]]; [| lra].
  destruct (cosh_mean_value x y Hxy) as [c [Heq Hc]].
  pose proof (sinh_pos c ltac:(lra)) as Hs. nra.
Qed.

Lemma sinh_tangent (x y : R) :
  (0 <= x)%R -> (0 <= y)%R ->
  (sinh x + cosh x * (y - x) <= sinh y)%R.
Proof.
  intros Hx Hy. destruct (Rtotal_order x y) as [Hlt | [<- | Hgt]].
  - destruct (sinh_mean_value x y Hlt) as [c [Heq Hc]].
    pose proof (cosh_increasing x c ltac:(lra)) as Hmono. nra.
  - lra.
  - destruct (sinh_mean_value y x Hgt) as [c [Heq Hc]].
    pose proof (cosh_increasing c x ltac:(lra)) as Hmono. nra.
Qed.

Lemma sinh_le_mul_cosh (u : R) : (0 <= u)%R -> (sinh u <= u * cosh u)%R.
Proof.
  intros Hu. pose proof (sinh_tangent u 0 Hu ltac:(lra)) as H.
  rewrite sinh_0 in H. lra.
Qed.

(** ** Termination of the hyperbolic solver *)

Section HyperbolicConvergence.

Variables (M0 e0 : R).
Hypothesis He : (1 < e0)%R.
Hypothesis HM : (0 <= M0)%R.

Local Abbreviation g := (hyperbolic_residual M0 e0).
Local Abbreviation g' := (hyperbolic_slope e0).
Local Abbreviation D := (hyperbolic_delta M0 e0).
Local Abbreviation N := (hyperbolic_next M0 e0).

Lemma hyperbolic_slope_pos (h : R) : (0 < g' h)%R.
Proof. unfold hyperbolic_slope. pose proof (cosh_ge_1 h). nra. Qed.

Lemma hyperbolic_next_nonneg (h : R) : (0 <= h)%R -> (0 <= N h)%R.
Proof.
  intros Hh. unfold hyperbolic_next, hyperbolic_delta.
  pose proof (hyperbolic_slope_pos h) as Hs.
  assert (Hle : (g h / g' h <= h)%R).
  { apply quotient_le; [exact Hs |].
    unfold hyperbolic_residual, hyperbolic_slope.
    pose proof (sinh_le_mul_cosh h Hh). nra. }
  lra.
Qed.

Lemma hyperbolic_next_residual (h : R) : (0 <= h)%R -> (0 <= g (N h))%R.
Proof.
  intros Hh. pose proof (hyperbolic_next_nonneg h Hh) as Hn.
  pose proof (sinh_tangent h (N h) Hh Hn) as Ht.
  pose proof (hyperbolic_slope_pos h) as Hs.
  assert (Hstep : (g' h * (N h - h) = - g h)%R).
  { unfold hyperbolic_next, hyperbolic_delta. field. lra. }
  unfold hyperbolic_residual, hyperbolic_slope in *. nra.
Qed.

Lemma hyperbolic_delta_nonneg (h : R) : (0 <= g h)%R -> (0 <= D h)%R.
Proof.
  intros Hg. unfold hyperbolic_delta.
  apply quotient_ge; [apply hyperbolic_slope_pos | lra].
Qed.

(** From an iterate right of the root, as long as every step exceeds [tol]
    the iterates decrease by more than [tol] each and stay non-negative. *)
Lemma hyperbolic_orbit_descent (tol : R) (m : nat) (h : R) :
  (0 <= h)%R -> (0 <= g h)%R ->
  (forall j, (j < m)%nat -> (tol < Rabs (D (hyperbolic_orbit M0 e0 j h)))%R) ->
  (0 <= hyperbolic_orbit M0 e0 m h <= h - INR m * tol)%R.
Proof.
  revert h. induction m as [| m IH]; intros h Hh Hg Hsteps.
  - cbn [hyperbolic_orbit INR]. lra.
  - cbn [hyperbolic_orbit]. rewrite S_INR.
    pose proof (Hsteps 0%nat ltac:(lia)) as H0. cbn [hyperbolic_orbit] in H0.
    rewrite Rabs_pos_eq in H0 by now apply hyperbolic_delta_nonneg.
    destruct (IH (N h)) as [Hlo Hhi].
    + now apply hyperbolic_next_nonneg.
    + now apply hyperbolic_next_residual.
    + intros j Hj. apply (Hsteps (S j)). lia.
    + split; [exact Hlo |]. unfold hyperbolic_next in Hhi at 2. lra.
Qed.

Lemma small_step_search (tol : R) (m : nat) (h : R) :
  (forall j, (j < m)%nat -> (tol < Rabs (D (hyperbolic_orbit M0 e0 j h)))%R) \/
  (exists j, (j < m)%nat /\ (Rabs (D (hyperbolic_orbit M0 e0 j h)) <= tol)%R).
Proof.
  induction m as [| m [IH | [j [Hj Hsmall]]]].
  - left. intros j Hj. lia.
  - destruct (Rlt_dec tol (Rabs (D (hyperbolic_orbit M0 e0 m h)))) as [Hlt | Hge].
    + left. intros j Hj. destruct (Nat.eq_dec j m) as [-> | Hne];
        [exact Hlt | apply IH; lia].
    + right. exists m. split; [lia | lra].
  - right. exists j. split; [lia | exact Hsmall].
Qed.

Lemma hyperbolic_small_step_nonneg (tol : R) :
  (0 < tol)%R ->
  exists k, (Rabs (D (hyperbolic_orbit M0 e0 k M0)) <= tol)%R.
Proof.
  intros Htol.
  pose proof (hyperbolic_next_nonneg M0 HM) as Hh1.
  pose proof (hyperbolic_next_residual M0 HM) as Hg1.
  destruct (INR_archimed tol (N M0) ltac:(lra)) as [m Hm].
  destruct (small_step_search tol m (N M0)) as [Hall | [j [_ Hsmall]]].
  - pose proof (hyperbolic_orbit_descent tol m (N M0) Hh1 Hg1 Hall). lra.
  - exists (S j). exact Hsmall.
Qed.

End HyperbolicConvergence.

Lemma sinh_opp (x : R) : sinh (- x) = (- sinh x)%R.
Proof. unfold sinh. rewrite Ropp_involutive. field. Qed.

Lemma cosh_opp (x : R) : cosh (- x) = cosh x.
Proof. unfold cosh. rewrite Ropp_involutive. field. Qed.

Lemma hyperbolic_delta_opp (M0 e0 h : R) :
  (1 < e0)%R ->
  hyperbolic_delta (- M0) e0 (- h) = (- hyperbolic_delta M0 e0 h)%R.
Proof.
  intros He. pose proof (hyperbolic_slope_pos e0 He h) as Hs.
  unfold hyperbolic_delta, hyperbolic_residual, hyperbolic_slope in *.
  rewrite sinh_opp, cosh_opp. field. lra.
Qed.

Lemma hyperbolic_orbit_opp (M0 e0 : R) (k : nat) (h : R) :
  (1 < e0)%R ->
  hyperbolic_orbit (- M0) e0 k (- h) = (- hyperbolic_orbit M0 e0 k h)%R.
Proof.
  intros He. revert h. induction k as [| k IH]; intros h; cbn [hyperbolic_orbit];
    [reflexivity |].
  rewrite <- IH. f_equal. unfold hyperbolic_next.
  rewrite hyperbolic_delta_opp by assumption. ring.
Qed.

Lemma hyperbolic_small_step (M0 e0 tol : R) :
  (1 < e0)%R -> (0 < tol)%R ->
  exists k, (Rabs (hyperbolic_delta M0 e0 (hyperbolic_orbit M0 e0 k M0)) <= tol)%R.
Proof.
  intros He Htol. destruct (Rle_dec 0 M0) as [Hpos | Hneg].
  - now apply hyperbolic_small_step_nonneg.
  - destruct (hyperbolic_small_step_nonneg (- M0) e0 He ltac:(lra) tol Htol)
      as [k Hk].
    exists k. rewrite <- (Ropp_involutive M0) at 1 2.
    rewrite <- (Ropp_involutive (hyperbolic_orbit _ _ _ _)).
    rewrite <- hyperbolic_orbit_opp by assumption.
    rewrite Ropp_involutive.
    rewrite <- (Ropp_involutive M0) at 1.
    rewrite hyperbolic_delta_opp, Rabs_Ropp by assumption.
    exact Hk.
Qed.

Lemma newton_iterate_hyperbolic (M0 e0 : R) (k : nat) (h : R) (d : number) :
  (1 < e0)%R ->
  newton_iterate (hyperbolic_step (Fin M0) (Fin e0)) (S k) (Fin h, d)
  = (Fin (hyperbolic_orbit M0 e0 (S k) h),
     Fin (hyperbolic_delta M0 e0 (hyperbolic_orbit M0 e0 k h))).
Proof.
  intros He. revert h d. induction k as [| k IH]; intros h d.
  - cbn [newton_iterate fst hyperbolic_orbit].
    rewrite hyperbolic_step_Fin; [reflexivity |].
    pose proof (hyperbolic_slope_pos e0 He h) as Hs.
    unfold hyperbolic_slope in Hs. lra.
  - change (newton_iterate (hyperbolic_step (Fin M0) (Fin e0)) (S (S k)) (Fin h, d))
      with (newton_iterate (hyperbolic_step (Fin M0) (Fin e0)) (S k)
              (hyperbolic_step (Fin M0) (Fin e0) (Fin h))).
    rewrite hyperbolic_step_Fin.
    + apply (IH (hyperbolic_next M0 e0 h)).
    + pose proof (hyperbolic_slope_pos e0 He h) as Hs.
      unfold hyperbolic_slope in Hs. lra.
Qed.

Lemma newton_iterate_hyperbolic_finite (M0 e0 : R) (k : nat) (h d : R) :
  (1 < e0)%R ->
  exists H : R,
    fst (newton_iterate (hyperbolic_step (Fin M0) (Fin e0)) k (Fin h, Fin d))
    = Fin H.
Proof.
  intros He. destruct k as [| k].
  - exists h. reflexivity.
  - rewrite newton_iterate_hyperbolic by assumption. eexists. reflexivity.
Qed.

Lemma solveHyperbolicKepler_terminates (M0 e0 : R) :
  (1 < e0)%R ->
  exists (n : nat) (H : R),
    solveHyperbolicKepler n (Fin M0) (Fin e0) default_tolerance = Some (Fin H).
Proof.
  intros He.
  destruct (hyperbolic_small_step M0 e0 1e-8 He ltac:(lra)) as [k Hk].
  exists (S k). unfold solveHyperbolicKepler. rewrite hyperbolic_while_newton.
  destruct (newton_while (hyperbolic_step (Fin M0) (Fin e0)) (S k)
              default_tolerance (Fin M0) (Fin 1)) as [r |] eqn:Hrun.
  - apply newton_while_exits in Hrun. destruct Hrun as [j [_ [_ [_ ->]]]].
    destruct (newton_iterate_hyperbolic_finite M0 e0 j M0 1 He) as [H ->].
    now exists H.
  - exfalso. rewrite newton_while_pending in Hrun.
    specialize (Hrun (S k) (Nat.le_refl _)).
    rewrite newton_iterate_hyperbolic in Hrun by assumption.
    cbn [snd] in Hrun. apply continues_Fin in Hrun. lra.
Qed.

Lemma solveKeplerEquation_circular (fuel : nat) (M0 : R) :
  solveKeplerEquation (S fuel) (Fin M0) (Fin 0) default_tolerance
  = Some (Fin M0).
Proof.
  unfold solveKeplerEquation. cbn [kepler_while].
  rewrite tolerance_exceeded_initially.
  assert (Hstep : kepler_step (Fin M0) (Fin 0) (Fin M0) = (Fin M0, Fin 0)).
  { unfold kepler_step. cbn [Math_sin Math_cos mul sub neg add].
    rewrite div_Fin by lra. cbn [sub neg add]. f_equal; f_equal; field; lra. }
  rewrite Hstep.
  assert (Hexit : gt (Math_abs (Fin 0)) default_tolerance = false).
  { unfold default_tolerance. cbn [Math_abs gt]. apply Rltb_false.
    rewrite Rabs_R0. lra. }
  destruct fuel; cbn [kepler_while]; now rewrite Hexit.
Qed.

Lemma solveHyperbolicKepler_zero_anomaly (fuel : nat) (e0 : R) :
  (1 < e0)%R ->
  solveHyperbolicKepler (S fuel) (Fin 0) (Fin e0) default_tolerance
  = Some (Fin 0).
Proof.
  intros He. unfold solveHyperbolicKepler. cbn [hyperbolic_while].
  rewrite tolerance_exceeded_initially.
  assert (Hstep : hyperbolic_step (Fin 0) (Fin e0) (Fin 0) = (Fin 0, Fin 0)).
  { rewrite hyperbolic_step_Fin by (rewrite cosh_0; lra).
    rewrite sinh_0, cosh_0. f_equal; f_equal; field; lra. }
  rewrite Hstep.
  assert (Hexit : gt (Math_abs (Fin 0)) default_tolerance = false).
  { unfold default_tolerance. cbn [Math_abs gt]. apply Rltb_false.
    rewrite Rabs_R0. lra. }
  destruct fuel; cbn [hyperbolic_while]; now rewrite Hexit.
Qed.

(** C1 (as stated) fails: for [M = 200], [e = 1.5] the hyperbolic solver has
    not returned after 100 iterations, and nothing makes it fail. *)
Lemma iteration_cap_refuted :
  (1 < 1.5)%R /\
  ~ exists (n : nat) (H : number),
      (n <= 100)%nat /\
      solveHyperbolicKepler n (Fin 200) (Fin 1.5) default_tolerance = Some H.
Proof.
  split; [lra |]. intros [n [H [Hn Hrun]]].
  unfold solveHyperbolicKepler in Hrun. rewrite hyperbolic_while_newton in Hrun.
  apply (newton_while_more_fuel _ _ n 100) in Hrun; [| exact Hn].
  rewrite <- hyperbolic_while_newton in Hrun.
  fold (solveHyperbolicKepler 100 (Fin 200) (Fin 1.5) default_tolerance) in Hrun.
  rewrite solveHyperbolicKepler_still_iterating in Hrun. discriminate.
Qed.

(** C1 (amended): neither solver bounds its iterations or fails.  Each one
    returns exactly when the test [|delta| > tolerance] first fails, with the
    iterate reached by then, and it is still iterating after [n] steps exactly
    when the test held at all of them.  The hyperbolic solver returns a finite
    value for every finite [M] and every [e > 1]; the elliptical solver
    returns after one step for [M = 0] (with [e < 1]) and for [e = 0]; the
    number of iterations is not bounded by 100: for [M = 200], [e = 1.5] the
    hyperbolic solver is still iterating after 100 steps. *)
Theorem solvers_iterate_until_converged :
  (forall (n : nat) (M e tol r : number),
     solveKeplerEquation n M e tol = Some r <->
     exists k, (k <= n)%nat /\ exits_after (kepler_step M e) tol (M, Fin 1) k r) /\
  (forall (n : nat) (M e tol r : number),
     solveHyperbolicKepler n M e tol = Some r <->
     exists k, (k <= n)%nat /\
               exits_after (hyperbolic_step M e) tol (M, Fin 1) k r) /\
  (forall (n : nat) (M e tol : number),
     solveKeplerEquation n M e tol = None <->
     forall j, (j <= n)%nat ->
       continues tol (snd (newton_iterate (kepler_step M e) j (M, Fin 1))) = true) /\
  (forall (n : nat) (M e tol : number),
     solveHyperbolicKepler n M e tol = None <->
     forall j, (j <= n)%nat ->
       continues tol (snd (newton_iterate (hyperbolic_step M e) j (M, Fin 1)))
       = true) /\
  (forall M0 e0 : R,
     (1 < e0)%R ->
     exists (n : nat) (H : R),
       solveHyperbolicKepler n (Fin M0) (Fin e0) default_tolerance
       = Some (Fin H)) /\
  (forall e0 : R,
     (e0 < 1)%R ->
     solveKeplerEquation 1 (Fin 0) (Fin e0) default_tolerance = Some (Fin 0)) /\
  (forall M0 : R,
     solveKeplerEquation 1 (Fin M0) (Fin 0) default_tolerance = Some (Fin M0)) /\
  solveHyperbolicKepler 100 (Fin 200) (Fin 1.5) default_tolerance = None.
Proof.
  repeat split.
  - unfold solveKeplerEquation. rewrite kepler_while_newton.
    apply newton_while_exits.
  - unfold solveKeplerEquation. rewrite kepler_while_newton.
    apply newton_while_exits.
  - unfold solveHyperbolicKepler. rewrite hyperbolic_while_newton.
    apply newton_while_exits.
  - unfold solveHyperbolicKepler. rewrite hyperbolic_while_newton.
    apply newton_while_exits.
  - unfold solveKeplerEquation. rewrite kepler_while_newton.
    apply newton_while_pending.
  - unfold solveKeplerEquation. rewrite kepler_while_newton.
    apply newton_while_pending.
  - unfold solveHyperbolicKepler. rewrite hyperbolic_while_newton.
    apply newton_while_pending.
  - unfold solveHyperbolicKepler. rewrite hyperbolic_while_newton.
    apply newton_while_pending.
  - intros M0 e0. apply solveHyperbolicKepler_terminates.
  - intros e0. apply solveKeplerEquation_zero_anomaly.
  - intros M0. apply solveKeplerEquation_circular.
  - apply solveHyperbolicKepler_still_iterating.
Qed.

Lemma solvers_iterate_until_converged_witness :
  (1 < 6.141)%R /\ (0.017 < 1)%R /\
  (exists (n : nat) (H : R),
     solveHyperbolicKepler n (Fin 3) (Fin 6.141) default_tolerance
     = Some (Fin H)) /\
  solveKeplerEquation 1 (Fin 0) (Fin 0.017) default_tolerance = Some (Fin 0).
Proof.
  assert (H1 : (1 < 6.141)%R) by lra.
  assert (H2 : (0.017 < 1)%R) by lra.
  destruct solvers_iterate_until_converged
    as [_ [_ [_ [_ [Hhyp [Hell _]]]]]].
  split; [exact H1 |]. split; [exact H2 |].
  split; [exact (Hhyp 3%R 6.141%R H1) | exact (Hell 0.017%R H2)].
Defined.

(** * Further properties of the engine and of its callers *)

(** ** Angle conversion *)

Lemma PI_neq_0 : PI <> 0%R.
Proof. pose proof PI_RGT_0. lra. Qed.

(** X1: Converting degrees to radians and back (and radians to degrees and
    back) returns the number one started from, for every JavaScript number. *)
Theorem degToRad_radToDeg_round_trip (x : number) :
  radToDeg (degToRad x) = x /\ degToRad (radToDeg x) = x.
Proof.
  pose proof PI_RGT_0 as Hpi.
  unfold radToDeg, degToRad, Math_PI.
  rewrite !div_Fin by lra.
  assert (H1 : (0 < PI / 180)%R) by (apply Rdiv_lt_0_compat; lra).
  assert (H2 : (0 < 180 / PI)%R) by (apply Rdiv_lt_0_compat; lra).
  destruct x as [r | | |]; cbn [mul];
    rewrite ?sign_pos by assumption; cbn [signed_inf CompOpp mul];
    rewrite ?sign_pos by assumption; cbn [signed_inf CompOpp];
    split; try reflexivity; f_equal; field; lra.
Qed.

(** ** The delta-v heuristic *)

Lemma add_comm (x y : number) : x + y = y + x.
Proof. destruct x, y; cbn [add]; try reflexivity. f_equal. ring. Qed.

(** X2: The delta-v estimate is symmetric in its two positions and does not
    depend on the flight time it is given. *)
Theorem calculateDeltaV_symmetric (r1 r2 : vec3) (timeOfFlight timeOfFlight' : number) :
  calculateDeltaV r1 r2 timeOfFlight = calculateDeltaV r2 r1 timeOfFlight'.
Proof.
  destruct r1 as [[x1 y1] z1], r2 as [[x2 y2] z2]. unfold calculateDeltaV.
  set (m1 := Math_sqrt (x1 * x1 + y1 * y1 + z1 * z1)).
  set (m2 := Math_sqrt (x2 * x2 + y2 * y2 + z2 * z2)).
  rewrite (add_comm m2 m1). apply add_comm.
Qed.

(** ** The success heuristic *)

Lemma deltaV_factor_bounds (deltaV : number) :
  (0.7 <= deltaV_factor deltaV <= 1)%R.
Proof.
  unfold deltaV_factor.
  destruct (gt deltaV (Fin 15000)), (gt deltaV (Fin 10000)); lra.
Qed.

Lemma flightTime_factor_bounds (timeOfFlight : number) :
  (0.8 <= flightTime_factor timeOfFlight <= 1)%R.
Proof.
  unfold flightTime_factor.
  destruct (gt timeOfFlight (Fin (2 * year_seconds))),
    (gt timeOfFlight (Fin (1 * year_seconds))); lra.
Qed.

Lemma deltaV_factor_antitone (d1 d2 : R) :
  (d1 <= d2)%R -> (deltaV_factor (Fin d2) <= deltaV_factor (Fin d1))%R.
Proof.
  intros H. unfold deltaV_factor. cbn [gt]. unfold Rltb.
  destruct (Rlt_dec 15000 d2), (Rlt_dec 15000 d1), (Rlt_dec 10000 d2),
    (Rlt_dec 10000 d1); lra.
Qed.

Lemma flightTime_factor_antitone (t1 t2 : R) :
  (t1 <= t2)%R -> (flightTime_factor (Fin t2) <= flightTime_factor (Fin t1))%R.
Proof.
  intros H. unfold flightTime_factor, year_seconds. cbn [gt]. unfold Rltb.
  destruct (Rlt_dec (2 * (365.25 * 86400)) t2),
    (Rlt_dec (2 * (365.25 * 86400)) t1),
    (Rlt_dec (1 * (365.25 * 86400)) t2),
    (Rlt_dec (1 * (365.25 * 86400)) t1); lra.
Qed.

Lemma propulsion_factor_bounds (propulsion : string) (f : R) :
  propulsion_factor propulsion = Some f -> (0.85 <= f <= 0.95)%R.
Proof.
  intros H. apply propulsion_factor_cases in H.
  destruct H as [[_ ->] | [[_ ->] | [_ ->]]]; lra.
Qed.

Lemma clamp_inactive (x : R) :
  (0.1 <= x <= 0.99)%R -> clamp 0.1 0.99 x = x.
Proof.
  intros [H1 H2]. unfold clamp.
  rewrite Rmin_right by lra. rewrite Rmax_right by lra. reflexivity.
Qed.

Lemma calculateInterceptProbability_clamped
  (deltaV timeOfFlight : number) (config : MissionConfig) (f : R) :
  propulsion_factor (propulsionType config) = Some f ->
  calculateInterceptProbability deltaV timeOfFlight config
  = Fin (clamp 0.1 0.99
           (0.85 * deltaV_factor deltaV * flightTime_factor timeOfFlight * f)).
Proof.
  intros Hp. unfold calculateInterceptProbability.
  rewrite (years_gt timeOfFlight 2), (years_gt timeOfFlight 1) by lra.
  unfold clamp, deltaV_factor, flightTime_factor.
  apply propulsion_factor_cases in Hp.
  destruct Hp as [[-> ->] | [[-> ->] | [-> ->]]];
    cbn [get_property own_property propulsionMultiplier String.eqb Ascii.eqb
         Bool.eqb ToNumber];
    destruct (gt deltaV (Fin 15000)), (gt deltaV (Fin 10000)),
      (gt timeOfFlight (Fin (2 * year_seconds))),
      (gt timeOfFlight (Fin (1 * year_seconds)));
    cbn [mul]; rewrite Math_min_Fin, Math_max_Fin; do 3 f_equal; lra.
Qed.

Lemma calculateInterceptProbability_product
  (deltaV timeOfFlight : number) (config : MissionConfig) (f : R) :
  propulsion_factor (propulsionType config) = Some f ->
  calculateInterceptProbability deltaV timeOfFlight config
  = Fin (0.85 * deltaV_factor deltaV * flightTime_factor timeOfFlight * f) /\
  (0.4 <= 0.85 * deltaV_factor deltaV * flightTime_factor timeOfFlight * f
   <= 0.81)%R.
Proof.
  intros Hf.
  pose proof (deltaV_factor_bounds deltaV) as Hd.
  pose proof (flightTime_factor_bounds timeOfFlight) as Ht.
  pose proof (propulsion_factor_bounds _ _ Hf) as Hp.
  assert (Hrange : (0.4 <= 0.85 * deltaV_factor deltaV
                           * flightTime_factor timeOfFlight * f <= 0.81)%R).
  { revert Hd Ht. generalize (deltaV_factor deltaV), (flightTime_factor timeOfFlight).
    intros u v Hd Ht.
    assert (Huv : (0.56 <= u * v <= 1)%R) by nra.
    replace (0.85 * u * v * f)%R with (0.85 * ((u * v) * f))%R by ring.
    assert (Huvf : (0.476 <= u * v * f <= 0.95)%R) by nra.
    lra. }
  split; [| exact Hrange].
  rewrite (calculateInterceptProbability_clamped deltaV timeOfFlight config f Hf).
  rewrite clamp_inactive by lra. reflexivity.
Qed.

(** X3: For a valid propulsion type the success heuristic returns a finite value
    between 0.4 and 0.81 (the clamp to [[0.1, 0.99]] never takes effect), and
    it does not increase when the delta-v or the flight time grows. *)
Theorem calculateInterceptProbability_range_and_antitone
  (deltaV1 deltaV2 timeOfFlight1 timeOfFlight2 : R) (config : MissionConfig)
  (f : R) :
  propulsion_factor (propulsionType config) = Some f ->
  (deltaV1 <= deltaV2)%R -> (timeOfFlight1 <= timeOfFlight2)%R ->
  exists p1 p2 : R,
    calculateInterceptProbability (Fin deltaV1) (Fin timeOfFlight1) config
    = Fin p1 /\
    calculateInterceptProbability (Fin deltaV2) (Fin timeOfFlight2) config
    = Fin p2 /\
    (0.4 <= p2 <= p1)%R /\ (p1 <= 0.81)%R.
Proof.
  intros Hf Hd Ht.
  destruct (calculateInterceptProbability_product (Fin deltaV1)
              (Fin timeOfFlight1) config f Hf) as [H1 [_ Hhi]].
  destruct (calculateInterceptProbability_product (Fin deltaV2)
              (Fin timeOfFlight2) config f Hf) as [H2 [Hlo _]].
  do 2 eexists. split; [exact H1 |]. split; [exact H2 |].
  split; [| exact Hhi]. split; [exact Hlo |].
  pose proof (deltaV_factor_antitone _ _ Hd) as Hda.
  pose proof (flightTime_factor_antitone _ _ Ht) as Hta.
  pose proof (deltaV_factor_bounds (Fin deltaV2)) as Hb1.
  pose proof (flightTime_factor_bounds (Fin timeOfFlight2)) as Hb2.
  pose proof (deltaV_factor_bounds (Fin deltaV1)) as Hb3.
  pose proof (flightTime_factor_bounds (Fin timeOfFlight1)) as Hb4.
  pose proof (propulsion_factor_bounds _ _ Hf) as Hp.
  revert Hda Hta Hb1 Hb2 Hb3 Hb4.
  generalize (deltaV_factor (Fin deltaV1)), (deltaV_factor (Fin deltaV2)),
    (flightTime_factor (Fin timeOfFlight1)),
    (flightTime_factor (Fin timeOfFlight2)).
  intros u1 u2 v1 v2 Hda Hta Hb1 Hb2 Hb3 Hb4.
  assert (Huv : (u2 * v2 <= u1 * v1)%R) by nra.
  assert (Huv0 : (0 <= u2 * v2)%R) by nra.
  replace (0.85 * u2 * v2 * f)%R with (0.85 * f * (u2 * v2))%R by ring.
  replace (0.85 * u1 * v1 * f)%R with (0.85 * f * (u1 * v1))%R by ring.
  apply Rmult_le_compat_l; [nra | exact Huv].
Qed.

Lemma calculateInterceptProbability_range_and_antitone_witness :
  propulsion_factor (propulsionType (sample_config "nuclear")) = Some 0.85%R /\
  (9000 <= 16000)%R /\ (86400 <= 70000000)%R /\
  exists p1 p2 : R,
    calculateInterceptProbability (Fin 9000) (Fin 86400)
      (sample_config "nuclear") = Fin p1 /\
    calculateInterceptProbability (Fin 16000) (Fin 70000000)
      (sample_config "nuclear") = Fin p2 /\
    (0.4 <= p2 <= p1)%R /\ (p1 <= 0.81)%R.
Proof.
  assert (Hf : propulsion_factor (propulsionType (sample_config "nuclear"))
               = Some 0.85%R) by reflexivity.
  assert (Hd : (9000 <= 16000)%R) by lra.
  assert (Ht : (86400 <= 70000000)%R) by lra.
  split; [exact Hf |]. split; [exact Hd |]. split; [exact Ht |].
  exact (calculateInterceptProbability_range_and_antitone
           9000 16000 86400 70000000 (sample_config "nuclear") 0.85 Hf Hd Ht).
Defined.

(** ** Fuel and propulsion efficiency *)

Lemma fuel_decreasing_in_isp (deltaV isp1 isp2 dryMass : R) :
  (0 < deltaV)%R -> (0 < dryMass)%R -> (0 < isp1 < isp2)%R ->
  (0 < dryMass * (exp (deltaV / (isp2 * 9.81)) - 1)
   < dryMass * (exp (deltaV / (isp1 * 9.81)) - 1))%R.
Proof.
  intros Hd Hm [H1 H12].
  assert (Hq2 : (0 < deltaV / (isp2 * 9.81))%R)
    by (apply Rdiv_lt_0_compat; lra).
  assert (Hq : (deltaV / (isp2 * 9.81) < deltaV / (isp1 * 9.81))%R).
  { unfold Rdiv. apply Rmult_lt_compat_l; [exact Hd |].
    apply Rinv_lt_contravar; nra. }
  pose proof (exp_increasing _ _ Hq2) as He2. rewrite exp_0 in He2.
  pose proof (exp_increasing _ _ Hq) as He. nra.
Qed.

Lemma built_totalFuelUsed_finite (s0 s1 s2 t0 t1 t2 : R)
  (timeOfFlight : number) (config : MissionConfig) (ispv : R) (w : World) :
  (0 < norm3 s0 s1 s2)%R -> (0 < norm3 t0 t1 t2)%R -> (0 < ispv)%R ->
  totalFuelUsed (built_trajectory (fin3 s0 s1 s2) (fin3 t0 t1 t2) timeOfFlight
                   config (Fin ispv) w)
  = Fin (1000 * (exp (visviva_deltaV (149597870.7 * 1000 * norm3 s0 s1 s2)
                        (149597870.7 * 1000 * norm3 t0 t1 t2)
                      / (ispv * 9.81)) - 1)).
Proof.
  intros Hs Ht Hisp. unfold built_trajectory. cbn [totalFuelUsed].
  rewrite calculateDeltaV_metres by assumption.
  now apply calculateFuelMass_Fin.
Qed.

(** X4: For the same pair of finite positions at different distances from the
    origin, the fuel the trajectory builder reports is strictly ordered by
    propulsion efficiency: ion (Isp 3000) needs less than nuclear (Isp 900),
    which needs less than chemical (Isp 450); all three amounts are
    positive. *)
Theorem totalFuelUsed_ordered_by_propulsion
  (s0 s1 s2 t0 t1 t2 : R) (timeOfFlight : number)
  (ion nuclear chemical : MissionConfig) (w : World) :
  propulsionType ion = "ion"%string ->
  propulsionType nuclear = "nuclear"%string ->
  propulsionType chemical = "chemical"%string ->
  (0 < norm3 s0 s1 s2)%R -> (0 < norm3 t0 t1 t2)%R ->
  norm3 s0 s1 s2 <> norm3 t0 t1 t2 ->
  exists (tr_i tr_n tr_c : InterceptorTrajectory) (f_i f_n f_c : R),
    fst (calculateInterceptTrajectory (fin3 s0 s1 s2) (fin3 t0 t1 t2)
           timeOfFlight ion w) = Return tr_i /\
    fst (calculateInterceptTrajectory (fin3 s0 s1 s2) (fin3 t0 t1 t2)
           timeOfFlight nuclear w) = Return tr_n /\
    fst (calculateInterceptTrajectory (fin3 s0 s1 s2) (fin3 t0 t1 t2)
           timeOfFlight chemical w) = Return tr_c /\
    totalFuelUsed tr_i = Fin f_i /\
    totalFuelUsed tr_n = Fin f_n /\
    totalFuelUsed tr_c = Fin f_c /\
    (0 < f_i < f_n)%R /\ (f_n < f_c)%R.
Proof.
  intros Hi Hn Hc Hs Ht Hne.
  rewrite !calculateInterceptTrajectory_closed, Hi, Hn, Hc.
  cbn [get_property own_property propulsionEfficiency String.eqb Ascii.eqb
       Bool.eqb propulsion_isp isp fst].
  do 6 eexists.
  split; [reflexivity |]. split; [reflexivity |]. split; [reflexivity |].
  rewrite !built_totalFuelUsed_finite by (try assumption; lra).
  split; [reflexivity |]. split; [reflexivity |]. split; [reflexivity |].
  set (m1 := (149597870.7 * 1000 * norm3 s0 s1 s2)%R).
  set (m2 := (149597870.7 * 1000 * norm3 t0 t1 t2)%R).
  assert (Hdv : (0 < visviva_deltaV m1 m2)%R).
  { apply visviva_deltaV_pos_iff; unfold m1, m2; nra. }
  pose proof (fuel_decreasing_in_isp (visviva_deltaV m1 m2) 900 3000 1000
                Hdv ltac:(lra) ltac:(lra)) as H1.
  pose proof (fuel_decreasing_in_isp (visviva_deltaV m1 m2) 450 900 1000
                Hdv ltac:(lra) ltac:(lra)) as H2.
  lra.
Qed.

Lemma totalFuelUsed_ordered_by_propulsion_witness :
  propulsionType (sample_config "ion") = "ion"%string /\
  propulsionType (other_config "nuclear") = "nuclear"%string /\
  propulsionType (sample_config "chemical") = "chemical"%string /\
  (0 < norm3 1 0 0)%R /\ (0 < norm3 1.524 0 0)%R /\
  norm3 1 0 0 <> norm3 1.524 0 0 /\
  exists (tr_i tr_n tr_c : InterceptorTrajectory) (f_i f_n f_c : R),
    fst (calculateInterceptTrajectory (fin3 1 0 0) (fin3 1.524 0 0)
           (Fin 17280000) (sample_config "ion") (frozen_clock 0))
    = Return tr_i /\
    fst (calculateInterceptTrajectory (fin3 1 0 0) (fin3 1.524 0 0)
           (Fin 17280000) (other_config "nuclear") (frozen_clock 0))
    = Return tr_n /\
    fst (calculateInterceptTrajectory (fin3 1 0 0) (fin3 1.524 0 0)
           (Fin 17280000) (sample_config "chemical") (frozen_clock 0))
    = Return tr_c /\
    totalFuelUsed tr_i = Fin f_i /\
    totalFuelUsed tr_n = Fin f_n /\
    totalFuelUsed tr_c = Fin f_c /\
    (0 < f_i < f_n)%R /\ (f_n < f_c)%R.
Proof.
  assert (Hn1 : norm3 1 0 0 = 1%R) by (apply norm3_x_axis; lra).
  assert (Hn2 : norm3 1.524 0 0 = 1.524%R) by (apply norm3_x_axis; lra).
  assert (Hs : (0 < norm3 1 0 0)%R) by (rewrite Hn1; lra).
  assert (Ht : (0 < norm3 1.524 0 0)%R) by (rewrite Hn2; lra).
  assert (Hne : norm3 1 0 0 <> norm3 1.524 0 0) by (rewrite Hn1, Hn2; lra).
  split; [reflexivity |]. split; [reflexivity |]. split; [reflexivity |].
  split; [exact Hs |]. split; [exact Ht |]. split; [exact Hne |].
  exact (totalFuelUsed_ordered_by_propulsion 1 0 0 1.524 0 0 (Fin 17280000)
           (sample_config "ion") (other_config "nuclear")
           (sample_config "chemical") (frozen_clock 0)
           eq_refl eq_refl eq_refl Hs Ht Hne).
Defined.

(** ** The rotation into the ecliptic frame *)

Lemma rotation_sum_squares (cO sO cw sw ci si x y : R) :
  (sO * sO + cO * cO = 1)%R -> (sw * sw + cw * cw = 1)%R ->
  (si * si + ci * ci = 1)%R ->
  let X := ((cO * cw - sO * sw * ci) * x + (- cO * sw - sO * cw * ci) * y)%R in
  let Y := ((sO * cw + cO * sw * ci) * x + (- sO * sw + cO * cw * ci) * y)%R in
  let Z := (sw * si * x + cw * si * y)%R in
  (X * X + Y * Y + Z * Z = x * x + y * y)%R.
Proof.
  intros HO Hw Hi X Y Z. subst X Y Z.
  set (u := (cw * x - sw * y)%R). set (v := (sw * x + cw * y)%R).
  replace ((cO * cw - sO * sw * ci) * x + (- cO * sw - sO * cw * ci) * y)%R
    with (cO * u - sO * ci * v)%R by (unfold u, v; ring).
  replace ((sO * cw + cO * sw * ci) * x + (- sO * sw + cO * cw * ci) * y)%R
    with (sO * u + cO * ci * v)%R by (unfold u, v; ring).
  replace (sw * si * x + cw * si * y)%R with (si * v)%R by (unfold v; ring).
  replace ((cO * u - sO * ci * v) * (cO * u - sO * ci * v)
           + (sO * u + cO * ci * v) * (sO * u + cO * ci * v)
           + si * v * (si * v))%R
    with ((sO * sO + cO * cO) * (u * u)
          + ((sO * sO + cO * cO) * (ci * ci) + si * si) * (v * v))%R by ring.
  rewrite HO.
  replace (1 * (u * u) + (1 * (ci * ci) + si * si) * (v * v))%R
    with (u * u + (si * si + ci * ci) * (v * v))%R by ring.
  rewrite Hi.
  replace (u * u + 1 * (v * v))%R
    with ((sw * sw + cw * cw) * (x * x + y * y))%R by (unfold u, v; ring).
  rewrite Hw. ring.
Qed.

Lemma sin2_cos2_mul (t : R) : (sin t * sin t + cos t * cos t = 1)%R.
Proof. pose proof (sin2_cos2 t) as H. unfold Rsqr in H. exact H. Qed.

Lemma transformToEcliptic_Fin (x y : R) (z : number)
  (elements : OrbitalElements) (i0 w0 O0 : R) :
  i elements = Fin i0 -> omega elements = Fin w0 -> Omega elements = Fin O0 ->
  exists X Y Z : R,
    transformToEcliptic (Fin x) (Fin y) z elements = (Fin X, Fin Y, Fin Z) /\
    (X * X + Y * Y + Z * Z = x * x + y * y)%R.
Proof.
  intros Hi Hw HO. unfold transformToEcliptic.
  rewrite Hi, Hw, HO, !degToRad_Fin.
  cbn [Math_cos Math_sin mul add sub neg].
  do 3 eexists. split; [reflexivity |].
  apply (rotation_sum_squares (cos (radians O0)) (sin (radians O0))
           (cos (radians w0)) (sin (radians w0))
           (cos (radians i0)) (sin (radians i0)) x y);
    apply sin2_cos2_mul.
Qed.

(** X5: [transformToEcliptic] is a rotation of the orbital plane: for finite
    angles and finite in-plane coordinates it returns a finite vector of the
    same Euclidean length as [(x, y, 0)], and its [z] argument has no
    influence on the result. *)
Theorem transformToEcliptic_preserves_length (x y : R) (z : number)
  (elements : OrbitalElements) (i0 w0 O0 : R) :
  i elements = Fin i0 -> omega elements = Fin w0 -> Omega elements = Fin O0 ->
  transformToEcliptic (Fin x) (Fin y) z elements
  = transformToEcliptic (Fin x) (Fin y) (Fin 0) elements /\
  euclidean_norm (transformToEcliptic (Fin x) (Fin y) z elements)
  = Fin (sqrt (x * x + y * y)).
Proof.
  intros Hi Hw HO. split; [reflexivity |].
  destruct (transformToEcliptic_Fin x y z elements i0 w0 O0 Hi Hw HO)
    as [X [Y [Z [-> Hsq]]]].
  unfold euclidean_norm. cbn [mul add].
  rewrite sqrt_Fin by apply sum_squares_nonneg. now rewrite Hsq.
Qed.

Lemma transformToEcliptic_preserves_length_witness :
  i ATLAS_3I_ELEMENTS = Fin 175.1 /\
  omega ATLAS_3I_ELEMENTS = Fin 310.4 /\
  Omega ATLAS_3I_ELEMENTS = Fin 87.2 /\
  euclidean_norm (transformToEcliptic (Fin 3) (Fin 4) NaN ATLAS_3I_ELEMENTS)
  = Fin (sqrt (3 * 3 + 4 * 4)).
Proof.
  split; [reflexivity |]. split; [reflexivity |]. split; [reflexivity |].
  exact (proj2 (transformToEcliptic_preserves_length 3 4 NaN ATLAS_3I_ELEMENTS
                  175.1 310.4 87.2 eq_refl eq_refl eq_refl)).
Defined.

(** ** Position in the orbital plane *)

Lemma conic_denominator_pos (e0 nu : R) :
  (0 <= e0 < 1)%R -> (1 - e0 <= 1 + e0 * cos nu <= 1 + e0)%R.
Proof. intros He. pose proof (COS_bound nu) as [Hlo Hhi]. nra. Qed.

Lemma conic_radius_bounds (a0 e0 nu : R) :
  (0 <= e0 < 1)%R ->
  (Rabs a0 * (1 - e0) <= conic_radius a0 e0 nu <= Rabs a0 * (1 + e0))%R.
Proof.
  intros He. pose proof (conic_denominator_pos e0 nu He) as Hd.
  pose proof (Rabs_pos a0) as Ha. unfold conic_radius.
  assert (Hden : (0 < 1 + e0 * cos nu)%R) by lra.
  pose proof (COS_bound nu) as [Hlo Hhi].
  assert (H1 : ((1 - e0) * (1 + e0 * cos nu) <= 1 - e0 * e0)%R) by nra.
  assert (H2 : (1 - e0 * e0 <= (1 + e0) * (1 + e0 * cos nu))%R) by nra.
  split.
  - apply quotient_ge; [exact Hden |].
    rewrite Rmult_assoc. apply Rmult_le_compat_l; assumption.
  - apply quotient_le; [exact Hden |].
    rewrite Rmult_assoc. apply Rmult_le_compat_l; assumption.
Qed.

Lemma orbitalStateVectors_position (elements : OrbitalElements)
  (a0 e0 nu : R) :
  a elements = Fin a0 -> e elements = Fin e0 -> (0 <= e0 < 1)%R ->
  plane_position (orbitalStateVectors elements (Fin nu))
  = (Fin (conic_radius a0 e0 nu * cos nu), Fin (conic_radius a0 e0 nu * sin nu)).
Proof.
  intros Ha He Hecc. pose proof (conic_denominator_pos e0 nu Hecc) as Hd.
  unfold orbitalStateVectors. rewrite Ha, He.
  cbn [Math_cos Math_sin Math_abs mul add sub neg plane_position].
  rewrite (div_Fin (Rabs a0 * (1 + - (e0 * e0))) (1 + e0 * cos nu)) by lra.
  reflexivity.
Qed.

(** X6: For an elliptical orbit ([0 <= e < 1]) and any finite true anomaly, the
    in-plane position returned by [orbitalStateVectors] is finite, lies at the
    distance [|a| (1 - e^2) / (1 + e cos nu)] from the focus, and that distance
    is between the periapsis distance [|a| (1 - e)] and the apoapsis distance
    [|a| (1 + e)]. *)
Theorem orbitalStateVectors_on_ellipse (elements : OrbitalElements)
  (a0 e0 nu : R) :
  a elements = Fin a0 -> e elements = Fin e0 -> (0 <= e0 < 1)%R ->
  exists x y : R,
    plane_position (orbitalStateVectors elements (Fin nu)) = (Fin x, Fin y) /\
    sqrt (x * x + y * y) = conic_radius a0 e0 nu /\
    (Rabs a0 * (1 - e0) <= sqrt (x * x + y * y) <= Rabs a0 * (1 + e0))%R.
Proof.
  intros Ha He Hecc.
  rewrite (orbitalStateVectors_position elements a0 e0 nu Ha He Hecc).
  do 2 eexists. split; [reflexivity |].
  pose proof (conic_radius_bounds a0 e0 nu Hecc) as Hb.
  pose proof (Rabs_pos a0) as Hpos.
  assert (Hr : (0 <= conic_radius a0 e0 nu)%R) by nra.
  assert (Hsq : sqrt (conic_radius a0 e0 nu * cos nu
                      * (conic_radius a0 e0 nu * cos nu)
                      + conic_radius a0 e0 nu * sin nu
                        * (conic_radius a0 e0 nu * sin nu))
                = conic_radius a0 e0 nu).
  { replace (conic_radius a0 e0 nu * cos nu * (conic_radius a0 e0 nu * cos nu)
             + conic_radius a0 e0 nu * sin nu * (conic_radius a0 e0 nu * sin nu))%R
      with ((sin nu * sin nu + cos nu * cos nu)
            * (conic_radius a0 e0 nu * conic_radius a0 e0 nu))%R by ring.
    rewrite sin2_cos2_mul, Rmult_1_l. now apply sqrt_square. }
  rewrite Hsq. split; [reflexivity | exact Hb].
Qed.

Lemma orbitalStateVectors_on_ellipse_witness :
  (0 <= 0.206 < 1)%R /\
  exists x y : R,
    plane_position
      (orbitalStateVectors
         {| a := Fin 0.387; e := Fin 0.206; i := Fin 7.0; omega := Fin 29.1;
            Omega := Fin 48.3; M := Fin 0; epoch := Fin 2451545.0 |} (Fin 2))
    = (Fin x, Fin y) /\
    sqrt (x * x + y * y) = conic_radius 0.387 0.206 2 /\
    (Rabs 0.387 * (1 - 0.206) <= sqrt (x * x + y * y)
     <= Rabs 0.387 * (1 + 0.206))%R.
Proof.
  assert (He : (0 <= 0.206 < 1)%R) by lra.
  split; [exact He |].
  exact (orbitalStateVectors_on_ellipse
           {| a := Fin 0.387; e := Fin 0.206; i := Fin 7.0; omega := Fin 29.1;
              Omega := Fin 48.3; M := Fin 0; epoch := Fin 2451545.0 |}
           0.387 0.206 2 eq_refl eq_refl He).
Defined.

(** ** Eccentric to true anomaly *)

Lemma calculateTrueAnomaly_Fin (E e0 : R) :
  (0 <= e0 < 1)%R -> (- PI < E < PI)%R ->
  calculateTrueAnomaly (Fin E) (Fin e0)
  = Fin (2 * atan (sqrt (1 + e0) * sin (E / 2)
                   / (sqrt (1 - e0) * cos (E / 2)))).
Proof.
  intros He HE. unfold calculateTrueAnomaly.
  rewrite div_Fin by lra. cbn [add sub neg Math_sin Math_cos].
  rewrite !sqrt_Fin by lra. cbn [mul Math_atan2].
  assert (Hc : (0 < cos (E / 2))%R) by (apply cos_gt_0; lra).
  assert (Hs : (0 < sqrt (1 + - e0))%R) by (apply sqrt_lt_R0; lra).
  rewrite Rltb_true by nra. reflexivity.
Qed.

(** X7: For an elliptical orbit and an eccentric anomaly strictly between [-PI]
    and [PI], [calculateTrueAnomaly] returns a finite angle [nu] strictly
    between [-PI] and [PI] with
    [tan (nu / 2) = sqrt ((1 + e) / (1 - e)) * tan (E / 2)];
    on a circular orbit ([e = 0]) it returns [E] itself. *)
Theorem calculateTrueAnomaly_half_angle (E e0 : R) :
  (0 <= e0 < 1)%R -> (- PI < E < PI)%R ->
  exists nu : R,
    calculateTrueAnomaly (Fin E) (Fin e0) = Fin nu /\
    (- PI < nu < PI)%R /\
    tan (nu / 2) = (sqrt ((1 + e0) / (1 - e0)) * tan (E / 2))%R /\
    (e0 = 0%R -> nu = E).
Proof.
  intros He HE. rewrite calculateTrueAnomaly_Fin by assumption.
  eexists. split; [reflexivity |].
  assert (Hc : (0 < cos (E / 2))%R) by (apply cos_gt_0; lra).
  assert (Hs : (0 < sqrt (1 - e0))%R) by (apply sqrt_lt_R0; lra).
  set (z := (sqrt (1 + e0) * sin (E / 2) / (sqrt (1 - e0) * cos (E / 2)))%R).
  pose proof (atan_bound z) as Hb.
  split; [lra |]. split.
  - replace (2 * atan z / 2)%R with (atan z) by field.
    rewrite tan_atan. unfold z, tan. rewrite sqrt_div by lra.
    field. lra.
  - intros ->. unfold z.
    replace (sqrt (1 + 0) * sin (E / 2) / (sqrt (1 - 0) * cos (E / 2)))%R
      with (tan (E / 2)).
    + rewrite atan_tan by lra. field.
    + unfold tan. rewrite Rplus_0_r, Rminus_0_r, sqrt_1. field. lra.
Qed.

Lemma calculateTrueAnomaly_half_angle_witness :
  (0 <= 0.093 < 1)%R /\ (- PI < 1 < PI)%R /\
  exists nu : R,
    calculateTrueAnomaly (Fin 1) (Fin 0.093) = Fin nu /\
    (- PI < nu < PI)%R /\
    tan (nu / 2) = (sqrt ((1 + 0.093) / (1 - 0.093)) * tan (1 / 2))%R.
Proof.
  assert (He : (0 <= 0.093 < 1)%R) by lra.
  assert (HE : (- PI < 1 < PI)%R) by (pose proof PI2_1; pose proof PI_RGT_0; lra).
  split; [exact He |]. split; [exact HE |].
  destruct (calculateTrueAnomaly_half_angle 1 0.093 He HE)
    as [nu [Hnu [Hb [Ht _]]]].
  exists nu. repeat split; assumption || apply Hb.
Defined.

(** ** The elliptical solver: accuracy and termination *)

Lemma sin_lipschitz (x y : R) : (Rabs (sin x - sin y) <= Rabs (x - y))%R.
Proof.
  destruct (MVT_abs sin cos y x) as [c [Heq _]].
  - intros c _. apply derivable_pt_lim_sin.
  - rewrite Heq. pose proof (COS_bound c) as [Hlo Hhi].
    assert (Hc : (Rabs (cos c) <= 1)%R) by (apply Rabs_le; lra).
    pose proof (Rabs_pos (x - y)). nra.
Qed.

Section KeplerConvergence.

Variables (M0 e0 : R).
Hypothesis He : (0 <= e0 < 1)%R.

Lemma kepler_slope_bounds (E : R) :
  (1 - e0 <= kepler_slope e0 E <= 1 + e0)%R.
Proof. unfold kepler_slope. pose proof (COS_bound E) as [Hlo Hhi]. nra. Qed.

Lemma kepler_slope_pos (E : R) : (0 < kepler_slope e0 E)%R.
Proof. pose proof (kepler_slope_bounds E). lra. Qed.

Lemma kepler_step_Fin (E : R) :
  kepler_step (Fin M0) (Fin e0) (Fin E)
  = (Fin (kepler_next M0 e0 E), Fin (kepler_delta M0 e0 E)).
Proof.
  unfold kepler_step. cbn [Math_sin Math_cos mul sub neg add].
  pose proof (kepler_slope_pos E) as Hs. unfold kepler_slope in Hs.
  rewrite div_Fin by lra. reflexivity.
Qed.

Lemma kepler_orbit_S (k : nat) (E : R) :
  kepler_orbit M0 e0 (S k) E = kepler_next M0 e0 (kepler_orbit M0 e0 k E).
Proof.
  revert E. induction k as [| k IH]; intros E; [reflexivity |].
  change (kepler_orbit M0 e0 (S (S k)) E)
    with (kepler_orbit M0 e0 (S k) (kepler_next M0 e0 E)).
  rewrite IH. reflexivity.
Qed.

Lemma newton_iterate_kepler (k : nat) (E : R) (d : number) :
  newton_iterate (kepler_step (Fin M0) (Fin e0)) (S k) (Fin E, d)
  = (Fin (kepler_orbit M0 e0 (S k) E),
     Fin (kepler_delta M0 e0 (kepler_orbit M0 e0 k E))).
Proof.
  revert E d. induction k as [| k IH]; intros E d.
  - cbn [newton_iterate fst kepler_orbit]. apply kepler_step_Fin.
  - change (newton_iterate (kepler_step (Fin M0) (Fin e0)) (S (S k)) (Fin E, d))
      with (newton_iterate (kepler_step (Fin M0) (Fin e0)) (S k)
              (kepler_step (Fin M0) (Fin e0) (Fin E))).
    rewrite kepler_step_Fin. apply (IH (kepler_next M0 e0 E)).
Qed.

(** After a Newton step of size [delta] the residual is at most
    [2 e |delta|]. *)
Lemma kepler_residual_after_step (E : R) :
  (Rabs (kepler_residual M0 e0 (kepler_next M0 e0 E))
   <= 2 * e0 * Rabs (kepler_delta M0 e0 E))%R.
Proof.
  pose proof (kepler_slope_pos E) as Hs.
  remember (kepler_delta M0 e0 E) as d eqn:Hdd.
  assert (Hd : (kepler_residual M0 e0 E = d * kepler_slope e0 E)%R).
  { rewrite Hdd. unfold kepler_delta. field. lra. }
  assert (Hnext : kepler_next M0 e0 E = (E - d)%R)
    by (rewrite Hdd; reflexivity).
  assert (Heq : (kepler_residual M0 e0 (kepler_next M0 e0 E)
                 = e0 * (sin E - sin (E - d)) - e0 * (d * cos E))%R).
  { rewrite Hnext. unfold kepler_residual, kepler_slope in *. lra. }
  rewrite Heq.
  pose proof (sin_lipschitz E (E - d)) as Hl.
  replace (E - (E - d))%R with d in Hl by ring.
  pose proof (COS_bound E) as [Hlo Hhi].
  assert (Hc : (Rabs (d * cos E) <= Rabs d)%R).
  { rewrite Rabs_mult. pose proof (Rabs_pos d).
    assert (Rabs (cos E) <= 1)%R by (apply Rabs_le; lra). nra. }
  assert (H1 : (Rabs (e0 * (sin E - sin (E - d)))
                <= e0 * Rabs d)%R).
  { rewrite Rabs_mult, (Rabs_pos_eq e0) by lra.
    apply Rmult_le_compat_l; lra. }
  assert (H2 : (Rabs (- (e0 * (d * cos E))) <= e0 * Rabs d)%R).
  { rewrite Rabs_Ropp, Rabs_mult, (Rabs_pos_eq e0) by lra.
    apply Rmult_le_compat_l; lra. }
  unfold Rminus at 1.
  eapply Rle_trans; [apply Rabs_triang |]. lra.
Qed.

Lemma kepler_delta_contracts (E : R) :
  (Rabs (kepler_delta M0 e0 (kepler_next M0 e0 E))
   <= 2 * e0 / (1 - e0) * Rabs (kepler_delta M0 e0 E))%R.
Proof.
  pose proof (kepler_residual_after_step E) as Hr.
  pose proof (kepler_slope_bounds (kepler_next M0 e0 E)) as Hb.
  unfold kepler_delta at 1. unfold Rdiv at 1.
  rewrite Rabs_mult, Rabs_inv, (Rabs_pos_eq (kepler_slope _ _)) by lra.
  pose proof (Rabs_pos (kepler_delta M0 e0 E)) as Hd.
  pose proof (Rabs_pos (kepler_residual M0 e0 (kepler_next M0 e0 E))) as Hres.
  assert (Hinv : (/ kepler_slope e0 (kepler_next M0 e0 E) <= / (1 - e0))%R)
    by (apply Rinv_le_contravar; lra).
  assert (Hinv0 : (0 < / kepler_slope e0 (kepler_next M0 e0 E))%R)
    by (apply Rinv_0_lt_compat; lra).
  assert (Hinv1 : (0 < / (1 - e0))%R) by (apply Rinv_0_lt_compat; lra).
  unfold Rdiv.
  replace (2 * e0 * / (1 - e0) * Rabs (kepler_delta M0 e0 E))%R
    with (2 * e0 * Rabs (kepler_delta M0 e0 E) * / (1 - e0))%R by ring.
  apply Rmult_le_compat; lra.
Qed.

Lemma kepler_first_delta : (Rabs (kepler_delta M0 e0 M0) <= e0 / (1 - e0))%R.
Proof.
  pose proof (kepler_slope_bounds M0) as Hb.
  unfold kepler_delta, kepler_residual.
  replace (M0 - e0 * sin M0 - M0)%R with (- (e0 * sin M0))%R by ring.
  unfold Rdiv. rewrite Rabs_mult, Rabs_Ropp, Rabs_mult, Rabs_inv.
  rewrite (Rabs_pos_eq e0), (Rabs_pos_eq (kepler_slope e0 M0)) by lra.
  pose proof (SIN_bound M0) as [Hlo Hhi].
  assert (Hs : (Rabs (sin M0) <= 1)%R) by (apply Rabs_le; lra).
  pose proof (Rabs_pos (sin M0)) as Hs0.
  assert (Hinv : (/ kepler_slope e0 M0 <= / (1 - e0))%R)
    by (apply Rinv_le_contravar; lra).
  assert (Hinv0 : (0 < / kepler_slope e0 M0)%R)
    by (apply Rinv_0_lt_compat; lra).
  apply Rmult_le_compat; nra.
Qed.

Lemma kepler_delta_geometric (k : nat) :
  (Rabs (kepler_delta M0 e0 (kepler_orbit M0 e0 k M0))
   <= (2 * e0 / (1 - e0)) ^ k * (e0 / (1 - e0)))%R.
Proof.
  assert (Hq : (0 <= 2 * e0 / (1 - e0))%R).
  { apply Rmult_le_pos; [lra |]. apply Rlt_le, Rinv_0_lt_compat. lra. }
  induction k as [| k IH].
  - cbn [kepler_orbit pow]. rewrite Rmult_1_l. apply kepler_first_delta.
  - rewrite kepler_orbit_S.
    eapply Rle_trans; [apply kepler_delta_contracts |].
    cbn [pow]. rewrite Rmult_assoc.
    apply Rmult_le_compat_l; assumption.
Qed.

End KeplerConvergence.

Lemma newton_iterate_kepler_finite (M0 e0 : R) (k : nat) (E d : R) :
  (0 <= e0 < 1)%R ->
  exists E' : R,
    fst (newton_iterate (kepler_step (Fin M0) (Fin e0)) k (Fin E, Fin d))
    = Fin E'.
Proof.
  intros He. destruct k as [| k].
  - exists E. reflexivity.
  - rewrite newton_iterate_kepler by assumption. eexists. reflexivity.
Qed.

Lemma solveKeplerEquation_small_step (M0 e0 : R) (k n : nat) :
  (0 <= e0 < 1)%R ->
  (Rabs (kepler_delta M0 e0 (kepler_orbit M0 e0 k M0)) <= 1e-8)%R ->
  (S k <= n)%nat ->
  exists E : R,
    solveKeplerEquation n (Fin M0) (Fin e0) default_tolerance = Some (Fin E).
Proof.
  intros He Hsmall Hn. unfold solveKeplerEquation. rewrite kepler_while_newton.
  destruct (newton_while (kepler_step (Fin M0) (Fin e0)) n
              default_tolerance (Fin M0) (Fin 1)) as [r |] eqn:Hrun.
  - apply newton_while_exits in Hrun. destruct Hrun as [j [_ [_ [_ ->]]]].
    destruct (newton_iterate_kepler_finite M0 e0 j M0 1 He) as [E ->].
    now exists E.
  - exfalso. rewrite newton_while_pending in Hrun.
    specialize (Hrun (S k) Hn).
    rewrite newton_iterate_kepler in Hrun by assumption.
    cbn [snd] in Hrun. apply continues_Fin in Hrun. lra.
Qed.



Lemma geometric_below (q c tol : R) :
  (0 <= q < 1)%R -> (0 <= c)%R -> (0 < tol)%R ->
  exists k : nat, (q ^ k * c <= tol)%R.
Proof.
  intros Hq Hc Htol.
  destruct (pow_lt_1_zero q) with (y := (tol / (c + 1))%R) as [N HN].
  - rewrite Rabs_pos_eq; lra.
  - apply Rdiv_lt_0_compat; lra.
  - exists N. specialize (HN N (Nat.le_refl N)).
    rewrite Rabs_pos_eq in HN by (apply pow_le; lra).
    assert (Hpow : (0 <= q ^ N)%R) by (apply pow_le; lra).
    assert (Hlt : (q ^ N * (c + 1) < tol)%R).
    { apply (Rmult_lt_compat_r (c + 1)) in HN; [| lra].
      replace (tol / (c + 1) * (c + 1))%R with tol in HN by (field; lra).
      exact HN. }
    nra.
Qed.

Lemma solveKeplerEquation_returns (M0 e0 : R) :
  (0 <= e0 < 1 / 3)%R ->
  exists (n : nat) (E : R),
    solveKeplerEquation n (Fin M0) (Fin e0) default_tolerance = Some (Fin E).
Proof.
  intros He. assert (He1 : (0 <= e0 < 1)%R) by lra.
  assert (Hinv : (0 < / (1 - e0))%R) by (apply Rinv_0_lt_compat; lra).
  assert (Hq : (0 <= 2 * e0 / (1 - e0) < 1)%R).
  { split; [unfold Rdiv; nra |].
    apply (Rmult_lt_reg_r (1 - e0)); [lra |].
    replace (2 * e0 / (1 - e0) * (1 - e0))%R with (2 * e0)%R by (field; lra).
    lra. }
  assert (Hc : (0 <= e0 / (1 - e0))%R) by (unfold Rdiv; nra).
  destruct (geometric_below _ _ 1e-8 Hq Hc ltac:(lra)) as [k Hk].
  exists (S k).
  apply (solveKeplerEquation_small_step M0 e0 k (S k) He1); [| lia].
  eapply Rle_trans; [apply kepler_delta_geometric; exact He1 | exact Hk].
Qed.

Lemma solveKeplerEquation_thirty (M0 e0 : R) :
  (0 <= e0 <= 0.206)%R ->
  exists E : R,
    solveKeplerEquation 30 (Fin M0) (Fin e0) default_tolerance = Some (Fin E).
Proof.
  intros He. assert (He1 : (0 <= e0 < 1)%R) by lra.
  apply (solveKeplerEquation_small_step M0 e0 28 30 He1); [| lia].
  eapply Rle_trans; [apply kepler_delta_geometric; exact He1 |].
  assert (Hinv : (0 < / (1 - e0))%R) by (apply Rinv_0_lt_compat; lra).
  assert (Hq : (0 <= 2 * e0 / (1 - e0) <= 0.52)%R).
  { split; [unfold Rdiv; nra |]. apply quotient_le; lra. }
  assert (Hc : (0 <= e0 / (1 - e0) <= 0.26)%R).
  { split; [unfold Rdiv; nra |]. apply quotient_le; lra. }
  assert (Hpow : (0 <= (2 * e0 / (1 - e0)) ^ 28 <= 0.52 ^ 28)%R).
  { split; [apply pow_le; lra | apply pow_incr; lra]. }
  assert (Hnum : (0.52 ^ 28 * 0.26 <= 1e-8)%R) by (simpl; lra).
  eapply Rle_trans; [| exact Hnum].
  apply Rmult_le_compat; lra.
Qed.

Lemma Rabs_le_between (x b : R) : (Rabs x <= b)%R -> (- b <= x <= b)%R.
Proof. unfold Rabs. destruct (Rcase_abs x); lra. Qed.

Lemma solveKeplerEquation_near_anomaly (n : nat) (M0 e0 E : R) :
  (0 <= e0 < 1)%R ->
  solveKeplerEquation n (Fin M0) (Fin e0) default_tolerance = Some (Fin E) ->
  (Rabs (E - M0) <= e0 + 2e-8)%R.
Proof.
  intros He Hrun. unfold solveKeplerEquation in Hrun.
  rewrite kepler_while_newton in Hrun.
  apply newton_while_exits in Hrun.
  destruct Hrun as [[| k] [_ [_ [Hstop HE]]]].
  - cbn [newton_iterate snd] in Hstop.
    assert (Hgo : continues default_tolerance (Fin 1) = true).
    { apply continues_Fin. rewrite Rabs_R1. lra. }
    rewrite Hgo in Hstop. discriminate.
  - rewrite newton_iterate_kepler in * by assumption.
    cbn [fst snd] in *.
    assert (HE' : E = kepler_orbit M0 e0 (S k) M0) by congruence.
    clear HE. subst E.
    assert (Hsmall : (Rabs (kepler_delta M0 e0 (kepler_orbit M0 e0 k M0))
                      <= 1e-8)%R).
    { destruct (Rle_dec (Rabs (kepler_delta M0 e0 (kepler_orbit M0 e0 k M0)))
                  1e-8) as [Hle | Hgt]; [exact Hle |].
      exfalso. assert (Hc : continues default_tolerance
                 (Fin (kepler_delta M0 e0 (kepler_orbit M0 e0 k M0))) = true)
        by (apply continues_Fin; lra).
      rewrite Hc in Hstop. discriminate. }
    rewrite kepler_orbit_S by assumption.
    pose proof (kepler_residual_after_step M0 e0 He (kepler_orbit M0 e0 k M0))
      as Hres.
    unfold kepler_residual in Hres at 1.
    pose proof (Rabs_pos (kepler_delta M0 e0 (kepler_orbit M0 e0 k M0))).
    set (E' := kepler_next M0 e0 (kepler_orbit M0 e0 k M0)) in *.
    assert (Hr : (Rabs (E' - e0 * sin E' - M0) <= 2e-8)%R) by nra.
    pose proof (SIN_bound E') as [Hlo Hhi].
    apply Rabs_le. apply Rabs_le_between in Hr. split; nra.
Qed.

(** X9: The elliptical solver returns for mean anomalies of moderate size.
    For a mean anomaly [|M| <= 1e6] and an eccentricity [0 <= e < 1/3] the
    loop exits and returns a finite [E] with [|E - M| <= e + 2e-8]; for
    [e <= 0.206], which covers every registered planet, it does so within
    30 iterations.  The iteration is the exact one: in binary64 it agrees
    with it up to rounding in this range, while for [|M| >= 2 ^ 26], where
    neighbouring numbers are more than the tolerance apart, the loop of the
    source can cycle for ever. *)
Theorem solveKeplerEquation_terminates (M0 e0 : R) :
  (Rabs M0 <= 1e6)%R -> (0 <= e0 < 1 / 3)%R ->
  (exists (n : nat) (E : R),
     solveKeplerEquation n (Fin M0) (Fin e0) default_tolerance
     = Some (Fin E) /\
     (Rabs (E - M0) <= e0 + 2e-8)%R /\ (Rabs E <= 1e6 + 1)%R) /\
  ((e0 <= 0.206)%R ->
   exists E : R,
     solveKeplerEquation 30 (Fin M0) (Fin e0) default_tolerance
     = Some (Fin E) /\
     (Rabs (E - M0) <= e0 + 2e-8)%R /\ (Rabs E <= 1e6 + 1)%R).
Proof.
  intros HM He. assert (He1 : (0 <= e0 < 1)%R) by lra.
  assert (Hnear : forall (n : nat) (E : R),
             solveKeplerEquation n (Fin M0) (Fin e0) default_tolerance
             = Some (Fin E) ->
             (Rabs (E - M0) <= e0 + 2e-8)%R /\ (Rabs E <= 1e6 + 1)%R).
  { intros n E Hrun.
    pose proof (solveKeplerEquation_near_anomaly n M0 e0 E He1 Hrun) as Hd.
    split; [exact Hd |].
    apply Rabs_le. apply Rabs_le_between in Hd. apply Rabs_le_between in HM.
    split; lra. }
  split.
  - destruct (solveKeplerEquation_returns M0 e0 He) as (n & E & Hrun).
    exists n, E. split; [exact Hrun | exact (Hnear n E Hrun)].
  - intros He2.
    destruct (solveKeplerEquation_thirty M0 e0 (conj (proj1 He) He2))
      as (E & Hrun).
    exists E. split; [exact Hrun | exact (Hnear 30%nat E Hrun)].
Qed.

Lemma solveKeplerEquation_terminates_witness :
  (Rabs 2 <= 1e6)%R /\ (0 <= 0.206 < 1 / 3)%R /\ (0.206 <= 0.206)%R /\
  (exists (n : nat) (E : R),
     solveKeplerEquation n (Fin 2) (Fin 0.206) default_tolerance
     = Some (Fin E) /\
     (Rabs (E - 2) <= 0.206 + 2e-8)%R /\ (Rabs E <= 1e6 + 1)%R) /\
  exists E : R,
    solveKeplerEquation 30 (Fin 2) (Fin 0.206) default_tolerance
    = Some (Fin E) /\
    (Rabs (E - 2) <= 0.206 + 2e-8)%R /\ (Rabs E <= 1e6 + 1)%R.
Proof.
  assert (HM : (Rabs 2 <= 1e6)%R) by (rewrite Rabs_pos_eq; lra).
  assert (He : (0 <= 0.206 < 1 / 3)%R) by lra.
  assert (He2 : (0.206 <= 0.206)%R) by lra.
  split; [exact HM |]. split; [exact He |]. split; [exact He2 |]. split.
  - exact (proj1 (solveKeplerEquation_terminates 2 0.206 HM He)).
  - exact (proj2 (solveKeplerEquation_terminates 2 0.206 HM He) He2).
Defined.

(** ** The state-vector pipeline on elliptical orbits *)

Lemma solveKeplerEquation_more_fuel (n m : nat) (M e tol r : number) :
  (n <= m)%nat ->
  solveKeplerEquation n M e tol = Some r ->
  solveKeplerEquation m M e tol = Some r.
Proof.
  unfold solveKeplerEquation. rewrite !kepler_while_newton.
  apply newton_while_more_fuel.
Qed.

Lemma solveHyperbolicKepler_more_fuel (n m : nat) (M e tol r : number) :
  (n <= m)%nat ->
  solveHyperbolicKepler n M e tol = Some r ->
  solveHyperbolicKepler m M e tol = Some r.
Proof.
  unfold solveHyperbolicKepler. rewrite !hyperbolic_while_newton.
  apply newton_while_more_fuel.
Qed.

Lemma calculatePositionAtTime_more_fuel (n m : nat)
  (elements : OrbitalElements) (time : number) (st : StateVector) :
  (n <= m)%nat ->
  calculatePositionAtTime n elements time = Some st ->
  calculatePositionAtTime m elements time = Some st.
Proof.
  intros Hnm. unfold calculatePositionAtTime.
  destruct (lt (e elements) (Fin 1)).
  - destruct (solveKeplerEquation n _ _ _) as [E |] eqn:Hn; [| discriminate].
    now rewrite (solveKeplerEquation_more_fuel n m _ _ _ _ Hnm Hn).
  - destruct (solveHyperbolicKepler n _ _ _) as [H |] eqn:Hn; [| discriminate].
    now rewrite (solveHyperbolicKepler_more_fuel n m _ _ _ _ Hnm Hn).
Qed.

Lemma calculateTrueAnomaly_finite (E e0 : R) :
  (-1 <= e0 <= 1)%R ->
  exists nu : R, calculateTrueAnomaly (Fin E) (Fin e0) = Fin nu.
Proof.
  intros He. unfold calculateTrueAnomaly.
  rewrite div_Fin by lra. cbn [add sub neg Math_sin Math_cos].
  rewrite !sqrt_Fin by lra. cbn [mul Math_atan2].
  repeat match goal with
         | |- context [if ?c then _ else _] => destruct c
         | |- context [match sign ?x with _ => _ end] => destruct (sign x)
         end; eexists; reflexivity.
Qed.

Lemma ecliptic_state_position (elements : OrbitalElements) (nu : number) :
  sv_position (ecliptic_state elements nu)
  = vec3_map (fun c => c / Constants.AU)
      (transformToEcliptic (fst (plane_position (orbitalStateVectors elements nu)))
         (snd (plane_position (orbitalStateVectors elements nu)))
         (Fin 0) elements).
Proof. reflexivity. Qed.

Lemma ecliptic_state_norm (elements : OrbitalElements)
  (a0 e0 i0 w0 O0 nu : R) :
  a elements = Fin a0 -> e elements = Fin e0 -> i elements = Fin i0 ->
  omega elements = Fin w0 -> Omega elements = Fin O0 ->
  (0 <= e0 < 1)%R ->
  euclidean_norm (sv_position (ecliptic_state elements (Fin nu)))
  = Fin (conic_radius a0 e0 nu / 149597870.7).
Proof.
  intros Ha He Hi Hw HO Hecc. rewrite ecliptic_state_position.
  rewrite (orbitalStateVectors_position elements a0 e0 nu Ha He Hecc).
  cbn [fst snd].
  destruct (transformToEcliptic_Fin (conic_radius a0 e0 nu * cos nu)
              (conic_radius a0 e0 nu * sin nu) (Fin 0) elements i0 w0 O0
              Hi Hw HO) as [X [Y [Z [-> Hsq]]]].
  unfold vec3_map, Constants.AU. rewrite !div_Fin by lra.
  unfold euclidean_norm. cbn [mul add].
  rewrite sqrt_Fin by apply sum_squares_nonneg. f_equal.
  pose proof (conic_radius_bounds a0 e0 nu Hecc) as Hb.
  pose proof (Rabs_pos a0) as Hpos.
  assert (Hr : (0 <= conic_radius a0 e0 nu)%R) by nra.
  replace (X / 149597870.7 * (X / 149597870.7)
           + Y / 149597870.7 * (Y / 149597870.7)
           + Z / 149597870.7 * (Z / 149597870.7))%R
    with ((X * X + Y * Y + Z * Z) / (149597870.7 * 149597870.7))%R
    by (field; lra).
  rewrite Hsq.
  replace (conic_radius a0 e0 nu * cos nu * (conic_radius a0 e0 nu * cos nu)
           + conic_radius a0 e0 nu * sin nu * (conic_radius a0 e0 nu * sin nu))%R
    with ((sin nu * sin nu + cos nu * cos nu)
          * (conic_radius a0 e0 nu * conic_radius a0 e0 nu))%R by ring.
  rewrite sin2_cos2_mul, Rmult_1_l.
  rewrite sqrt_div by nra.
  rewrite !sqrt_square by lra. reflexivity.
Qed.

Lemma elliptical_mean_anomaly_finite (a0 t t0 : R) :
  a0 <> 0%R ->
  exists M0 : R,
    meanMotion (Math_abs (Fin a0)) Constants.SOLAR_MASS
    * ((Fin t - Fin t0) * Constants.DAY_SECONDS) = Fin M0.
Proof.
  intros Ha. cbn [Math_abs].
  destruct (meanMotion_finite (Rabs a0)) as [n ->]; [now apply Rabs_pos_lt |].
  eexists. reflexivity.
Qed.

Lemma calculatePositionAtTime_elliptical_returns (elements : OrbitalElements)
  (a0 e0 i0 w0 O0 t0 t : R) :
  a elements = Fin a0 -> e elements = Fin e0 -> i elements = Fin i0 ->
  omega elements = Fin w0 -> Omega elements = Fin O0 ->
  epoch elements = Fin t0 ->
  a0 <> 0%R -> (0 <= e0 <= 0.206)%R ->
  exists (st : StateVector) (m : R),
    calculatePositionAtTime 30 elements (Fin t) = Some st /\
    euclidean_norm (sv_position st) = Fin m /\
    (Rabs a0 * (1 - e0) / 149597870.7 <= m
     <= Rabs a0 * (1 + e0) / 149597870.7)%R.
Proof.
  intros Ha He Hi Hw HO Hepoch Ha0 Hecc.
  assert (Hecc1 : (0 <= e0 < 1)%R) by lra.
  unfold calculatePositionAtTime. rewrite Ha, He, Hepoch.
  assert (Hlt : lt (Fin e0) (Fin 1) = true) by (apply gt_Fin; lra).
  rewrite Hlt.
  destruct (elliptical_mean_anomaly_finite a0 t t0 Ha0) as [M0 ->].
  destruct (solveKeplerEquation_thirty M0 e0 Hecc) as [E ->].
  destruct (calculateTrueAnomaly_finite E e0 ltac:(lra)) as [nu ->].
  do 2 eexists. split; [reflexivity |].
  rewrite (ecliptic_state_norm elements a0 e0 i0 w0 O0 nu Ha He Hi Hw HO Hecc1).
  split; [reflexivity |].
  pose proof (conic_radius_bounds a0 e0 nu Hecc1) as [Hlo Hhi].
  unfold Rdiv. split; apply Rmult_le_compat_r; lra.
Qed.

Lemma sqrt_le_bound (x c : R) : (0 <= c)%R -> (x <= c * c)%R -> (sqrt x <= c)%R.
Proof.
  intros Hc Hx. rewrite <- (sqrt_square c Hc). now apply sqrt_le_1_alt.
Qed.

Lemma cube_le (X Y : R) : (0 <= X <= Y)%R -> (X ^ 3 <= Y ^ 3)%R.
Proof. intros H. apply pow_incr. exact H. Qed.

(** A mean motion [sqrt (gm / (x * AU * 1000) ^ 3)] is at most [c] as soon
    as it is so at a smaller semi-major axis [lo]. *)
Lemma mean_motion_bounded (gm x lo c : R) :
  (0 <= gm)%R -> (0 < lo <= x)%R -> (0 <= c)%R ->
  (gm / (lo * 149597870.7 * 1000) ^ 3 <= c * c)%R ->
  (0 <= sqrt (gm / (x * 149597870.7 * 1000) ^ 3) <= c)%R.
Proof.
  intros Hgm [Hlo Hx] Hc Hb. split; [apply sqrt_pos |].
  apply sqrt_le_bound; [exact Hc |].
  eapply Rle_trans; [| exact Hb].
  assert (Hl3 : (0 < (lo * 149597870.7 * 1000) ^ 3)%R) by (apply pow_lt; nra).
  assert (Hx3 : ((lo * 149597870.7 * 1000) ^ 3
                 <= (x * 149597870.7 * 1000) ^ 3)%R)
    by (apply cube_le; split; nra).
  unfold Rdiv. apply Rmult_le_compat_l; [exact Hgm |].
  apply Rinv_le_contravar; assumption.
Qed.

(** [|n * (d * 86400)| <= bound] for a mean motion [0 <= n <= c] and a
    number of days [|d| <= D]. *)
Lemma mean_anomaly_bounded (n d c D bound : R) :
  (0 <= n <= c)%R -> (Rabs d <= D)%R -> (c * (D * 86400) <= bound)%R ->
  (Rabs (n * (d * 86400)) <= bound)%R.
Proof.
  intros [Hn Hc] Hd Hb.
  rewrite !Rabs_mult, (Rabs_pos_eq n Hn), (Rabs_pos_eq 86400) by lra.
  pose proof (Rabs_pos d) as Hd0.
  eapply Rle_trans; [| exact Hb].
  apply Rmult_le_compat; [exact Hn | nra | exact Hc | nra].
Qed.

Lemma elliptical_mean_anomaly_bounded (elements : OrbitalElements)
  (a0 e0 t0 t lo c D bound : R) :
  a elements = Fin a0 -> e elements = Fin e0 -> epoch elements = Fin t0 ->
  (e0 < 1)%R -> (0 < lo <= Rabs a0)%R -> (0 <= c)%R ->
  (6.67430e-11 * 1.989e30 / (lo * 149597870.7 * 1000) ^ 3 <= c * c)%R ->
  (Rabs (t - t0) <= D)%R -> (c * (D * 86400) <= bound)%R ->
  exists M0 : R,
    mean_anomaly elements (Fin t) = Fin M0 /\ (Rabs M0 <= bound)%R.
Proof.
  intros Ha He Hepoch Hecc Hlo Hc Hb Hd Hbound.
  unfold mean_anomaly. rewrite Ha, He, Hepoch.
  assert (Hlt : lt (Fin e0) (Fin 1) = true) by (apply gt_Fin; lra).
  rewrite Hlt.
  unfold meanMotion, Constants.SOLAR_MASS, Constants.G, Constants.AU,
    Constants.DAY_SECONDS.
  cbn [Math_abs mul Math_pow sub neg add].
  assert (Hc3 : (0 < (Rabs a0 * 149597870.7 * 1000) ^ 3)%R)
    by (apply pow_lt; nra).
  rewrite div_Fin by lra.
  rewrite sqrt_Fin
    by (apply Rlt_le, Rdiv_lt_0_compat; [lra | exact Hc3]).
  cbn [mul]. eexists. split; [reflexivity |].
  apply (mean_anomaly_bounded _ _ c D); [| exact Hd | exact Hbound].
  apply (mean_motion_bounded _ (Rabs a0) lo c); [lra | exact Hlo | exact Hc |].
  exact Hb.
Qed.

Lemma hyperbolic_mean_anomaly_bounded (elements : OrbitalElements)
  (a0 e0 t0 t lo c D bound : R) :
  a elements = Fin a0 -> e elements = Fin e0 -> epoch elements = Fin t0 ->
  (1 <= e0)%R -> (0 < lo <= Rabs a0)%R -> (0 <= c)%R ->
  (1.327e20 / (lo * 149597870.7 * 1000) ^ 3 <= c * c)%R ->
  (Rabs (t - t0) <= D)%R -> (c * (D * 86400) <= bound)%R ->
  exists M0 : R,
    mean_anomaly elements (Fin t) = Fin M0 /\ (Rabs M0 <= bound)%R.
Proof.
  intros Ha He Hepoch Hecc [Hlo Hlo'] Hc Hb Hd Hbound.
  unfold mean_anomaly. rewrite Ha, He, Hepoch.
  assert (Hlt : lt (Fin e0) (Fin 1) = false) by (apply Rltb_false; lra).
  rewrite Hlt.
  unfold Constants.GM_SUN, Constants.AU, Constants.DAY_SECONDS.
  cbn [Math_abs mul Math_pow sub neg add].
  assert (Hc3 : (0 < (Rabs a0 * 149597870.7 * 1000) ^ 3)%R)
    by (apply pow_lt; nra).
  rewrite div_Fin by lra.
  rewrite sqrt_Fin by (apply Rlt_le, Rdiv_lt_0_compat; [lra | exact Hc3]).
  cbn [mul]. eexists. split; [reflexivity |].
  apply (mean_anomaly_bounded _ _ c D); [| exact Hd | exact Hbound].
  apply (mean_motion_bounded _ (Rabs a0) lo c); [lra | | exact Hc | exact Hb].
  split; assumption.
Qed.

(** X10: For elements with finite fields, a semi-major axis [0.3 <= |a| <= 100]
    (AU) and an eccentricity [0 <= e <= 0.206] (every registered planet),
    and for every time within [1e6] days of the epoch,
    [calculatePositionAtTime] returns within 30 solver iterations a position
    whose Euclidean magnitude lies between [|a| (1 - e) / 149597870.7] and
    [|a| (1 + e) / 149597870.7]: the periapsis and apoapsis distances in AU,
    each divided once more by the number of kilometres in an AU.  The mean
    anomaly handed to the solver is finite and at most [1e6] in absolute
    value, a range in which the iteration of the source (binary64) follows
    the exact one; for mean anomalies of [2 ^ 26] and more the loop of the
    source can cycle for ever. *)
Theorem calculatePositionAtTime_elliptical (elements : OrbitalElements)
  (a0 e0 i0 w0 O0 t0 t : R) :
  a elements = Fin a0 -> e elements = Fin e0 -> i elements = Fin i0 ->
  omega elements = Fin w0 -> Omega elements = Fin O0 ->
  epoch elements = Fin t0 ->
  (0.3 <= Rabs a0 <= 100)%R -> (0 <= e0 <= 0.206)%R ->
  (Rabs (t - t0) <= 1e6)%R ->
  exists (st : StateVector) (m M0 : R),
    calculatePositionAtTime 30 elements (Fin t) = Some st /\
    euclidean_norm (sv_position st) = Fin m /\
    (Rabs a0 * (1 - e0) / 149597870.7 <= m
     <= Rabs a0 * (1 + e0) / 149597870.7)%R /\
    mean_anomaly elements (Fin t) = Fin M0 /\ (Rabs M0 <= 1e6)%R.
Proof.
  intros Ha He Hi Hw HO Hepoch Ha0 Hecc Ht.
  assert (Hnz : a0 <> 0%R).
  { intros ->. rewrite Rabs_R0 in Ha0. lra. }
  destruct (calculatePositionAtTime_elliptical_returns elements
              a0 e0 i0 w0 O0 t0 t Ha He Hi Hw HO Hepoch Hnz Hecc)
    as (st & m & Hrun & Hnorm & Hm).
  assert (Hn : (6.67430e-11 * 1.989e30 / (0.3 * 149597870.7 * 1000) ^ 3
                <= 1.22e-6 * 1.22e-6)%R).
  { apply quotient_le; [apply pow_lt; lra | lra]. }
  destruct (elliptical_mean_anomaly_bounded elements a0 e0 t0 t 0.3 1.22e-6
              1e6 1e6 Ha He Hepoch ltac:(lra) ltac:(lra) ltac:(lra) Hn Ht
              ltac:(lra))
    as (M0 & HM & HM').
  exists st, m, M0. now repeat split.
Qed.

Lemma calculatePositionAtTime_elliptical_witness :
  a (planetary_elements "Mars") = Fin 1.524 /\
  e (planetary_elements "Mars") = Fin 0.093 /\
  epoch (planetary_elements "Mars") = Fin 2451545.0 /\
  (0.3 <= Rabs 1.524 <= 100)%R /\ (0 <= 0.093 <= 0.206)%R /\
  (Rabs (2460000 - 2451545.0) <= 1e6)%R /\
  exists (st : StateVector) (m M0 : R),
    calculatePositionAtTime 30 (planetary_elements "Mars") (Fin 2460000)
    = Some st /\
    euclidean_norm (sv_position st) = Fin m /\
    (Rabs 1.524 * (1 - 0.093) / 149597870.7 <= m
     <= Rabs 1.524 * (1 + 0.093) / 149597870.7)%R /\
    mean_anomaly (planetary_elements "Mars") (Fin 2460000) = Fin M0 /\
    (Rabs M0 <= 1e6)%R.
Proof.
  assert (Ha : (0.3 <= Rabs 1.524 <= 100)%R)
    by (rewrite Rabs_pos_eq; lra).
  assert (He : (0 <= 0.093 <= 0.206)%R) by lra.
  assert (Ht : (Rabs (2460000 - 2451545.0) <= 1e6)%R)
    by (rewrite Rabs_pos_eq; lra).
  split; [reflexivity |]. split; [reflexivity |]. split; [reflexivity |].
  split; [exact Ha |]. split; [exact He |]. split; [exact Ht |].
  exact (calculatePositionAtTime_elliptical (planetary_elements "Mars")
           1.524 0.093 1.9 286.5 49.6 2451545.0 2460000
           eq_refl eq_refl eq_refl eq_refl eq_refl eq_refl Ha He Ht).
Defined.

(** ** The state-vector pipeline on hyperbolic orbits *)

Lemma tanh_bounds (x : R) : (-1 < tanh x < 1)%R.
Proof.
  unfold tanh. pose proof (cosh_ge_1 x) as Hc.
  assert (Hlo : (- cosh x < sinh x)%R).
  { unfold sinh, cosh. pose proof (exp_pos x). lra. }
  assert (Hhi : (sinh x < cosh x)%R).
  { unfold sinh, cosh. pose proof (exp_pos (- x)). lra. }
  split.
  - apply quotient_gt; lra.
  - apply (Rmult_lt_reg_r (cosh x)); [lra |].
    replace (sinh x / cosh x * cosh x)%R with (sinh x) by (field; lra). lra.
Qed.

Lemma cos_double_atan (z : R) :
  cos (2 * atan z) = ((1 - z * z) / (1 + z * z))%R.
Proof.
  rewrite cos_2a_cos, cos_atan.
  assert (Hpos : (0 < 1 + z * z)%R) by nra.
  assert (Hs : (0 < sqrt (1 + z²))%R)
    by (apply sqrt_lt_R0; unfold Rsqr; lra).
  assert (Hsq : (sqrt (1 + z²) * sqrt (1 + z²) = 1 + z * z)%R)
    by (rewrite sqrt_sqrt; unfold Rsqr; lra).
  replace (2 * (1 / sqrt (1 + z²)) * (1 / sqrt (1 + z²)) - 1)%R
    with (2 / (sqrt (1 + z²) * sqrt (1 + z²)) - 1)%R by (field; lra).
  rewrite Hsq. field. lra.
Qed.

Lemma calculateTrueAnomalyHyperbolic_Fin (H e0 : R) :
  (1 < e0)%R ->
  calculateTrueAnomalyHyperbolic (Fin H) (Fin e0)
  = Fin (2 * atan (sqrt ((e0 + 1) / (e0 - 1)) * tanh (H / 2))).
Proof.
  intros He. unfold calculateTrueAnomalyHyperbolic.
  cbn [add sub neg]. rewrite (div_Fin (e0 + 1)) by lra.
  rewrite sqrt_Fin by (apply Rlt_le, Rdiv_lt_0_compat; lra).
  rewrite div_Fin by lra. reflexivity.
Qed.

(** On a hyperbola the denominator [1 + e cos nu] stays positive for the
    true anomaly the conversion returns, and is at most [1 + e]. *)
Lemma hyperbolic_denominator_pos (H e0 : R) :
  (1 < e0)%R ->
  (0 < 1 + e0 * cos (2 * atan (sqrt ((e0 + 1) / (e0 - 1)) * tanh (H / 2)))
   <= 1 + e0)%R.
Proof.
  intros He. split.
  - rewrite cos_double_atan.
    pose proof (tanh_bounds (H / 2)) as Ht.
    assert (Hk : (0 <= (e0 + 1) / (e0 - 1))%R)
      by (apply Rlt_le, Rdiv_lt_0_compat; lra).
    pose proof (sqrt_sqrt _ Hk) as Hkk.
    revert Hkk Ht. generalize (sqrt ((e0 + 1) / (e0 - 1))), (tanh (H / 2)).
    intros k t Hkk Ht.
    assert (Hzz : (k * t * (k * t) = (e0 + 1) / (e0 - 1) * (t * t))%R)
      by (rewrite <- Hkk; ring).
    rewrite Hzz.
    assert (Ht2 : (0 <= t * t < 1)%R) by nra.
    assert (Hden : (0 < 1 + (e0 + 1) / (e0 - 1) * (t * t))%R).
    { assert (0 <= (e0 + 1) / (e0 - 1) * (t * t))%R by (apply Rmult_le_pos; lra).
      lra. }
    replace (1 + e0 * ((1 - (e0 + 1) / (e0 - 1) * (t * t))
                       / (1 + (e0 + 1) / (e0 - 1) * (t * t))))%R
      with ((1 + e0) * (1 - t * t) / (1 + (e0 + 1) / (e0 - 1) * (t * t)))%R
      by (field; split; nra).
    apply Rdiv_lt_0_compat; [nra | exact Hden].
  - pose proof (COS_bound (2 * atan (sqrt ((e0 + 1) / (e0 - 1)) * tanh (H / 2))))
      as [_ Hhi]. nra.
Qed.

Lemma exp_ten : (exp 10 <= 3 ^ 10)%R.
Proof.
  pose proof exp_le_3 as H1. pose proof (exp_pos 1) as H0.
  assert (H2 : exp 2 = (exp 1 * exp 1)%R)
    by (rewrite <- exp_plus; f_equal; lra).
  assert (H4 : exp 4 = (exp 2 * exp 2)%R)
    by (rewrite <- exp_plus; f_equal; lra).
  assert (H8 : exp 8 = (exp 4 * exp 4)%R)
    by (rewrite <- exp_plus; f_equal; lra).
  assert (H10 : exp 10 = (exp 8 * exp 2)%R)
    by (rewrite <- exp_plus; f_equal; lra).
  assert (B2 : (0 < exp 2 <= 9)%R) by (rewrite H2; split; nra).
  assert (B4 : (0 < exp 4 <= 81)%R) by (rewrite H4; split; nra).
  assert (B8 : (0 < exp 8 <= 6561)%R) by (rewrite H8; split; nra).
  rewrite H10. apply Rle_trans with (6561 * 9)%R; [nra | lra].
Qed.

(** [tanh] stays away from 1 and -1 on [[-10, 10]]:
    [1 - tanh(x)^2 = 1 / cosh(x)^2 >= 1 / 3^20]. *)
Lemma tanh_gap (x : R) :
  (Rabs x <= 10)%R ->
  (/ (3 ^ 10 * 3 ^ 10) <= 1 - tanh x * tanh x)%R.
Proof.
  intros Hx. apply Rabs_le_between in Hx.
  pose proof (cosh_ge_1 x) as Hc.
  assert (Hcosh : (cosh x <= 3 ^ 10)%R).
  { apply Rle_trans with (exp 10); [| exact exp_ten].
    unfold cosh.
    assert (H1 : (exp x <= exp 10)%R).
    { destruct (Req_dec x 10) as [-> | Hne]; [lra |].
      apply Rlt_le, exp_increasing. lra. }
    assert (H2 : (exp (- x) <= exp 10)%R).
    { destruct (Req_dec (- x) 10) as [-> | Hne]; [lra |].
      apply Rlt_le, exp_increasing. lra. }
    lra. }
  assert (Hid : (1 - tanh x * tanh x = / (cosh x * cosh x))%R).
  { unfold tanh.
    assert (Hcs : (cosh x * cosh x - sinh x * sinh x = 1)%R).
    { unfold cosh, sinh.
      replace ((exp x + exp (- x)) / 2 * ((exp x + exp (- x)) / 2)
               - (exp x - exp (- x)) / 2 * ((exp x - exp (- x)) / 2))%R
        with (exp x * exp (- x))%R by field.
      rewrite <- exp_plus. replace (x + - x)%R with 0%R by ring.
      apply exp_0. }
    replace (1 - sinh x / cosh x * (sinh x / cosh x))%R
      with ((cosh x * cosh x - sinh x * sinh x) / (cosh x * cosh x))%R
      by (field; lra).
    rewrite Hcs. unfold Rdiv. ring. }
  rewrite Hid. apply Rinv_le_contravar; [nra |].
  apply Rmult_le_compat; lra.
Qed.

(** For [e >= 1.1] and [|H| <= 20] the denominator [1 + e cos nu] of the
    conic equation is not only positive but at least [(1 + e) * 1e-11]. *)
Lemma hyperbolic_denominator_margin (H e0 : R) :
  (1.1 <= e0)%R -> (Rabs H <= 20)%R ->
  ((1 + e0) * 1e-11
   <= 1 + e0 * cos (2 * atan (sqrt ((e0 + 1) / (e0 - 1)) * tanh (H / 2))))%R.
Proof.
  intros He HH. rewrite cos_double_atan.
  assert (Hx : (Rabs (H / 2) <= 10)%R).
  { apply Rabs_le_between in HH. apply Rabs_le. lra. }
  pose proof (tanh_gap (H / 2) Hx) as Hgap.
  assert (Hk : (0 <= (e0 + 1) / (e0 - 1) <= 21)%R).
  { split; [apply Rlt_le, Rdiv_lt_0_compat; lra |].
    apply quotient_le; lra. }
  pose proof (sqrt_sqrt _ (proj1 Hk)) as Hkk.
  revert Hkk Hgap. generalize (sqrt ((e0 + 1) / (e0 - 1))), (tanh (H / 2)).
  intros k t Hkk Hgap.
  assert (Hzz : (k * t * (k * t) = (e0 + 1) / (e0 - 1) * (t * t))%R)
    by (rewrite <- Hkk; ring).
  rewrite Hzz.
  assert (H320 : (/ (3 ^ 10 * 3 ^ 10) >= 2.8e-10)%R).
  { apply Rle_ge.
    apply (Rmult_le_reg_r (3 ^ 10 * 3 ^ 10)); [lra |].
    rewrite Rinv_l by lra. lra. }
  assert (Ht2 : (0 <= t * t <= 1 - 2.8e-10)%R) by nra.
  assert (Hprod : (0 <= (e0 + 1) / (e0 - 1) * (t * t) <= 21)%R).
  { split; [apply Rmult_le_pos; lra |].
    replace 21%R with (21 * 1)%R by ring.
    apply Rmult_le_compat; lra. }
  replace (1 + e0 * ((1 - (e0 + 1) / (e0 - 1) * (t * t))
                     / (1 + (e0 + 1) / (e0 - 1) * (t * t))))%R
    with ((1 + e0) * ((1 - t * t) / (1 + (e0 + 1) / (e0 - 1) * (t * t))))%R
    by (field; split; nra).
  apply Rmult_le_compat_l; [lra |].
  apply quotient_ge; [lra |].
  apply Rle_trans with (1e-11 * 22)%R; [| lra].
  apply Rmult_le_compat_l; lra.
Qed.

(** X11: For [e >= 1.1] and a hyperbolic anomaly [|H| <= 20],
    [calculateTrueAnomalyHyperbolic] returns a finite [nu] strictly between
    [-PI] and [PI] with [tan(nu / 2) = sqrt((e + 1) / (e - 1)) tanh(H / 2)],
    and [nu] lies between the asymptotes of the hyperbola with a margin:
    [1 + e cos nu >= (1 + e) * 1e-11], so that the radius
    [orbitalStateVectors] computes from it does not divide by zero.  The
    range matters: [Math.tanh] returns exactly 1 from about [H = 38] on,
    where the [nu] of the source reaches the asymptote and beyond. *)
Theorem calculateTrueAnomalyHyperbolic_within_asymptotes (H e0 : R) :
  (1.1 <= e0)%R -> (Rabs H <= 20)%R ->
  exists nu : R,
    calculateTrueAnomalyHyperbolic (Fin H) (Fin e0) = Fin nu /\
    (- PI < nu < PI)%R /\
    tan (nu / 2) = (sqrt ((e0 + 1) / (e0 - 1)) * tanh (H / 2))%R /\
    ((1 + e0) * 1e-11 <= 1 + e0 * cos nu)%R.
Proof.
  intros He HH. rewrite calculateTrueAnomalyHyperbolic_Fin by lra.
  eexists. split; [reflexivity |].
  pose proof (atan_bound (sqrt ((e0 + 1) / (e0 - 1)) * tanh (H / 2)))
    as Hb.
  split; [lra |]. split.
  - replace (2 * atan (sqrt ((e0 + 1) / (e0 - 1)) * tanh (H / 2)) / 2)%R
      with (atan (sqrt ((e0 + 1) / (e0 - 1)) * tanh (H / 2))) by lra.
    apply tan_atan.
  - now apply hyperbolic_denominator_margin.
Qed.

Lemma calculateTrueAnomalyHyperbolic_within_asymptotes_witness :
  (1.1 <= 6.141)%R /\ (Rabs 3 <= 20)%R /\
  exists nu : R,
    calculateTrueAnomalyHyperbolic (Fin 3) (Fin 6.141) = Fin nu /\
    (- PI < nu < PI)%R /\
    tan (nu / 2) = (sqrt ((6.141 + 1) / (6.141 - 1)) * tanh (3 / 2))%R /\
    ((1 + 6.141) * 1e-11 <= 1 + 6.141 * cos nu)%R.
Proof.
  assert (He : (1.1 <= 6.141)%R) by lra.
  assert (HH : (Rabs 3 <= 20)%R) by (rewrite Rabs_pos_eq; lra).
  split; [exact He |]. split; [exact HH |].
  exact (calculateTrueAnomalyHyperbolic_within_asymptotes 3 6.141 He HH).
Defined.

Lemma orbitalStateVectors_position_general (elements : OrbitalElements)
  (a0 e0 nu : R) :
  a elements = Fin a0 -> e elements = Fin e0 ->
  (1 + e0 * cos nu <> 0)%R ->
  plane_position (orbitalStateVectors elements (Fin nu))
  = (Fin (conic_radius a0 e0 nu * cos nu), Fin (conic_radius a0 e0 nu * sin nu)).
Proof.
  intros Ha He Hden. unfold orbitalStateVectors. rewrite Ha, He.
  cbn [Math_cos Math_sin Math_abs mul add sub neg plane_position].
  rewrite (div_Fin (Rabs a0 * (1 + - (e0 * e0))) (1 + e0 * cos nu)) by lra.
  reflexivity.
Qed.

Lemma ecliptic_state_norm_general (elements : OrbitalElements)
  (a0 e0 i0 w0 O0 nu : R) :
  a elements = Fin a0 -> e elements = Fin e0 -> i elements = Fin i0 ->
  omega elements = Fin w0 -> Omega elements = Fin O0 ->
  (1 + e0 * cos nu <> 0)%R ->
  finite3 (sv_position (ecliptic_state elements (Fin nu))) /\
  euclidean_norm (sv_position (ecliptic_state elements (Fin nu)))
  = Fin (Rabs (conic_radius a0 e0 nu) / 149597870.7).
Proof.
  intros Ha He Hi Hw HO Hden. rewrite ecliptic_state_position.
  rewrite (orbitalStateVectors_position_general elements a0 e0 nu Ha He Hden).
  cbn [fst snd].
  destruct (transformToEcliptic_Fin (conic_radius a0 e0 nu * cos nu)
              (conic_radius a0 e0 nu * sin nu) (Fin 0) elements i0 w0 O0
              Hi Hw HO) as [X [Y [Z [-> Hsq]]]].
  unfold vec3_map, Constants.AU. rewrite !div_Fin by lra.
  split; [do 3 eexists; reflexivity |].
  unfold euclidean_norm. cbn [mul add].
  rewrite sqrt_Fin by apply sum_squares_nonneg. f_equal.
  replace (X / 149597870.7 * (X / 149597870.7)
           + Y / 149597870.7 * (Y / 149597870.7)
           + Z / 149597870.7 * (Z / 149597870.7))%R
    with ((X * X + Y * Y + Z * Z) / (149597870.7 * 149597870.7))%R
    by (field; lra).
  rewrite Hsq.
  replace (conic_radius a0 e0 nu * cos nu * (conic_radius a0 e0 nu * cos nu)
           + conic_radius a0 e0 nu * sin nu * (conic_radius a0 e0 nu * sin nu))%R
    with ((sin nu * sin nu + cos nu * cos nu)
          * (conic_radius a0 e0 nu)²)%R by (unfold Rsqr; ring).
  rewrite sin2_cos2_mul, Rmult_1_l.
  rewrite sqrt_div by (try apply Rle_0_sqr; nra).
  rewrite sqrt_Rsqr_abs, sqrt_square by lra. reflexivity.
Qed.

Lemma hyperbolic_mean_anomaly_finite (a0 t t0 : R) :
  a0 <> 0%R ->
  exists M0 : R,
    Math_sqrt (Constants.GM_SUN
               / Math_pow (Math_abs (Fin a0) * Constants.AU * Fin 1000) 3)
    * ((Fin t - Fin t0) * Constants.DAY_SECONDS) = Fin M0.
Proof.
  intros Ha. pose proof (Rabs_pos_lt a0 Ha) as Hpos.
  unfold Constants.GM_SUN, Constants.AU, Constants.DAY_SECONDS.
  cbn [Math_abs mul Math_pow].
  assert (Hc : (0 < (Rabs a0 * 149597870.7 * 1000) ^ 3)%R)
    by (apply pow_lt; nra).
  rewrite div_Fin by lra.
  rewrite sqrt_Fin by (apply Rlt_le, Rdiv_lt_0_compat; [lra | exact Hc]).
  eexists. reflexivity.
Qed.

Lemma hyperbolic_radius_bound (a0 e0 den : R) :
  (1 < e0)%R -> (0 < den <= 1 + e0)%R ->
  (Rabs a0 * (e0 - 1) <= Rabs (Rabs a0 * (1 - e0 * e0) / den))%R.
Proof.
  intros He Hden. pose proof (Rabs_pos a0) as Ha.
  replace (Rabs a0 * (1 - e0 * e0) / den)%R
    with (- (Rabs a0 * (e0 * e0 - 1) / den))%R by (field; lra).
  rewrite Rabs_Ropp, (Rabs_pos_eq (Rabs a0 * (e0 * e0 - 1) / den)).
  - apply quotient_ge; [lra |].
    rewrite Rmult_assoc. apply Rmult_le_compat_l; [exact Ha | nra].
  - apply Rmult_le_pos; [| apply Rlt_le, Rinv_0_lt_compat; lra].
    apply Rmult_le_pos; [exact Ha | nra].
Qed.

Lemma calculatePositionAtTime_hyperbolic_returns
  (elements : OrbitalElements) (a0 e0 i0 w0 O0 t0 t : R) :
  a elements = Fin a0 -> e elements = Fin e0 -> i elements = Fin i0 ->
  omega elements = Fin w0 -> Omega elements = Fin O0 ->
  epoch elements = Fin t0 ->
  a0 <> 0%R -> (1 < e0)%R ->
  exists (fuel : nat) (st : StateVector) (m : R),
    calculatePositionAtTime fuel elements (Fin t) = Some st /\
    finite3 (sv_position st) /\
    euclidean_norm (sv_position st) = Fin m /\
    (Rabs a0 * (e0 - 1) / 149597870.7 <= m)%R.
Proof.
  intros Ha He Hi Hw HO Hepoch Ha0 Hecc.
  unfold calculatePositionAtTime. rewrite Ha, He, Hepoch.
  assert (Hlt : lt (Fin e0) (Fin 1) = false) by (apply Rltb_false; lra).
  rewrite Hlt.
  destruct (hyperbolic_mean_anomaly_finite a0 t t0 Ha0) as [M0 ->].
  destruct (solveHyperbolicKepler_terminates M0 e0 Hecc) as [fuel [H Hrun]].
  exists fuel. rewrite Hrun.
  rewrite calculateTrueAnomalyHyperbolic_Fin by assumption.
  pose proof (hyperbolic_denominator_pos H e0 Hecc) as Hden.
  set (nu := (2 * atan (sqrt ((e0 + 1) / (e0 - 1)) * tanh (H / 2)))%R) in *.
  destruct (ecliptic_state_norm_general elements a0 e0 i0 w0 O0 nu
              Ha He Hi Hw HO ltac:(lra)) as [Hfin Hnorm].
  do 2 eexists. split; [reflexivity |]. split; [exact Hfin |].
  split; [exact Hnorm |].
  unfold Rdiv at 1 2. apply Rmult_le_compat_r; [lra |].
  unfold conic_radius. now apply hyperbolic_radius_bound.
Qed.



(** ** The position service *)

Lemma calculatePositionAtTime_planet (fuel : nat) (name : string)
  (elements : OrbitalElements) (t : R) :
  (30 <= fuel)%nat ->
  In (name, elements) PLANETARY_ELEMENTS ->
  exists st : StateVector,
    calculatePositionAtTime fuel elements (Fin t) = Some st /\
    within_apsides elements (sv_position st).
Proof.
  intros Hfuel Hin.
  assert (Hret : exists a0 e0 i0 w0 O0 t0 : R,
             a elements = Fin a0 /\ e elements = Fin e0 /\
             i elements = Fin i0 /\ omega elements = Fin w0 /\
             Omega elements = Fin O0 /\ epoch elements = Fin t0 /\
             a0 <> 0%R /\ (0 <= e0 <= 0.206)%R).
  { unfold PLANETARY_ELEMENTS in Hin. cbn [In] in Hin.
    repeat (destruct Hin as [Hin | Hin];
            [injection Hin as _ <-; do 6 eexists;
             repeat (split; [reflexivity |]); split; lra |]).
    contradiction. }
  destruct Hret as (a0 & e0 & i0 & w0 & O0 & t0 & Ha & He & Hi & Hw & HO
                    & Hepoch & Ha0 & Hecc).
  destruct (calculatePositionAtTime_elliptical_returns elements
              a0 e0 i0 w0 O0 t0 t Ha He Hi Hw HO Hepoch Ha0 Hecc)
    as (st & m & Hrun & Hnorm & Hm).
  exists st. split.
  - exact (calculatePositionAtTime_more_fuel 30 fuel _ _ _ Hfuel Hrun).
  - exists a0, e0, m. now repeat split.
Qed.

Lemma julian_time_Fin (t : R) :
  Fin t / Fin 1000 / Constants.DAY_SECONDS + Fin 2440587.5
  = Fin (t / 1000 / 86400 + 2440587.5).
Proof.
  unfold Constants.DAY_SECONDS. rewrite !div_Fin by lra. reflexivity.
Qed.

Lemma getCurrentCelestialPositions_returns (t : R) :
  exists (fuel : nat) (positions : list (string * vec3)),
    getCurrentCelestialPositions fuel (Fin t) = Some positions /\
    map fst positions
    = ["3I/ATLAS"; "Mercury"; "Venus"; "Earth"; "Mars"; "Jupiter"]%string /\
    (exists (p : vec3) (m : R),
        own_property positions "3I/ATLAS" = Some p /\ finite3 p /\
        euclidean_norm p = Fin m /\
        (2.1 * 5.141 / 149597870.7 <= m)%R) /\
    (forall (name : string) (elements : OrbitalElements),
        In (name, elements) PLANETARY_ELEMENTS ->
        exists p : vec3,
          own_property positions name = Some p /\
          within_apsides elements p).
Proof.
  set (jt := (t / 1000 / 86400 + 2440587.5)%R).
  assert (Ha0 : (-2.1)%R <> 0%R) by lra.
  assert (Hecc : (1 < 6.141)%R) by lra.
  destruct (calculatePositionAtTime_hyperbolic_returns ATLAS_3I_ELEMENTS
              (-2.1) 6.141 175.1 310.4 87.2 2460146.5 jt
              eq_refl eq_refl eq_refl eq_refl eq_refl eq_refl Ha0 Hecc)
    as (fuel0 & atlas & m & Hatlas & Hfin & Hnorm & Hm).
  set (fuel := Nat.max fuel0 30).
  assert (Hfuel0 : (fuel0 <= fuel)%nat) by apply Nat.le_max_l.
  assert (Hfuel : (30 <= fuel)%nat) by apply Nat.le_max_r.
  pose proof (calculatePositionAtTime_more_fuel fuel0 fuel _ _ _ Hfuel0 Hatlas)
    as Hatlas'.
  assert (Hplanet : forall name elements,
             In (name, elements) PLANETARY_ELEMENTS ->
             exists st : StateVector,
               calculatePositionAtTime fuel elements (Fin jt) = Some st /\
               within_apsides elements (sv_position st))
    by (intros name elements; now apply calculatePositionAtTime_planet).
  exists fuel.
  unfold getCurrentCelestialPositions. rewrite julian_time_Fin. fold jt.
  rewrite Hatlas'. unfold PLANETARY_ELEMENTS in *.
  destruct (Hplanet _ _ (or_introl eq_refl)) as (s1 & H1 & W1).
  destruct (Hplanet _ _ (or_intror (or_introl eq_refl))) as (s2 & H2 & W2).
  destruct (Hplanet _ _ (or_intror (or_intror (or_introl eq_refl))))
    as (s3 & H3 & W3).
  destruct (Hplanet _ _
              (or_intror (or_intror (or_intror (or_introl eq_refl)))))
    as (s4 & H4 & W4).
  destruct (Hplanet _ _
              (or_intror (or_intror (or_intror (or_intror (or_introl eq_refl))))))
    as (s5 & H5 & W5).
  cbn [planetary_positions_for]. rewrite H1, H2, H3, H4, H5.
  eexists. split; [reflexivity |].
  split; [reflexivity |]. split.
  - exists (sv_position atlas), m. split; [reflexivity |].
    split; [exact Hfin |]. split; [exact Hnorm |].
    replace (Rabs (-2.1)) with 2.1%R in Hm
      by (rewrite Rabs_left by lra; lra).
    replace (6.141 - 1)%R with 5.141%R in Hm by lra. exact Hm.
  - intros name elements Hin. cbn [In] in Hin.
    destruct Hin as [Hin | [Hin | [Hin | [Hin | [Hin | []]]]]];
      injection Hin as <- <-; eexists; (split; [reflexivity | assumption]).
Qed.

(** Within the supported times the mean anomaly of 3I/ATLAS is at most 600
    in absolute value and that of every registered planet at most [1e4]. *)
Lemma supported_time_mean_anomalies (t : R) :
  supported_time t ->
  (exists M0 : R,
      mean_anomaly ATLAS_3I_ELEMENTS (julian_date (Fin t)) = Fin M0 /\
      (Rabs M0 <= 600)%R) /\
  (forall (name : string) (elements : OrbitalElements),
      In (name, elements) PLANETARY_ELEMENTS ->
      exists M0 : R,
        mean_anomaly elements (julian_date (Fin t)) = Fin M0 /\
        (Rabs M0 <= 1e4)%R).
Proof.
  intros Ht. unfold supported_time in Ht.
  unfold julian_date. rewrite julian_time_Fin.
  set (jt := (t / 1000 / 86400 + 2440587.5)%R).
  assert (Hjt : (2382717 <= jt <= 2556329)%R) by (unfold jt; lra).
  split.
  - assert (Hn : (1.327e20 / (2.1 * 149597870.7 * 1000) ^ 3
                  <= 6.55e-8 * 6.55e-8)%R).
    { apply quotient_le; [apply pow_lt; lra | lra]. }
    apply (hyperbolic_mean_anomaly_bounded ATLAS_3I_ELEMENTS
             (-2.1) 6.141 2460146.5 jt 2.1 6.55e-8 96200 600
             eq_refl eq_refl eq_refl); try lra.
    + rewrite Rabs_left by lra. lra.
    + apply Rabs_le. lra.
  - intros name elements Hin.
    assert (Hn : (6.67430e-11 * 1.989e30 / (0.387 * 149597870.7 * 1000) ^ 3
                  <= 8.3e-7 * 8.3e-7)%R).
    { apply quotient_le; [apply pow_lt; lra | lra]. }
    assert (Hel : exists a0 e0 : R,
               a elements = Fin a0 /\ e elements = Fin e0 /\
               epoch elements = Fin 2451545.0 /\
               (e0 < 1)%R /\ (0.387 <= a0)%R).
    { unfold PLANETARY_ELEMENTS in Hin. cbn [In] in Hin.
      repeat (destruct Hin as [Hin | Hin];
              [injection Hin as _ <-; do 2 eexists;
               repeat (split; [reflexivity |]); split; lra |]).
      contradiction. }
    destruct Hel as (a0 & e0 & Ha & He & Hepoch & Hecc & Ha0).
    apply (elliptical_mean_anomaly_bounded elements a0 e0 2451545.0 jt
             0.387 8.3e-7 104800 1e4 Ha He Hepoch Hecc); try lra.
    + rewrite Rabs_pos_eq by lra. lra.
    + apply Rabs_le. lra.
Qed.

(** X13: For every time (milliseconds since the Unix epoch) between [-5e12] and
    [1e13], that is from 1811 to 2286, [getCurrentCelestialPositions]
    returns -- after finitely many solver iterations -- a record with
    exactly the six keys 3I/ATLAS, Mercury, Venus, Earth, Mars and Jupiter,
    in that order.  The entry of 3I/ATLAS has three finite coordinates and a
    magnitude of at least [2.1 * 5.141 / 149597870.7]; the entry of every
    registered planet has a magnitude between its periapsis and apoapsis
    distance, each divided by the kilometres in an AU.  No entry of the
    record is therefore at a distance of the order of one AU or more from
    the origin.  In this range the mean anomaly of 3I/ATLAS is at most 600
    in absolute value and those of the planets at most [1e4]; later than
    the year 2366 [e * sinh H] exceeds the largest binary64 number and the
    source's entry of 3I/ATLAS is [NaN], and for mean anomalies of
    [2 ^ 26] and more the planets' loop can cycle for ever. *)
Theorem getCurrentCelestialPositions_entries (t : R) :
  supported_time t ->
  exists (fuel : nat) (positions : list (string * vec3)),
    getCurrentCelestialPositions fuel (Fin t) = Some positions /\
    map fst positions
    = ["3I/ATLAS"; "Mercury"; "Venus"; "Earth"; "Mars"; "Jupiter"]%string /\
    (exists (p : vec3) (m : R),
        own_property positions "3I/ATLAS" = Some p /\ finite3 p /\
        euclidean_norm p = Fin m /\
        (2.1 * 5.141 / 149597870.7 <= m)%R) /\
    (forall (name : string) (elements : OrbitalElements),
        In (name, elements) PLANETARY_ELEMENTS ->
        exists p : vec3,
          own_property positions name = Some p /\
          within_apsides elements p) /\
    (exists M0 : R,
        mean_anomaly ATLAS_3I_ELEMENTS (julian_date (Fin t)) = Fin M0 /\
        (Rabs M0 <= 600)%R) /\
    (forall (name : string) (elements : OrbitalElements),
        In (name, elements) PLANETARY_ELEMENTS ->
        exists M0 : R,
          mean_anomaly elements (julian_date (Fin t)) = Fin M0 /\
          (Rabs M0 <= 1e4)%R).
Proof.
  intros Ht.
  destruct (getCurrentCelestialPositions_returns t)
    as (fuel & positions & Hpos & Hkeys & Hatlas & Hplanets).
  destruct (supported_time_mean_anomalies t Ht) as [HMa HMp].
  exists fuel, positions. repeat (split; [assumption |]). exact HMp.
Qed.

Lemma getCurrentCelestialPositions_entries_witness :
  supported_time 1761696000000 /\
  exists (fuel : nat) (positions : list (string * vec3)),
    getCurrentCelestialPositions fuel (Fin 1761696000000) = Some positions /\
    map fst positions
    = ["3I/ATLAS"; "Mercury"; "Venus"; "Earth"; "Mars"; "Jupiter"]%string /\
    (exists M0 : R,
        mean_anomaly ATLAS_3I_ELEMENTS (julian_date (Fin 1761696000000))
        = Fin M0 /\
        (Rabs M0 <= 600)%R).
Proof.
  assert (Ht : supported_time 1761696000000)
    by (unfold supported_time; lra).
  split; [exact Ht |].
  destruct (getCurrentCelestialPositions_entries 1761696000000 Ht)
    as (fuel & positions & Hpos & Hkeys & _ & _ & HMa & _).
  exists fuel, positions. now repeat split.
Defined.

(** ** Velocity on hyperbolic orbits *)

Lemma orbitalStateVectors_velocity_NaN (elements : OrbitalElements)
  (a0 e0 : R) (nu : number) :
  a elements = Fin a0 -> e elements = Fin e0 ->
  a0 <> 0%R -> (1 < e0)%R ->
  plane_velocity (orbitalStateVectors elements nu) = (NaN, NaN).
Proof.
  intros Ha He Ha0 Hecc. unfold orbitalStateVectors. rewrite Ha, He.
  cbn [plane_velocity]. unfold Constants.GM_SUN.
  cbn [Math_abs mul sub neg add Math_sqrt].
  pose proof (Rabs_pos_lt a0 Ha0) as Hpos.
  assert (Hneg : (1.327e20 * Rabs a0 * (1 + - (e0 * e0)) < 0)%R).
  { assert (H1 : (0 < 1.327e20 * Rabs a0)%R) by lra.
    assert (H2 : (1 + - (e0 * e0) < 0)%R) by nra.
    replace 0%R with (1.327e20 * Rabs a0 * 0)%R by ring.
    now apply Rmult_lt_compat_l. }
  rewrite (Rltb_true _ _ Hneg). reflexivity.
Qed.

Lemma ecliptic_state_velocity_NaN (elements : OrbitalElements)
  (a0 e0 : R) (nu : number) :
  a elements = Fin a0 -> e elements = Fin e0 ->
  a0 <> 0%R -> (1 < e0)%R ->
  sv_velocity (ecliptic_state elements nu) = nan3.
Proof.
  intros Ha He Ha0 Hecc. unfold ecliptic_state.
  rewrite (orbitalStateVectors_velocity_NaN elements a0 e0 nu Ha He Ha0 Hecc).
  destruct (plane_position _) as [x y].
  destruct (transformToEcliptic x y _ _) as [[X Y] Z].
  rewrite transformToEcliptic_NaN. reflexivity.
Qed.

Lemma calculatePositionAtTime_hyperbolic_velocity
  (elements : OrbitalElements) (a0 e0 : R) (fuel : nat) (time : number)
  (st : StateVector) :
  a elements = Fin a0 -> e elements = Fin e0 ->
  a0 <> 0%R -> (1 < e0)%R ->
  calculatePositionAtTime fuel elements time = Some st ->
  sv_velocity st = nan3.
Proof.
  intros Ha He Ha0 Hecc. unfold calculatePositionAtTime. rewrite He.
  assert (Hlt : lt (Fin e0) (Fin 1) = false) by (apply Rltb_false; lra).
  rewrite Hlt.
  destruct (solveHyperbolicKepler _ _ _ _) as [H |]; [| discriminate].
  intros Hst. injection Hst as <-.
  now apply (ecliptic_state_velocity_NaN elements a0 e0).
Qed.

(** X14: on a hyperbolic orbit the velocity is never a number.  For elements
    with finite fields, a non-zero semi-major axis and [e > 1],
    [calculatePositionAtTime] returns at every finite time, and whatever
    state it returns -- at any time, finite or not -- has the velocity
    [[NaN, NaN, NaN]]: [orbitalStateVectors] takes the square root of
    [GM_SUN * |a| * (1 - e * e)], which is negative. *)
Theorem hyperbolic_velocity_is_NaN
  (elements : OrbitalElements) (a0 e0 i0 w0 O0 t0 t : R) :
  a elements = Fin a0 -> e elements = Fin e0 -> i elements = Fin i0 ->
  omega elements = Fin w0 -> Omega elements = Fin O0 ->
  epoch elements = Fin t0 ->
  a0 <> 0%R -> (1 < e0)%R ->
  (exists (fuel : nat) (st : StateVector),
      calculatePositionAtTime fuel elements (Fin t) = Some st) /\
  (forall (fuel : nat) (time : number) (st : StateVector),
      calculatePositionAtTime fuel elements time = Some st ->
      sv_velocity st = nan3).
Proof.
  intros Ha He Hi Hw HO Hepoch Ha0 Hecc. split.
  - destruct (calculatePositionAtTime_hyperbolic_returns elements
                a0 e0 i0 w0 O0 t0 t Ha He Hi Hw HO Hepoch Ha0 Hecc)
      as (fuel & st & _ & Hrun & _).
    now exists fuel, st.
  - intros fuel time st.
    now apply (calculatePositionAtTime_hyperbolic_velocity elements a0 e0).
Qed.

Lemma hyperbolic_velocity_is_NaN_witness :
  (-2.1)%R <> 0%R /\ (1 < 6.141)%R /\
  (exists (fuel : nat) (st : StateVector),
      calculatePositionAtTime fuel ATLAS_3I_ELEMENTS (Fin 2460977) = Some st) /\
  (forall (fuel : nat) (time : number) (st : StateVector),
      calculatePositionAtTime fuel ATLAS_3I_ELEMENTS time = Some st ->
      sv_velocity st = nan3).
Proof.
  assert (Ha : (-2.1)%R <> 0%R) by lra.
  assert (He : (1 < 6.141)%R) by lra.
  split; [exact Ha |]. split; [exact He |].
  exact (hyperbolic_velocity_is_NaN ATLAS_3I_ELEMENTS
           (-2.1) 6.141 175.1 310.4 87.2 2460146.5 2460977
           eq_refl eq_refl eq_refl eq_refl eq_refl eq_refl Ha He).
Defined.

(** ** The sampled positions *)

Lemma interpolate_Fin (k : nat) (s0 t0 : R) :
  interpolate (fraction k) (metres (Fin s0)) (metres (Fin t0))
  = Fin (s0 + IZR (Z.of_nat k) / 100 * (t0 - s0)).
Proof.
  unfold interpolate, metres, Constants.AU. rewrite fraction_Fin.
  cbn [mul sub neg add]. rewrite !div_Fin by lra. f_equal. field. lra.
Qed.

(** X15: with a valid propulsion type and finite start and target positions,
    sample [k] of the returned trajectory (k = 0, ..., 100) is, in exact
    arithmetic, the point [start + (k / 100) * (target - start)] of the
    straight segment from start to target, for every flight time; the first
    sample is the start position and the last one the target position. *)
Theorem trajectory_positions_on_segment
  (s0 s1 s2 t0 t1 t2 : R) (timeOfFlight : number) (config : MissionConfig)
  (w : World) (p : Propulsion) :
  own_property propulsionEfficiency (propulsionType config) = Some p ->
  exists (trajectory : InterceptorTrajectory) (w' : World),
    calculateInterceptTrajectory (fin3 s0 s1 s2) (fin3 t0 t1 t2)
      timeOfFlight config w = (Return trajectory, w') /\
    (forall k : nat, (k <= 100)%nat ->
       exists point : TrajectoryPoint,
         nth_error (points trajectory) k = Some point /\
         position point
         = fin3 (s0 + IZR (Z.of_nat k) / 100 * (t0 - s0))
                (s1 + IZR (Z.of_nat k) / 100 * (t1 - s1))
                (s2 + IZR (Z.of_nat k) / 100 * (t2 - s2))) /\
    (exists first last : TrajectoryPoint,
        nth_error (points trajectory) 0 = Some first /\
        position first = fin3 s0 s1 s2 /\
        nth_error (points trajectory) 100 = Some last /\
        position last = fin3 t0 t1 t2).
Proof.
  intros Hp. rewrite calculateInterceptTrajectory_closed.
  destruct (valid_propulsion_isp _ _ Hp) as [-> _].
  do 2 eexists. split; [reflexivity |].
  assert (Hk : forall k : nat, (k <= 100)%nat ->
             exists point : TrajectoryPoint,
               nth_error (points (built_trajectory (fin3 s0 s1 s2)
                                    (fin3 t0 t1 t2) timeOfFlight config
                                    (isp p) w)) k = Some point /\
               position point
               = fin3 (s0 + IZR (Z.of_nat k) / 100 * (t0 - s0))
                      (s1 + IZR (Z.of_nat k) / 100 * (t1 - s1))
                      (s2 + IZR (Z.of_nat k) / 100 * (t2 - s2))).
  { intros k Hle. eexists. split; [now apply built_points_nth |].
    rewrite sample_position. unfold interpolated_position, fin3.
    now rewrite !interpolate_Fin. }
  split; [exact Hk |].
  destruct (Hk 0%nat ltac:(lia)) as (first & Hfirst & Pfirst).
  destruct (Hk 100%nat ltac:(lia)) as (last & Hlast & Plast).
  exists first, last. split; [exact Hfirst |]. split.
  - rewrite Pfirst. unfold fin3. cbn [Z.of_nat].
    f_equal; [f_equal |]; f_equal; field.
  - split; [exact Hlast |]. rewrite Plast. unfold fin3.
    change (IZR (Z.of_nat 100)) with 100%R.
    f_equal; [f_equal |]; f_equal; field.
Qed.

Lemma trajectory_positions_on_segment_witness :
  exists (trajectory : InterceptorTrajectory) (w' : World),
    calculateInterceptTrajectory (fin3 1 0 0) (fin3 0 2 0)
      (Fin 1000) (sample_config "ion") (frozen_clock 0)
    = (Return trajectory, w') /\
    (forall k : nat, (k <= 100)%nat ->
       exists point : TrajectoryPoint,
         nth_error (points trajectory) k = Some point /\
         position point
         = fin3 (1 + IZR (Z.of_nat k) / 100 * (0 - 1))
                (0 + IZR (Z.of_nat k) / 100 * (2 - 0))
                (0 + IZR (Z.of_nat k) / 100 * (0 - 0))) /\
    (exists first last : TrajectoryPoint,
        nth_error (points trajectory) 0 = Some first /\
        position first = fin3 1 0 0 /\
        nth_error (points trajectory) 100 = Some last /\
        position last = fin3 0 2 0).
Proof.
  exact (trajectory_positions_on_segment 1 0 0 0 2 0 (Fin 1000)
           (sample_config "ion") (frozen_clock 0)
           {| isp := Fin 3000; thrust := Fin 100 |} eq_refl).
Defined.

(** ** Mean motion *)

Lemma meanMotion_Fin (z m : R) :
  (0 < z)%R -> (0 < m)%R ->
  (0 < 6.67430e-11 * m / (z * 149597870.7 * 1000) ^ 3)%R /\
  meanMotion (Fin z) (Fin m)
  = Fin (sqrt (6.67430e-11 * m / (z * 149597870.7 * 1000) ^ 3)).
Proof.
  intros Hz Hm.
  assert (Hc : (0 < (z * 149597870.7 * 1000) ^ 3)%R) by (apply pow_lt; nra).
  assert (Hq : (0 < 6.67430e-11 * m / (z * 149597870.7 * 1000) ^ 3)%R)
    by (apply Rdiv_lt_0_compat; [nra | exact Hc]).
  split; [exact Hq |].
  unfold meanMotion, Constants.AU, Constants.G. cbn [mul Math_pow].
  rewrite div_Fin by lra. rewrite sqrt_Fin by lra. reflexivity.
Qed.

Lemma cube_increasing (X Y : R) : (0 < X < Y)%R -> (X ^ 3 < Y ^ 3)%R.
Proof.
  intros [H1 H2]. cbn [pow]. rewrite !Rmult_1_r.
  assert (H3 : (X * X < Y * Y)%R) by nra.
  assert (H4 : (0 < X * X)%R) by nra.
  nra.
Qed.

(** X16: Kepler's third law.  For semi-major axes [0 < x < y] (AU) and a
    central mass [m > 0], [meanMotion] returns finite positive values with
    [n^2 * (x * AU * 1000)^3 = G * m], the larger axis has the strictly
    smaller mean motion, and a negative semi-major axis gives [NaN] (which
    is why [calculatePositionAtTime] passes [|a|]). *)
Theorem meanMotion_third_law (x y m : R) :
  (0 < x)%R -> (x < y)%R -> (0 < m)%R ->
  exists n1 n2 : R,
    meanMotion (Fin x) (Fin m) = Fin n1 /\
    meanMotion (Fin y) (Fin m) = Fin n2 /\
    (0 < n2 < n1)%R /\
    (n1 * n1 * (x * 149597870.7 * 1000) ^ 3 = 6.67430e-11 * m)%R /\
    meanMotion (Fin (- x)) (Fin m) = NaN.
Proof.
  intros Hx Hxy Hm.
  destruct (meanMotion_Fin x m Hx Hm) as [Hqx ->].
  destruct (meanMotion_Fin y m ltac:(lra) Hm) as [Hqy ->].
  assert (Hcx : (0 < (x * 149597870.7 * 1000) ^ 3)%R) by (apply pow_lt; nra).
  assert (Hcy : (0 < (y * 149597870.7 * 1000) ^ 3)%R) by (apply pow_lt; nra).
  do 2 eexists. split; [reflexivity |]. split; [reflexivity |].
  split; [split |]; [| | split].
  - now apply sqrt_lt_R0.
  - apply sqrt_lt_1_alt. split; [lra |].
    unfold Rdiv. apply Rmult_lt_compat_l; [nra |].
    apply Rinv_lt_contravar; [nra |].
    apply cube_increasing. nra.
  - rewrite sqrt_sqrt by lra. field. lra.
  - unfold meanMotion, Constants.AU, Constants.G. cbn [mul Math_pow].
    assert (Hc : ((- x * 149597870.7 * 1000) ^ 3 < 0)%R).
    { replace ((- x * 149597870.7 * 1000) ^ 3)%R
        with (- (x * 149597870.7 * 1000) ^ 3)%R by ring.
      lra. }
    rewrite div_Fin by lra. cbn [Math_sqrt].
    rewrite Rltb_true; [reflexivity |].
    replace ((- x * 149597870.7 * 1000) ^ 3)%R
      with (- (x * 149597870.7 * 1000) ^ 3)%R by ring.
    replace (6.67430e-11 * m / - (x * 149597870.7 * 1000) ^ 3)%R
      with (- (6.67430e-11 * m / (x * 149597870.7 * 1000) ^ 3))%R
      by (field; lra).
    lra.
Qed.

Lemma meanMotion_third_law_witness :
  (0 < 1)%R /\ (1 < 1.524)%R /\ (0 < 1.989e30)%R /\
  exists n1 n2 : R,
    meanMotion (Fin 1) (Fin 1.989e30) = Fin n1 /\
    meanMotion (Fin 1.524) (Fin 1.989e30) = Fin n2 /\
    (0 < n2 < n1)%R /\
    (n1 * n1 * (1 * 149597870.7 * 1000) ^ 3 = 6.67430e-11 * 1.989e30)%R /\
    meanMotion (Fin (- 1)) (Fin 1.989e30) = NaN.
Proof.
  assert (Hx : (0 < 1)%R) by lra.
  assert (Hxy : (1 < 1.524)%R) by lra.
  assert (Hm : (0 < 1.989e30)%R) by lra.
  split; [exact Hx |]. split; [exact Hxy |]. split; [exact Hm |].
  exact (meanMotion_third_law 1 1.524 1.989e30 Hx Hxy Hm).
Defined.

(** ** The mission routes *)

Lemma euclidean_norm_Fin (p : vec3) (m : R) :
  euclidean_norm p = Fin m ->
  exists X Y Z : R, p = fin3 X Y Z /\ m = norm3 X Y Z.
Proof.
  destruct p as [[x y] z]. unfold euclidean_norm.
  destruct x as [X | | |], y as [Y | | |], z as [Z | | |];
    cbn [mul add signed_inf sign Math_sqrt]; try discriminate.
  rewrite Rltb_false by apply sum_squares_nonneg.
  intros [= <-]. now exists X, Y, Z.
Qed.

Lemma visviva_deltaV_large (m1 m2 : R) :
  (0 < m1 <= 1017)%R -> (10796 <= m2)%R ->
  (3e7 <= visviva_deltaV m1 m2)%R.
Proof.
  intros [H1 H1'] H2. unfold visviva_deltaV. cbv zeta.
  assert (Hc : (1e16 <= 1.327e20 / m1)%R).
  { apply quotient_ge; [exact H1 |]. lra. }
  assert (Hcirc : (1e8 <= sqrt (1.327e20 / m1))%R).
  { replace 1e8%R with (sqrt (1e8 * 1e8)) by (apply sqrt_square; lra).
    apply sqrt_le_1_alt. lra. }
  assert (Hrad : (1.3 * 1.3 * (1.327e20 / m1)
                  <= 1.327e20 * (2 / m1 - 1 / ((m1 + m2) / 2)))%R).
  { replace (1.327e20 * (2 / m1 - 1 / ((m1 + m2) / 2)))%R
      with (1.327e20 / m1 * (2 * m2 / (m1 + m2)))%R by (field; lra).
    rewrite (Rmult_comm (1.3 * 1.3)).
    apply Rmult_le_compat_l; [lra |].
    apply quotient_ge; [lra |]. lra. }
  assert (Hv : (1.3 * sqrt (1.327e20 / m1)
                <= sqrt (1.327e20 * (2 / m1 - 1 / ((m1 + m2) / 2))))%R).
  { rewrite <- (sqrt_square 1.3) at 1 by lra.
    rewrite <- sqrt_mult by lra.
    now apply sqrt_le_1_alt. }
  pose proof (Rabs_pos (sqrt (1.327e20 * (2 / m2 - 1 / ((m1 + m2) / 2)))
                        - sqrt (1.327e20 / m2))) as Hnn.
  rewrite Rabs_pos_eq by lra. lra.
Qed.

Lemma valid_propulsion_tables (propulsion : string) (f : R) :
  propulsion_factor propulsion = Some f ->
  (exists p : Propulsion,
      own_property propulsionEfficiency propulsion = Some p) /\
  (exists v : R,
      ToNumber (get_property MissionRoutes.velocityEstimates propulsion)
      = Fin v /\ (0 < v)%R).
Proof.
  intros Hf. apply propulsion_factor_cases in Hf.
  destruct Hf as [[-> _] | [[-> _] | [-> _]]];
    (split; [eexists; reflexivity | eexists; split; [reflexivity | lra]]).
Qed.

(** The trajectory built between a start within 1017 m and a target beyond
    10796 m of the origin (both measured after the conversion to metres). *)
Lemma built_trajectory_steep (s0 s1 s2 t0 t1 t2 : R) (timeOfFlight : number)
  (config : MissionConfig) (ispv : number) (w : World) (f : R) :
  propulsion_factor (propulsionType config) = Some f ->
  (0 < norm3 s0 s1 s2 <= 1.017 / 149597870.7)%R ->
  (2.1 * 5.141 / 149597870.7 <= norm3 t0 t1 t2)%R ->
  exists dv p : R,
    totalDeltaV (built_trajectory (fin3 s0 s1 s2) (fin3 t0 t1 t2)
                   timeOfFlight config ispv w) = Fin dv /\
    (3e7 <= dv)%R /\
    interceptProbability (built_trajectory (fin3 s0 s1 s2) (fin3 t0 t1 t2)
                            timeOfFlight config ispv w) = Fin p /\
    (0.4 <= p <= 0.57)%R /\
    p = (0.85 * 0.7 * flightTime_factor timeOfFlight * f)%R.
Proof.
  intros Hf [Hs Hs'] Ht.
  assert (Hk : (0 < 149597870.7)%R) by lra.
  assert (Ht0 : (0 < norm3 t0 t1 t2)%R).
  { apply Rlt_le_trans with (2.1 * 5.141 / 149597870.7)%R; [| exact Ht].
    apply Rdiv_lt_0_compat; lra. }
  assert (Hm1 : (0 < 149597870.7 * 1000 * norm3 s0 s1 s2 <= 1017)%R).
  { split; [nra |].
    apply Rle_trans
      with (149597870.7 * 1000 * (1.017 / 149597870.7))%R.
    - apply Rmult_le_compat_l; [lra | exact Hs'].
    - lra. }
  assert (Hm2 : (10796 <= 149597870.7 * 1000 * norm3 t0 t1 t2)%R).
  { apply Rle_trans
      with (149597870.7 * 1000 * (2.1 * 5.141 / 149597870.7))%R.
    - apply Rle_trans with (1000 * (2.1 * 5.141))%R; [lra |].
      lra.
    - apply Rmult_le_compat_l; [lra | exact Ht]. }
  pose proof (visviva_deltaV_large _ _ Hm1 Hm2) as Hdv.
  unfold built_trajectory. cbn [totalDeltaV interceptProbability].
  rewrite (calculateDeltaV_metres s0 s1 s2 t0 t1 t2 timeOfFlight Hs Ht0).
  destruct (calculateInterceptProbability_product
              (Fin (visviva_deltaV (149597870.7 * 1000 * norm3 s0 s1 s2)
                      (149597870.7 * 1000 * norm3 t0 t1 t2)))
              timeOfFlight config f Hf) as [-> _].
  do 2 eexists. split; [reflexivity |]. split; [exact Hdv |].
  split; [reflexivity |].
  assert (Hd : deltaV_factor
                 (Fin (visviva_deltaV (149597870.7 * 1000 * norm3 s0 s1 s2)
                         (149597870.7 * 1000 * norm3 t0 t1 t2))) = 0.7%R).
  { unfold deltaV_factor.
    assert (Hgt : gt (Fin (visviva_deltaV
                             (149597870.7 * 1000 * norm3 s0 s1 s2)
                             (149597870.7 * 1000 * norm3 t0 t1 t2)))
                    (Fin 15000) = true) by (apply gt_Fin; lra).
    now rewrite Hgt. }
  rewrite Hd. split; [| reflexivity].
  pose proof (flightTime_factor_bounds timeOfFlight) as Hft.
  pose proof (propulsion_factor_bounds _ _ Hf) as Hp.
  revert Hft. generalize (flightTime_factor timeOfFlight). intros u Hu.
  split; nra.
Qed.

(** X17: For a validated configuration (propulsion chemical, ion or nuclear)
    and every launch time from 1811 to 2286 ([supported_time]), the handler
    of [POST /api/mission/calculate] answers -- it does not throw -- and its
    answer always carries the warnings 'Low intercept probability' and 'High
    delta-V requirement', in that order, followed at most by 'Extended
    mission duration'.  The reported probability lies between 0.4 and 0.57,
    a fraction compared with the percentage 50, and the delta-v is at least
    3e7 m/s: the positions of the position service are about 1e-8 AU from
    the origin, so the trajectory starts about one kilometre from the Sun.
    For launch times later than the year 2366 the source's position of
    3I/ATLAS is [NaN], and so is the delta-v. *)
Theorem mission_calculate_warnings (config : MissionConfig) (t : R)
  (w : World) (f : R) :
  propulsion_factor (propulsionType config) = Some f ->
  supported_time t ->
  exists (fuel : nat) (response : ApiResponse MissionCalculationResponse.t)
         (w' : World) (p dv : R) (rest : list string),
    MissionRoutes.calculate fuel config (Fin t) w = Some (Json response, w') /\
    success response = true /\
    MissionCalculationResponse.interceptProbability (data response) = Fin p /\
    (0.4 <= p <= 0.57)%R /\
    totalDeltaV (MissionCalculationResponse.trajectory (data response))
    = Fin dv /\
    (3e7 <= dv)%R /\
    MissionCalculationResponse.warnings (data response)
    = ("Low intercept probability - consider adjusting mission parameters"
       :: "High delta-V requirement - may exceed fuel capacity"
       :: rest)%string /\
    (rest = [] \/
     rest = ["Extended mission duration - consider reliability factors"%string]).
Proof.
  intros Hf _.
  destruct (getCurrentCelestialPositions_returns t)
    as (fuel & positions & Hpos & _ & (pa & m2 & Hpa & _ & Hnorm2 & Hm2)
        & Hplanets).
  destruct (Hplanets "Earth"%string (planetary_elements "Earth")
              (or_intror (or_intror (or_introl eq_refl))))
    as (pe & Hpe & a0 & e0 & m1 & Ha & He & Hnorm1 & Hm1).
  injection Ha as <-. injection He as <-.
  destruct (euclidean_norm_Fin pe m1 Hnorm1) as (s0 & s1 & s2 & -> & ->).
  destruct (euclidean_norm_Fin pa m2 Hnorm2) as (t0 & t1 & t2 & -> & ->).
  rewrite Rabs_pos_eq in Hm1 by lra.
  assert (Hs : (0 < norm3 s0 s1 s2 <= 1.017 / 149597870.7)%R).
  { split.
    - apply Rlt_le_trans with (1.000 * (1 - 0.017) / 149597870.7)%R;
        [apply Rdiv_lt_0_compat; lra | apply Hm1].
    - apply Rle_trans with (1.000 * (1 + 0.017) / 149597870.7)%R;
        [apply Hm1 |].
      unfold Rdiv. apply Rmult_le_compat_r; lra. }
  destruct (valid_propulsion_tables _ _ Hf) as [[prop Hprop] _].
  destruct (valid_propulsion_isp _ _ Hprop) as [Hisp _].
  exists fuel. unfold MissionRoutes.calculate.
  rewrite Hpos, Hpe, Hpa. unfold fin3 at 1 2. cbv beta iota zeta.
  fold (fin3 s0 s1 s2) (fin3 t0 t1 t2).
  rewrite calculateInterceptTrajectory_closed, Hisp.
  match goal with
  | |- context [built_trajectory _ _ ?tof _ _ _] => set (timeOfFlight := tof)
  end.
  destruct (built_trajectory_steep s0 s1 s2 t0 t1 t2 timeOfFlight config
              (isp prop) w f Hf Hs Hm2)
    as (dv & p & Hdv & Hdv3 & Hp & Hp' & _).
  cbv beta iota. rewrite Hp, Hdv.
  assert (Hlow : lt (Fin p) (Fin 50) = true) by (apply gt_Fin; lra).
  assert (Hhigh : gt (Fin dv) (Fin 12000) = true) by (apply gt_Fin; lra).
  rewrite Hlow, Hhigh. unfold Date_now, push. cbv beta iota zeta.
  destruct (gt (flightTime _) _); cbn [app];
    do 2 eexists; exists p, dv; eexists;
    (split; [reflexivity |]);
    cbn [success data MissionCalculationResponse.interceptProbability
         MissionCalculationResponse.trajectory
         MissionCalculationResponse.warnings];
    (split; [reflexivity |]); (split; [reflexivity |]);
    (split; [exact Hp' |]); (split; [exact Hdv |]);
    (split; [exact Hdv3 |]); (split; [reflexivity |]); auto.
Qed.

Lemma mission_calculate_warnings_witness :
  propulsion_factor (propulsionType (sample_config "ion")) = Some 0.95%R /\
  supported_time 1761696000000 /\
  exists (fuel : nat) (response : ApiResponse MissionCalculationResponse.t)
         (w' : World) (p dv : R) (rest : list string),
    MissionRoutes.calculate fuel (sample_config "ion") (Fin 1761696000000)
      (frozen_clock 1761696000000) = Some (Json response, w') /\
    success response = true /\
    MissionCalculationResponse.interceptProbability (data response) = Fin p /\
    (0.4 <= p <= 0.57)%R /\
    totalDeltaV (MissionCalculationResponse.trajectory (data response))
    = Fin dv /\
    (3e7 <= dv)%R /\
    MissionCalculationResponse.warnings (data response)
    = ("Low intercept probability - consider adjusting mission parameters"
       :: "High delta-V requirement - may exceed fuel capacity"
       :: rest)%string /\
    (rest = [] \/
     rest = ["Extended mission duration - consider reliability factors"%string]).
Proof.
  assert (Ht : supported_time 1761696000000)
    by (unfold supported_time; lra).
  split; [reflexivity |]. split; [exact Ht |].
  exact (mission_calculate_warnings (sample_config "ion") 1761696000000
           (frozen_clock 1761696000000) 0.95 eq_refl Ht).
Defined.

Lemma past_excludes_far (x now : number) (c : R) :
  (0 <= c)%R -> lt x now = true -> gt x (now + Fin c) = false.
Proof.
  intros Hc. unfold lt.
  destruct x as [u | | |], now as [v | | |]; cbn [gt add];
    try discriminate; try reflexivity.
  intros H. apply Rltb_spec in H. apply Rltb_false. lra.
Qed.

Lemma ion_excludes_chemical (propulsion : string) :
  String.eqb propulsion "ion" = true ->
  String.eqb propulsion "chemical" = false.
Proof. intros H. apply String.eqb_eq in H. now subst. Qed.

(** X18: for every validated configuration, launch time and clock, the
    handler of [POST /api/mission/validate] answers [valid: true] with at
    most two warnings: at most one about the launch window ('in the past'
    and 'very far in the future' never occur together), followed by at most
    one about the equipment (the ion-thrust and the low-fuel warning never
    occur together). *)
Theorem mission_validate_warnings (config : MissionConfig)
  (launchTime : number) (w : World) :
  exists timing equipment : list string,
    success (fst (MissionRoutes.validate config launchTime w)) = true /\
    MissionValidation.valid
      (data (fst (MissionRoutes.validate config launchTime w))) = true /\
    MissionValidation.warnings
      (data (fst (MissionRoutes.validate config launchTime w)))
    = timing ++ equipment /\
    (timing = [] \/
     timing = ["Launch window is in the past"%string] \/
     timing = ["Launch window is very far in the future - orbital predictions may be inaccurate"%string]) /\
    (equipment = [] \/
     equipment = ["Ion propulsion may not provide sufficient thrust for probe deployment"%string] \/
     equipment = ["Low fuel capacity for chemical propulsion system"%string]).
Proof.
  unfold MissionRoutes.validate, Date_now, push. cbv beta iota zeta.
  cbn [fst success data MissionValidation.valid MissionValidation.warnings].
  change (Fin 5 * Fin 365 * Fin 24 * Fin 60 * Fin 60 * Fin 1000)
    with (Fin (5 * 365 * 24 * 60 * 60 * 1000)).
  pose proof (past_excludes_far launchTime (clock w (reads w))
                (5 * 365 * 24 * 60 * 60 * 1000) ltac:(lra)) as Hpast.
  pose proof (ion_excludes_chemical (propulsionType config)) as Hion.
  destruct (lt launchTime (clock w (reads w)));
    [rewrite Hpast by reflexivity |];
    [| destruct (gt launchTime _)];
    (destruct (String.eqb (propulsionType config) "ion");
     [rewrite Hion by reflexivity |]);
    rewrite ?andb_false_r, ?andb_true_r;
    repeat match goal with
           | |- context [if ?b then _ else _] => destruct b
           end;
    cbn [app];
    match goal with
    | |- exists timing equipment, _ /\ _ /\ [?x; ?y] = _ /\ _ =>
        exists [x], [y]
    | |- exists timing equipment, _ /\ _ /\ [?x] = _ /\ _ =>
        first [ exists [x], []; repeat split; auto; fail
              | exists [], [x] ]
    | |- exists timing equipment, _ /\ _ /\ [] = _ /\ _ =>
        exists [], []
    end;
    repeat split; auto.
Qed.

(** ** The socket handler of mission configurations *)

(** The two entries of the position service that the mission handlers read. *)
Lemma earth_and_atlas_positions (t : R) :
  exists (fuel : nat) (positions : list (string * vec3))
         (s0 s1 s2 t0 t1 t2 : R),
    getCurrentCelestialPositions fuel (Fin t) = Some positions /\
    own_property positions "Earth" = Some (fin3 s0 s1 s2) /\
    own_property positions "3I/ATLAS" = Some (fin3 t0 t1 t2) /\
    (0 < norm3 s0 s1 s2 <= 1.017 / 149597870.7)%R /\
    (2.1 * 5.141 / 149597870.7 <= norm3 t0 t1 t2)%R.
Proof.
  destruct (getCurrentCelestialPositions_returns t)
    as (fuel & positions & Hpos & _ & (pa & m2 & Hpa & _ & Hnorm2 & Hm2)
        & Hplanets).
  destruct (Hplanets "Earth"%string (planetary_elements "Earth")
              (or_intror (or_intror (or_introl eq_refl))))
    as (pe & Hpe & a0 & e0 & m1 & Ha & He & Hnorm1 & Hm1).
  injection Ha as <-. injection He as <-.
  destruct (euclidean_norm_Fin pe m1 Hnorm1) as (s0 & s1 & s2 & -> & ->).
  destruct (euclidean_norm_Fin pa m2 Hnorm2) as (t0 & t1 & t2 & -> & ->).
  rewrite Rabs_pos_eq in Hm1 by lra.
  exists fuel, positions, s0, s1, s2, t0, t1, t2.
  repeat (split; [assumption |]). split; [| exact Hm2]. split.
  - apply Rlt_le_trans with (1.000 * (1 - 0.017) / 149597870.7)%R;
      [apply Rdiv_lt_0_compat; lra | apply Hm1].
  - apply Rle_trans with (1.000 * (1 + 0.017) / 149597870.7)%R;
      [apply Hm1 |].
    unfold Rdiv. apply Rmult_le_compat_r; lra.
Qed.

Lemma flightTime_factor_one_year :
  flightTime_factor (Fin 365 * Fin 24 * Fin 60 * Fin 60) = 1%R.
Proof.
  unfold flightTime_factor, year_seconds. cbn [mul gt].
  rewrite !Rltb_false by lra. reflexivity.
Qed.

(** X19: For a configuration with a valid propulsion type and every launch time
    from 1811 to 2286 ([supported_time]), the handler of
    'update-mission-config' emits exactly one event,
    'trajectory-calculated', whose trajectory has 101 points, the flight
    time of 365 days it was given, a delta-v of at least 3e7 m/s and the
    intercept probability [0.85 * 0.7 * multiplier] (0.5355 for chemical,
    0.56525 for ion, 0.50575 for nuclear), whatever the launch time in that
    range.  For launch times later than the year 2366 the source's position
    of 3I/ATLAS is [NaN], and so is the delta-v. *)
Theorem socket_trajectory_calculated (config : MissionConfig) (t : R)
  (w : World) (f : R) :
  propulsion_factor (propulsionType config) = Some f ->
  supported_time t ->
  exists (fuel : nat) (trajectory : InterceptorTrajectory)
         (positions : list (string * vec3)) (stamp : number) (w' : World)
         (dv : R),
    SocketHandlers.update_mission_config fuel config (Fin t) w
    = Some ([SocketHandlers.trajectory_calculated config trajectory positions
               stamp], w') /\
    List.length (points trajectory) = 101%nat /\
    flightTime trajectory = Fin (365 * 24 * 60 * 60) /\
    totalDeltaV trajectory = Fin dv /\ (3e7 <= dv)%R /\
    interceptProbability trajectory = Fin (0.85 * 0.7 * f).
Proof.
  intros Hf _.
  destruct (earth_and_atlas_positions t)
    as (fuel & positions & s0 & s1 & s2 & t0 & t1 & t2 & Hpos & Hpe & Hpa
        & Hs & Ht).
  destruct (valid_propulsion_tables _ _ Hf) as [[prop Hprop] _].
  destruct (valid_propulsion_isp _ _ Hprop) as [Hisp _].
  destruct (built_trajectory_steep s0 s1 s2 t0 t1 t2
              (Fin 365 * Fin 24 * Fin 60 * Fin 60) config (isp prop) w f
              Hf Hs Ht) as (dv & p & Hdv & Hdv3 & Hp & _ & Hpv).
  rewrite flightTime_factor_one_year in Hpv.
  exists fuel. unfold SocketHandlers.update_mission_config.
  rewrite Hpos, Hpe, Hpa, calculateInterceptTrajectory_closed, Hisp.
  unfold Date_now. cbv beta iota zeta.
  do 4 eexists. exists dv. split; [reflexivity |].
  split; [apply built_points_length |]. split; [reflexivity |].
  split; [exact Hdv |]. split; [exact Hdv3 |].
  rewrite Hp, Hpv. f_equal. ring.
Qed.

Lemma socket_trajectory_calculated_witness :
  propulsion_factor (propulsionType (sample_config "chemical")) = Some 0.9%R /\
  supported_time 1761696000000 /\
  exists (fuel : nat) (trajectory : InterceptorTrajectory)
         (positions : list (string * vec3)) (stamp : number) (w' : World)
         (dv : R),
    SocketHandlers.update_mission_config fuel (sample_config "chemical")
      (Fin 1761696000000) (frozen_clock 1761696000000)
    = Some ([SocketHandlers.trajectory_calculated (sample_config "chemical")
               trajectory positions stamp], w') /\
    List.length (points trajectory) = 101%nat /\
    flightTime trajectory = Fin (365 * 24 * 60 * 60) /\
    totalDeltaV trajectory = Fin dv /\ (3e7 <= dv)%R /\
    interceptProbability trajectory = Fin (0.85 * 0.7 * 0.9).
Proof.
  assert (Ht : supported_time 1761696000000)
    by (unfold supported_time; lra).
  split; [reflexivity |]. split; [exact Ht |].
  exact (socket_trajectory_calculated (sample_config "chemical")
           1761696000000 (frozen_clock 1761696000000) 0.9 eq_refl Ht).
Defined.

(** X20: For a configuration whose propulsion type is in no table (and is not a
    member of [Object.prototype]) and every finite launch time, the
    [TypeError] of the engine is caught: the handler of
    'update-mission-config' emits exactly one event, the 'mission-alert' of
    type 'error' with the message 'Failed to process mission configuration',
    stamped with the next clock reading, and no trajectory. *)
Theorem socket_unknown_propulsion_alert (config : MissionConfig) (t : R)
  (w : World) :
  get_property propulsionEfficiency (propulsionType config) = Undefined ->
  exists fuel : nat,
    SocketHandlers.update_mission_config fuel config (Fin t) w
    = Some ([SocketHandlers.mission_alert "error"
               "Failed to process mission configuration"
               (clock w (reads w))],
            advance w 1).
Proof.
  intros Hundef.
  destruct (earth_and_atlas_positions t)
    as (fuel & positions & s0 & s1 & s2 & t0 & t1 & t2 & Hpos & Hpe & Hpa
        & _ & _).
  exists fuel. unfold SocketHandlers.update_mission_config.
  rewrite Hpos, Hpe, Hpa, calculateInterceptTrajectory_closed, Hundef.
  unfold Date_now, advance. cbn [propulsion_isp].
  now rewrite Nat.add_1_r.
Qed.

Lemma socket_unknown_propulsion_alert_witness :
  get_property propulsionEfficiency (propulsionType (sample_config "solar"))
  = Undefined /\
  exists fuel : nat,
    SocketHandlers.update_mission_config fuel (sample_config "solar")
      (Fin 1761696000000) (frozen_clock 1761696000000)
    = Some ([SocketHandlers.mission_alert "error"
               "Failed to process mission configuration"
               (clock (frozen_clock 1761696000000)
                  (reads (frozen_clock 1761696000000)))],
            advance (frozen_clock 1761696000000) 1).
Proof.
  split; [reflexivity |].
  exact (socket_unknown_propulsion_alert (sample_config "solar")
           1761696000000 (frozen_clock 1761696000000) eq_refl).
Defined.

(** ** The celestial routes *)

Lemma own_property_absent {A : Type} (obj : list (string * A)) (key : string) :
  ~ In key (map fst obj) -> own_property obj key = None.
Proof.
  induction obj as [| [k v] rest IH]; intros Hnot; [reflexivity |].
  cbn [own_property]. destruct (String.eqb_spec k key) as [-> | Hne].
  - exfalso. apply Hnot. now left.
  - apply IH. intros Hin. apply Hnot. now right.
Qed.

(** X21: Without live data, [GET /atlas] reports a velocity that is not a
    number.  For every request time from 1811 to 2286 ([supported_time]) at
    which [fetchAtlasLivePosition] yields [null], the handler answers with
    the computed position of 3I/ATLAS -- three finite coordinates -- and
    the velocity [[NaN, NaN, NaN]]; the mean anomaly of 3I/ATLAS is then at
    most 600 in absolute value.  For request times later than the year 2366
    [e * sinh H] exceeds the largest binary64 number and the source's
    position is [[NaN, NaN, NaN]] as well. *)
Theorem atlas_fallback_velocity_is_NaN
  (fetchAtlasLivePosition : number -> World -> option vec3 * World)
  (query_time : option number) (w : World) (t : R) :
  fst (request_time query_time w) = Fin t ->
  supported_time t ->
  fst (fetchAtlasLivePosition (Fin t) (snd (request_time query_time w)))
  = None ->
  exists (fuel : nat) (response : ApiResponse AtlasData.t) (w' : World)
         (M0 : R),
    atlas fetchAtlasLivePosition fuel query_time w = Some (response, w') /\
    success response = true /\
    finite3 (AtlasData.position (data response)) /\
    AtlasData.velocity (data response) = nan3 /\
    mean_anomaly ATLAS_3I_ELEMENTS (julian_date (Fin t)) = Fin M0 /\
    (Rabs M0 <= 600)%R.
Proof.
  intros Htime Hsupported Hlive.
  destruct (supported_time_mean_anomalies t Hsupported)
    as [(M0 & HM0 & HM0') _].
  assert (Ha0 : (-2.1)%R <> 0%R) by lra.
  assert (Hecc : (1 < 6.141)%R) by lra.
  destruct (calculatePositionAtTime_hyperbolic_returns ATLAS_3I_ELEMENTS
              (-2.1) 6.141 175.1 310.4 87.2 2460146.5
              (t / 1000 / 86400 + 2440587.5)
              eq_refl eq_refl eq_refl eq_refl eq_refl eq_refl Ha0 Hecc)
    as (fuel & st & m & Hrun & Hfin & _).
  pose proof (calculatePositionAtTime_hyperbolic_velocity ATLAS_3I_ELEMENTS
                (-2.1) 6.141 fuel _ st eq_refl eq_refl Ha0 Hecc Hrun) as Hvel.
  exists fuel. unfold atlas.
  destruct (request_time query_time w) as [time w1].
  cbn [fst snd] in Htime, Hlive. subst time.
  destruct (fetchAtlasLivePosition (Fin t) w1) as [livePos w2].
  cbn [fst] in Hlive. subst livePos.
  rewrite !div_Fin by lra. cbn [add]. rewrite Hrun.
  unfold Date_now. cbv beta iota zeta.
  do 2 eexists. exists M0. split; [reflexivity |].
  cbn [success data AtlasData.position AtlasData.velocity]. auto.
Qed.

Lemma atlas_fallback_velocity_is_NaN_witness :
  fst (request_time (Some (Fin 1761696000000)) (frozen_clock 0))
  = Fin 1761696000000 /\
  fst ((fun (_ : number) (w : World) => (@None vec3, w))
         (Fin 1761696000000)
         (snd (request_time (Some (Fin 1761696000000)) (frozen_clock 0))))
  = None /\
  supported_time 1761696000000 /\
  exists (fuel : nat) (response : ApiResponse AtlasData.t) (w' : World)
         (M0 : R),
    atlas (fun (_ : number) (w : World) => (@None vec3, w)) fuel
      (Some (Fin 1761696000000)) (frozen_clock 0) = Some (response, w') /\
    success response = true /\
    finite3 (AtlasData.position (data response)) /\
    AtlasData.velocity (data response) = nan3 /\
    mean_anomaly ATLAS_3I_ELEMENTS (julian_date (Fin 1761696000000))
    = Fin M0 /\
    (Rabs M0 <= 600)%R.
Proof.
  assert (Ht : supported_time 1761696000000)
    by (unfold supported_time; lra).
  split; [reflexivity |]. split; [reflexivity |]. split; [exact Ht |].
  exact (atlas_fallback_velocity_is_NaN
           (fun (_ : number) (w : World) => (@None vec3, w))
           (Some (Fin 1761696000000)) (frozen_clock 0) 1761696000000
           eq_refl Ht eq_refl).
Defined.

Lemma fallback_positions (t : R) :
  exists (fuel : nat) (positions : list (string * vec3)),
    getCurrentCelestialPositions fuel (Fin t) = Some positions /\
    own_property positions "Sun" = None /\
    (forall name : string,
        In name ["Mercury"; "Venus"; "Earth"; "Mars"; "Jupiter"]%string ->
        exists (p : vec3) (elements : OrbitalElements),
          own_property positions name = Some p /\
          own_property PLANETARY_ELEMENTS name = Some elements /\
          within_apsides elements p).
Proof.
  destruct (getCurrentCelestialPositions_returns t)
    as (fuel & positions & Hpos & Hkeys & _ & Hplanets).
  exists fuel, positions. split; [exact Hpos |]. split.
  - apply own_property_absent. rewrite Hkeys. cbn [In].
    intros [H | [H | [H | [H | [H | [H | []]]]]]]; discriminate.
  - intros name Hin. cbn [In] in Hin.
    destruct Hin as [<- | [<- | [<- | [<- | [<- | []]]]]];
      match goal with
      | |- exists p elements, own_property _ ?n = _ /\ _ =>
          destruct (Hplanets n (planetary_elements n)) as (p & Hp & Hw);
          [unfold PLANETARY_ELEMENTS; cbn [In]; auto 10 |
           exists p, (planetary_elements n); auto]
      end.
Qed.

(** X22: [GET /bodies] never serves the static position of a planet.  For every
    request time from 1811 to 2286 ([supported_time]; for much larger times
    the elliptical solver of the source can cycle for ever) the handler
    answers with the six bodies of its table, in order.  A body for which the live record has a position is
    served that position, marked 'nasa_live'.  Every other planet is served
    the position computed by the position service -- of a magnitude between
    its periapsis and apoapsis distance divided by 149597870.7, that is of
    the order of 1e-8 -- and only the Sun keeps the position of the table;
    this holds as well when the request for live data fails. *)
Theorem bodies_served_positions
  (fetchAllPlanetaryPositions :
     number -> World -> option (list (string * vec3)) * World)
  (query_time : option number) (w : World) (t : R) :
  fst (request_time query_time w) = Fin t ->
  supported_time t ->
  exists (fuel : nat) (response : BodiesResponse.t) (w' : World),
    bodies fetchAllPlanetaryPositions fuel query_time w
    = Some (response, w') /\
    BodiesResponse.success response = true /\
    map PositionedBody.name (BodiesResponse.data response)
    = ["Sun"; "Mercury"; "Venus"; "Earth"; "Mars"; "Jupiter"]%string /\
    (forall body : PositionedBody.t,
        In body (BodiesResponse.data response) ->
        match live_position
                (fst (fetchAllPlanetaryPositions (Fin t)
                        (snd (request_time query_time w))))
                (PositionedBody.name body) with
        | Some p =>
            PositionedBody.position body = p /\
            PositionedBody.dataSource body = "nasa_live"%string
        | None =>
            PositionedBody.dataSource body <> "nasa_live"%string /\
            match PositionedBody.orbitalElements body with
            | Some elements =>
                within_apsides elements (PositionedBody.position body)
            | None => PositionedBody.position body = (Fin 0, Fin 0, Fin 0)
            end
        end).
Proof.
  intros Htime _.
  destruct (fallback_positions t) as (fuel & positions & Hpos & Hsun & Hpl).
  destruct (Hpl "Mercury"%string ltac:(cbn; auto 10))
    as (p1 & e1 & Hp1 & He1 & Hw1).
  destruct (Hpl "Venus"%string ltac:(cbn; auto 10))
    as (p2 & e2 & Hp2 & He2 & Hw2).
  destruct (Hpl "Earth"%string ltac:(cbn; auto 10))
    as (p3 & e3 & Hp3 & He3 & Hw3).
  destruct (Hpl "Mars"%string ltac:(cbn; auto 10))
    as (p4 & e4 & Hp4 & He4 & Hw4).
  destruct (Hpl "Jupiter"%string ltac:(cbn; auto 10))
    as (p5 & e5 & Hp5 & He5 & Hw5).
  exists fuel. unfold bodies.
  destruct (request_time query_time w) as [time w1].
  cbn [fst snd] in Htime |- *. subst time.
  destruct (fetchAllPlanetaryPositions (Fin t) w1) as [[live |] w2];
    rewrite Hpos; unfold Date_now; cbv beta iota zeta;
    do 2 eexists; (split; [reflexivity |]);
    cbn [BodiesResponse.success BodiesResponse.data fst live_position];
    (split; [reflexivity |]); (split; [reflexivity |]);
    intros body Hin; unfold CELESTIAL_BODIES in Hin; cbn [map In] in Hin;
    destruct Hin as [<- | [<- | [<- | [<- | [<- | [<- | []]]]]]];
    cbn [positioned PositionedBody.name PositionedBody.position
         PositionedBody.dataSource PositionedBody.orbitalElements
         CelestialBody.name CelestialBody.position
         CelestialBody.orbitalElements];
    rewrite ?Hsun, ?Hp1, ?Hp2, ?Hp3, ?Hp4, ?Hp5,
      ?He1, ?He2, ?He3, ?He4, ?He5;
    try match goal with
        | |- context [own_property live ?n] =>
            destruct (own_property live n)
        end;
    cbn [or_else]; split; try reflexivity; try discriminate; assumption.
Qed.

Lemma bodies_served_positions_witness :
  fst (request_time None (frozen_clock 1761696000000)) = Fin 1761696000000 /\
  supported_time 1761696000000 /\
  exists (fuel : nat) (response : BodiesResponse.t) (w' : World),
    bodies (fun (_ : number) (w : World) =>
              (Some [("Mars"%string, fin3 1 1 0)], w))
      fuel None (frozen_clock 1761696000000)
    = Some (response, w') /\
    BodiesResponse.success response = true /\
    map PositionedBody.name (BodiesResponse.data response)
    = ["Sun"; "Mercury"; "Venus"; "Earth"; "Mars"; "Jupiter"]%string /\
    (forall body : PositionedBody.t,
        In body (BodiesResponse.data response) ->
        match live_position
                (fst ((fun (_ : number) (w : World) =>
                         (Some [("Mars"%string, fin3 1 1 0)], w))
                        (Fin 1761696000000)
                        (snd (request_time None
                                (frozen_clock 1761696000000)))))
                (PositionedBody.name body) with
        | Some p =>
            PositionedBody.position body = p /\
            PositionedBody.dataSource body = "nasa_live"%string
        | None =>
            PositionedBody.dataSource body <> "nasa_live"%string /\
            match PositionedBody.orbitalElements body with
            | Some elements =>
                within_apsides elements (PositionedBody.position body)
            | None => PositionedBody.position body = (Fin 0, Fin 0, Fin 0)
            end
        end).
Proof.
  assert (Ht : supported_time 1761696000000)
    by (unfold supported_time; lra).
  split; [reflexivity |]. split; [exact Ht |].
  exact (bodies_served_positions
           (fun (_ : number) (w : World) =>
              (Some [("Mars"%string, fin3 1 1 0)], w))
           None (frozen_clock 1761696000000) 1761696000000 eq_refl Ht).
Defined.

(** ** The simulation clock *)

Lemma Zfloor_quotient (a b : Z) :
  (0 < b)%Z -> Zfloor (IZR a / IZR b) = (a / b)%Z.
Proof.
  intros Hb. apply Zfloor_eq.
  pose proof (Z.div_mod a b ltac:(lia)) as Hdm.
  pose proof (Z.mod_pos_bound a b Hb) as [Hlo Hhi].
  assert (Hb' : (0 < IZR b)%R) by now apply IZR_lt.
  assert (Ha : IZR a = (IZR b * IZR (a / b) + IZR (a mod b))%R)
    by (rewrite <- mult_IZR, <- plus_IZR; now f_equal).
  apply IZR_le in Hlo. apply IZR_lt in Hhi.
  split.
  - apply quotient_ge; [exact Hb' |]. lra.
  - apply (Rmult_lt_reg_r (IZR b)); [exact Hb' |].
    replace (IZR a / IZR b * IZR b)%R with (IZR a) by (field; lra).
    lra.
Qed.

Lemma Math_floor_quotient (a b : Z) :
  (0 < b)%Z ->
  Math_floor (Fin (IZR a) / Fin (IZR b)) = Fin (IZR (a / b)).
Proof.
  intros Hb. assert (IZR b <> 0%R) by (apply not_0_IZR; lia).
  rewrite div_Fin by assumption. cbn [Math_floor].
  now rewrite Zfloor_quotient.
Qed.

Lemma remainder_integers (a b : Z) :
  (0 <= a)%Z -> (0 < b)%Z ->
  remainder (Fin (IZR a)) (Fin (IZR b)) = Fin (IZR (a mod b)).
Proof.
  intros Ha Hb. assert (Hb' : (0 < IZR b)%R) by now apply IZR_lt.
  cbn [remainder]. rewrite Reqb_false by lra. unfold truncate.
  rewrite Rltb_false.
  - rewrite Zfloor_quotient by exact Hb. f_equal.
    rewrite <- mult_IZR, <- minus_IZR. f_equal.
    pose proof (Z.div_mod a b ltac:(lia)). lia.
  - apply Rmult_le_pos; [now apply IZR_le |].
    now apply Rlt_le, Rinv_0_lt_compat.
Qed.

Lemma Number_toString_natural (z : Z) :
  (0 <= z <= 2 ^ 53)%Z ->
  Number_toString (Fin (IZR z)) = Some (decimal (Z.to_nat z)).
Proof.
  intros [Hlo Hhi]. cbn [Number_toString]. rewrite ZfloorZ.
  rewrite Reqb_true by reflexivity.
  assert (Habs : (Z.abs z <=? 2 ^ 53)%Z = true) by (apply Z.leb_le; lia).
  rewrite Habs. cbn [andb].
  assert (Hneg : (z <? 0)%Z = false) by (apply Z.ltb_ge; lia).
  rewrite Hneg. f_equal. f_equal. lia.
Qed.

Lemma digits_length (fuel n : nat) (tail : string) :
  (String.length tail <= String.length (digits fuel n tail))%nat.
Proof.
  revert n tail. induction fuel as [| fuel IH]; intros n tail; cbn [digits].
  - lia.
  - destruct (n <? 10).
    + cbn [String.length]. lia.
    + specialize (IH (n / 10)%nat (String (digit (n mod 10)) tail)).
      cbn [String.length] in IH. lia.
Qed.

Lemma padStart_decimal (n : nat) :
  padStart (decimal n) 2 (digit 0) = two_digits n.
Proof.
  unfold padStart, two_digits, decimal. cbn [digits].
  destruct (Nat.ltb_spec n 10) as [Hlt | Hge].
  - reflexivity.
  - destruct n as [| n']; [lia |]. cbn [digits].
    destruct (S n' / 10 <? 10).
    + reflexivity.
    + pose proof (digits_length n' (S n' / 10 / 10)
                    (String (digit ((S n' / 10) mod 10))
                       (String (digit (S n' mod 10)) ""))) as Hlen.
      cbn [String.length] in Hlen.
      replace (2 - String.length _)%nat with 0%nat by lia.
      reflexivity.
Qed.

Lemma formatTime_integer (z : Z) :
  (0 <= z <= 2 ^ 53)%Z ->
  formatTime (Fin (IZR z))
  = Some (clock_string (Z.to_nat (z / 3600)) (Z.to_nat (z mod 3600 / 60))
            (Z.to_nat (z mod 60))).
Proof.
  intros [Hz Hh]. unfold formatTime.
  rewrite (Math_floor_quotient z 3600) by lia.
  rewrite (remainder_integers z 3600), (remainder_integers z 60) by lia.
  rewrite (Math_floor_quotient (z mod 3600) 60) by lia.
  cbn [Math_floor]. rewrite ZfloorZ.
  pose proof (Z.mod_pos_bound z 3600 ltac:(lia)) as Hm.
  pose proof (Z.mod_pos_bound z 60 ltac:(lia)) as Hs.
  assert (Hq : (0 <= z / 3600 <= 2 ^ 53)%Z).
  { split; [apply Z.div_pos; lia |].
    apply Z.le_trans with z; [| exact Hh].
    apply Z.div_le_upper_bound; lia. }
  assert (Hmq : (0 <= z mod 3600 / 60 < 60)%Z).
  { split; [apply Z.div_pos; lia |].
    apply Z.div_lt_upper_bound; lia. }
  rewrite !Number_toString_natural by lia.
  rewrite !padStart_decimal. reflexivity.
Qed.

(** X23: A whole number of seconds is written as hours, minutes and seconds.
    For natural numbers [h], [m < 60] and [s < 60] whose total
    [3600 h + 60 m + s] is at most [2 ^ 53] (up to there every whole number
    is a binary64 number and is printed with all its digits),
    [formatTime(3600 h + 60 m + s)] is the string [hh:mm:ss]: each count in
    decimal, padded with a zero to two digits, hours beyond 99 written out
    in full. *)
Theorem formatTime_clock (h m s : nat) :
  (m < 60)%nat -> (s < 60)%nat ->
  (Z.of_nat (3600 * h + 60 * m + s) <= 2 ^ 53)%Z ->
  formatTime (of_nat (3600 * h + 60 * m + s)) = Some (clock_string h m s).
Proof.
  intros Hm Hs Hh. unfold of_nat.
  set (z := Z.of_nat (3600 * h + 60 * m + s)) in *.
  assert (Hz : z = (3600 * Z.of_nat h + (60 * Z.of_nat m + Z.of_nat s))%Z)
    by (unfold z; lia).
  assert (Hq : (z / 3600 = Z.of_nat h)%Z).
  { symmetry. apply (Z.div_unique z 3600 (Z.of_nat h)
                       (60 * Z.of_nat m + Z.of_nat s)); lia. }
  assert (Hr : (z mod 3600 = 60 * Z.of_nat m + Z.of_nat s)%Z).
  { symmetry. apply (Z.mod_unique z 3600 (Z.of_nat h)); lia. }
  assert (Hmq : (z mod 3600 / 60 = Z.of_nat m)%Z).
  { rewrite Hr. symmetry.
    apply (Z.div_unique _ 60 (Z.of_nat m) (Z.of_nat s)); lia. }
  assert (Hsq : (z mod 60 = Z.of_nat s)%Z).
  { symmetry. apply (Z.mod_unique z 60 (60 * Z.of_nat h + Z.of_nat m)); lia. }
  rewrite formatTime_integer by (split; [lia | exact Hh]).
  rewrite Hq, Hmq, Hsq.
  replace (Z.to_nat (Z.of_nat h)) with h by lia.
  replace (Z.to_nat (Z.of_nat m)) with m by lia.
  replace (Z.to_nat (Z.of_nat s)) with s by lia.
  reflexivity.
Qed.

Lemma formatTime_clock_witness :
  (2 < 60)%nat /\ (5 < 60)%nat /\
  (Z.of_nat (3600 * 101 + 60 * 2 + 5) <= 2 ^ 53)%Z /\
  formatTime (of_nat (3600 * 101 + 60 * 2 + 5)) = Some "101:02:05"%string.
Proof.
  assert (Hm : (2 < 60)%nat) by lia.
  assert (Hs : (5 < 60)%nat) by lia.
  assert (Hh : (Z.of_nat (3600 * 101 + 60 * 2 + 5) <= 2 ^ 53)%Z)
    by (vm_compute; discriminate).
  split; [exact Hm |]. split; [exact Hs |]. split; [exact Hh |].
  exact (formatTime_clock 101 2 5 Hm Hs Hh).
Defined.

(** ** The mission status *)

Lemma elapsed_days (z : Z) :
  Fin (IZR z) / (Fin 24 * Fin 60 * Fin 60) = Fin (IZR z / 86400).
Proof. cbn [mul]. rewrite div_Fin by lra. f_equal. f_equal. lra. Qed.

Lemma lt_days (z days : Z) :
  lt (Fin (IZR z / 86400)) (Fin (IZR days)) = (z <? days * 86400)%Z.
Proof.
  unfold lt. cbn [gt].
  destruct (Z.ltb_spec z (days * 86400)) as [H | H].
  - apply Rltb_true. apply IZR_lt in H. rewrite mult_IZR in H. lra.
  - apply Rltb_false. apply IZR_le in H. rewrite mult_IZR in H. lra.
Qed.

Lemma time_to_intercept_seconds (z : Z) :
  Math_max (Fin 365 - Fin (IZR z / 86400)) (Fin 0) * Fin 24 * Fin 60 * Fin 60
  = Fin (IZR (Z.max (365 * 86400 - z) 0)).
Proof.
  cbn [sub neg add]. rewrite Math_max_Fin. cbn [mul]. f_equal.
  destruct (Z.max_spec (365 * 86400 - z) 0) as [[Hlt ->] | [Hle ->]].
  - apply IZR_lt in Hlt. rewrite minus_IZR, mult_IZR in Hlt.
    rewrite Rmax_right by lra. lra.
  - apply IZR_le in Hle. rewrite minus_IZR, mult_IZR in Hle.
    rewrite Rmax_left by lra. rewrite minus_IZR, mult_IZR. lra.
Qed.

Lemma calculateMissionStatus_integer (simulation : SimulationState.t)
  (z : Z) :
  SimulationState.elapsedTime simulation = Fin (IZR z) ->
  (0 <= z <= 2 ^ 53)%Z ->
  calculateMissionStatus simulation
  = Some {| MissionStatus.phase :=
              phase_after (SimulationState.isRunning simulation) z;
            MissionStatus.timeToIntercept :=
              clock_of_seconds (Z.max (365 * 86400 - z) 0);
            MissionStatus.distanceToTarget :=
              Fin (Rmax (1000000 - IZR z / 86400 * 50000) 10000);
            MissionStatus.velocity := Fin (15 + IZR z / 86400 * 0.1);
            MissionStatus.fuelRemaining :=
              Fin (Rmax (100 - IZR z / 86400 * 0.3) 0);
            MissionStatus.successProbability :=
              Fin (Rmax (85 - IZR z / 86400 * 0.1) 20);
            MissionStatus.missionElapsed := clock_of_seconds z |}.
Proof.
  intros Helapsed [Hlo Hhi]. unfold calculateMissionStatus.
  rewrite Helapsed, elapsed_days, time_to_intercept_seconds.
  assert (Hq' : (0 <= Z.max (365 * 86400 - z) 0 <= 2 ^ 53)%Z).
  { split; [apply Z.le_max_r |].
    apply Z.max_lub; [| apply Z.pow_nonneg; lia].
    apply Z.le_trans with (365 * 86400)%Z; [lia |].
    vm_compute. discriminate. }
  rewrite (formatTime_integer z (conj Hlo Hhi)).
  rewrite (formatTime_integer (Z.max (365 * 86400 - z) 0) Hq').
  change (Fin 1) with (Fin (IZR 1)). change (Fin 30) with (Fin (IZR 30)).
  change (Fin 365) with (Fin (IZR 365)). rewrite !lt_days.
  cbn [sub neg add mul]. rewrite !Math_max_Fin.
  unfold phase_after, clock_of_seconds.
  change (1 * 86400)%Z with 86400%Z.
  repeat f_equal; lra.
Qed.

Lemma clock_of_seconds_nat (n : nat) :
  clock_of_seconds (Z.of_nat n)
  = clock_string (n / 3600) (n mod 3600 / 60) (n mod 60).
Proof.
  unfold clock_of_seconds.
  change 3600%Z with (Z.of_nat 3600). change 60%Z with (Z.of_nat 60).
  rewrite <- !Znat.Nat2Z.inj_mod, <- !Znat.Nat2Z.inj_div.
  now rewrite !Znat.Nat2Z.id.
Qed.

(** X24: For a simulation whose elapsed time is a natural number [n] of seconds,
    [calculateMissionStatus] reports: the phase LAUNCH before 86400 s,
    CRUISE before 30 days, APPROACH before 365 days and INTERCEPT from then
    on when the simulation runs, PLANNING when it does not; the elapsed time
    as [hh:mm:ss]; a distance between 10000 and 1000000; a velocity of at
    least 15; the remaining fuel between 0 and 100 and a success
    probability between 20 and 85.  [n] is at most [2 ^ 53]: up to there
    every whole number of seconds is a binary64 number and is printed with
    all its digits. *)
Theorem calculateMissionStatus_ranges (simulation : SimulationState.t)
  (n : nat) :
  SimulationState.elapsedTime simulation = of_nat n ->
  (Z.of_nat n <= 2 ^ 53)%Z ->
  exists (status : MissionStatus.t) (d v fr p : R),
    calculateMissionStatus simulation = Some status /\
    MissionStatus.phase status
    = phase_after (SimulationState.isRunning simulation) (Z.of_nat n) /\
    MissionStatus.missionElapsed status
    = clock_string (n / 3600) (n mod 3600 / 60) (n mod 60) /\
    MissionStatus.distanceToTarget status = Fin d /\
    (10000 <= d <= 1000000)%R /\
    MissionStatus.velocity status = Fin v /\ (15 <= v)%R /\
    MissionStatus.fuelRemaining status = Fin fr /\ (0 <= fr <= 100)%R /\
    MissionStatus.successProbability status = Fin p /\ (20 <= p <= 85)%R.
Proof.
  intros Helapsed Hn. unfold of_nat in Helapsed.
  rewrite (calculateMissionStatus_integer simulation (Z.of_nat n) Helapsed)
    by (split; [lia | exact Hn]).
  assert (Hz : (0 <= IZR (Z.of_nat n) / 86400)%R).
  { apply Rmult_le_pos; [apply IZR_le; lia | lra]. }
  do 5 eexists. split; [reflexivity |].
  cbn [MissionStatus.phase MissionStatus.missionElapsed
       MissionStatus.distanceToTarget MissionStatus.velocity
       MissionStatus.fuelRemaining MissionStatus.successProbability].
  split; [reflexivity |]. split.
  { apply clock_of_seconds_nat. }
  split; [reflexivity |]. split.
  { split; [apply Rmax_r | apply Rmax_lub; lra]. }
  split; [reflexivity |]. split; [lra |].
  split; [reflexivity |]. split.
  { split; [apply Rmax_r | apply Rmax_lub; lra]. }
  split; [reflexivity |].
  split; [apply Rmax_r | apply Rmax_lub; lra].
Qed.

Lemma calculateMissionStatus_ranges_witness :
  SimulationState.elapsedTime
    {| SimulationState.id := "sim_1";
       SimulationState.isRunning := true;
       SimulationState.currentTime := Fin 0;
       SimulationState.timeAcceleration := Fin 1;
       SimulationState.elapsedTime := of_nat 3725;
       SimulationState.config := sample_config "ion" |} = of_nat 3725 /\
  (Z.of_nat 3725 <= 2 ^ 53)%Z /\
  exists (status : MissionStatus.t) (d v fr p : R),
    calculateMissionStatus
      {| SimulationState.id := "sim_1";
         SimulationState.isRunning := true;
         SimulationState.currentTime := Fin 0;
         SimulationState.timeAcceleration := Fin 1;
         SimulationState.elapsedTime := of_nat 3725;
         SimulationState.config := sample_config "ion" |} = Some status /\
    MissionStatus.phase status = LAUNCH /\
    MissionStatus.missionElapsed status = "01:02:05"%string /\
    MissionStatus.distanceToTarget status = Fin d /\
    (10000 <= d <= 1000000)%R /\
    MissionStatus.velocity status = Fin v /\ (15 <= v)%R /\
    MissionStatus.fuelRemaining status = Fin fr /\ (0 <= fr <= 100)%R /\
    MissionStatus.successProbability status = Fin p /\ (20 <= p <= 85)%R.
Proof.
  assert (Hn : (Z.of_nat 3725 <= 2 ^ 53)%Z) by (vm_compute; discriminate).
  split; [reflexivity |]. split; [exact Hn |].
  exact (calculateMissionStatus_ranges
           {| SimulationState.id := "sim_1";
              SimulationState.isRunning := true;
              SimulationState.currentTime := Fin 0;
              SimulationState.timeAcceleration := Fin 1;
              SimulationState.elapsedTime := of_nat 3725;
              SimulationState.config := sample_config "ion" |}
           3725 eq_refl Hn).
Defined.

(** ** The life of a simulation *)

Lemma own_property_set_property {A : Type} (obj : list (string * A))
  (key : string) (value : A) :
  own_property (set_property obj key value) key = Some value.
Proof.
  induction obj as [| [k x] rest IH]; cbn [set_property own_property].
  - now rewrite String.eqb_refl.
  - destruct (String.eqb k key) eqn:Hk; cbn [own_property]; rewrite Hk;
      [reflexivity | exact IH].
Qed.

Lemma own_property_delete_property {A : Type} (obj : list (string * A))
  (key : string) :
  own_property (delete_property obj key) key = None.
Proof.
  induction obj as [| [k x] rest IH]; cbn [delete_property own_property].
  - reflexivity.
  - destruct (String.eqb k key) eqn:Hk; [exact IH |].
    cbn [own_property]. now rewrite Hk.
Qed.

Lemma planetary_positions_for_more_fuel (n m : nat)
  (entries : list (string * OrbitalElements)) (julianTime : number)
  (positions result : list (string * vec3)) :
  (n <= m)%nat ->
  planetary_positions_for n entries julianTime positions = Some result ->
  planetary_positions_for m entries julianTime positions = Some result.
Proof.
  intros Hnm. revert positions.
  induction entries as [| [name elements] rest IH]; intros positions;
    cbn [planetary_positions_for]; [trivial |].
  destruct (calculatePositionAtTime n elements julianTime) as [st |] eqn:Hn;
    [| discriminate].
  rewrite (calculatePositionAtTime_more_fuel n m _ _ _ Hnm Hn). apply IH.
Qed.

Lemma getCurrentCelestialPositions_more_fuel (n m : nat) (time : number)
  (positions : list (string * vec3)) :
  (n <= m)%nat ->
  getCurrentCelestialPositions n time = Some positions ->
  getCurrentCelestialPositions m time = Some positions.
Proof.
  intros Hnm. unfold getCurrentCelestialPositions.
  destruct (calculatePositionAtTime n ATLAS_3I_ELEMENTS _) as [st |] eqn:Hn;
    [| discriminate].
  rewrite (calculatePositionAtTime_more_fuel n m _ _ _ Hnm Hn).
  now apply planetary_positions_for_more_fuel.
Qed.

Lemma updateSimulation_more_fuel (n m : nat) (io : bool) (id : string)
  (store : SimulationStore) (w : World)
  (result : SimulationStore * list SimulationTick.t * World) :
  (n <= m)%nat ->
  updateSimulation n io id store w = Some result ->
  updateSimulation m io id store w = Some result.
Proof.
  intros Hnm. unfold updateSimulation.
  destruct (own_property (simulations store) id) as [simulation |];
    [| trivial].
  destruct (negb (SimulationState.isRunning simulation)); [trivial |].
  unfold Date_now. cbv beta iota zeta.
  cbn [SimulationState.currentTime].
  destruct (getCurrentCelestialPositions n _) as [positions |] eqn:Hn;
    [| discriminate].
  now rewrite (getCurrentCelestialPositions_more_fuel n m _ _ Hnm Hn).
Qed.

Lemma timer_fires_more_fuel (n m : nat) (io : bool) (id : string)
  (count : nat) (store : SimulationStore) (w : World)
  (result : SimulationStore * list SimulationTick.t * World) :
  (n <= m)%nat ->
  timer_fires n io id count store w = Some result ->
  timer_fires m io id count store w = Some result.
Proof.
  intros Hnm. revert store w result.
  induction count as [| count IH]; intros store w result;
    cbn [timer_fires]; [trivial |].
  destruct (own_property (simulationIntervals store) id); [| trivial].
  destruct (updateSimulation n io id store w) as [[[store' emitted] w'] |]
    eqn:Hn; [| discriminate].
  rewrite (updateSimulation_more_fuel n m _ _ _ _ _ Hnm Hn).
  destruct (timer_fires n io id count store' w')
    as [[[store'' emitted'] w''] |] eqn:Hrest; [| discriminate].
  now rewrite (IH _ _ _ Hrest).
Qed.

Lemma phase_after_running (z : Z) : active_phase (phase_after true z).
Proof.
  unfold active_phase, phase_after.
  destruct (z <? 86400)%Z, (z <? 30 * 86400)%Z, (z <? 365 * 86400)%Z; auto.
Qed.

(** One call of [updateSimulation] on a running simulation. *)
Lemma updateSimulation_running (io : bool) (id : string)
  (store : SimulationStore) (simulation : SimulationState.t) (w : World)
  (z : Z) (now : R) :
  own_property (simulations store) id = Some simulation ->
  SimulationState.isRunning simulation = true ->
  SimulationState.elapsedTime simulation = Fin (IZR z) ->
  (0 <= z <= 365 * 86400)%Z ->
  clock w (reads w) = Fin now ->
  exists (fuel : nat) (store' : SimulationStore)
         (ticks : list SimulationTick.t) (simulation' : SimulationState.t),
    updateSimulation fuel io id store w
    = Some (store', ticks, {| clock := clock w; reads := S (reads w) |}) /\
    simulations store' = set_property (simulations store) id simulation' /\
    own_property (simulations store') id = Some simulation' /\
    SimulationState.elapsedTime simulation' = Fin (IZR (z + 1)) /\
    SimulationState.isRunning simulation' = (z + 1 <=? 365 * 86400)%Z /\
    (if (z + 1 <=? 365 * 86400)%Z
     then simulationIntervals store' = simulationIntervals store
     else own_property (simulationIntervals store') id = None) /\
    List.length ticks = (if io then 1%nat else 0%nat) /\
    (forall tick : SimulationTick.t,
        In tick ticks ->
        active_phase (MissionStatus.phase (SimulationTick.status tick))).
Proof.
  intros Hsim Hrun Helapsed Hz Hclock.
  destruct (getCurrentCelestialPositions_returns now)
    as (fuel & positions & Hpos & _).
  exists fuel. unfold updateSimulation. rewrite Hsim, Hrun.
  unfold Date_now. cbv beta iota zeta. cbn [negb SimulationState.currentTime
    SimulationState.elapsedTime SimulationState.isRunning].
  rewrite Hclock, Hpos, Helapsed. cbn [add].
  rewrite <- (plus_IZR z 1).
  match goal with
  | |- context [calculateMissionStatus ?s] =>
      rewrite (calculateMissionStatus_integer s (z + 1) eq_refl) by lia
  end.
  cbn [SimulationState.isRunning mul gt].
  assert (Hstop : Rltb (365 * 24 * 60 * 60) (IZR (z + 1))
                  = negb (z + 1 <=? 365 * 86400)%Z).
  { destruct (Z.leb_spec (z + 1) (365 * 86400)) as [H | H]; cbn [negb].
    - apply Rltb_false. apply IZR_le in H. rewrite mult_IZR in H. lra.
    - apply Rltb_true. apply IZR_lt in H. rewrite mult_IZR in H. lra. }
  rewrite Hstop.
  destruct (z + 1 <=? 365 * 86400)%Z; cbn [negb];
    do 3 eexists; (split; [reflexivity |]);
    cbn [simulations simulationIntervals];
    (split; [reflexivity |]);
    rewrite own_property_set_property;
    (split; [reflexivity |]);
    cbn [SimulationState.elapsedTime SimulationState.isRunning];
    (split; [reflexivity |]); (split; [reflexivity |]);
    (split;
     [first [reflexivity
            | destruct (own_property (simulationIntervals store) id) eqn:Ht;
              [apply own_property_delete_property | exact Ht]] |]);
    (split; [now destruct io |]);
    intros tick Hin; destruct io; cbn [In] in Hin;
    try contradiction; destruct Hin as [<- | []];
    cbn [SimulationTick.status MissionStatus.phase];
    apply phase_after_running.
Qed.

Lemma timer_fires_cleared (fuel : nat) (io : bool) (id : string) (count : nat)
  (store : SimulationStore) (w : World) :
  own_property (simulationIntervals store) id = None ->
  timer_fires fuel io id count store w = Some (store, [], w).
Proof.
  intros Hnone. destruct count; cbn [timer_fires]; [reflexivity |].
  now rewrite Hnone.
Qed.

Lemma timer_fires_from (io : bool) (id : string) (count : nat) :
  forall (store : SimulationStore) (simulation : SimulationState.t)
         (handle : nat) (w : World) (z : Z),
    own_property (simulations store) id = Some simulation ->
    own_property (simulationIntervals store) id = Some handle ->
    SimulationState.isRunning simulation = true ->
    SimulationState.elapsedTime simulation = Fin (IZR z) ->
    (0 <= z <= 365 * 86400)%Z ->
    (forall j : nat, exists r : R, clock w j = Fin r) ->
    exists (fuel : nat) (store' : SimulationStore)
           (ticks : list SimulationTick.t) (w' : World)
           (simulation' : SimulationState.t),
      timer_fires fuel io id count store w = Some (store', ticks, w') /\
      own_property (simulations store') id = Some simulation' /\
      SimulationState.elapsedTime simulation'
      = Fin (IZR (Z.min (z + Z.of_nat count) (365 * 86400 + 1))) /\
      SimulationState.isRunning simulation'
      = (z + Z.of_nat count <=? 365 * 86400)%Z /\
      (own_property (simulationIntervals store') id = None <->
       (365 * 86400 < z + Z.of_nat count)%Z) /\
      List.length ticks
      = (if io
         then Z.to_nat (Z.min (z + Z.of_nat count) (365 * 86400 + 1) - z)
         else 0%nat) /\
      (forall tick : SimulationTick.t,
          In tick ticks ->
          active_phase (MissionStatus.phase (SimulationTick.status tick))).
Proof.
  induction count as [| count IH];
    intros store simulation handle w z Hsim Htimer Hrun Helapsed Hz Hclock.
  - exists 0%nat, store, [], w, simulation. cbn [timer_fires].
    split; [reflexivity |]. split; [exact Hsim |].
    split; [rewrite Helapsed; do 2 f_equal; lia |].
    split; [rewrite Hrun; symmetry; apply Z.leb_le; lia |].
    split; [rewrite Htimer; split; [discriminate | lia] |].
    split; [destruct io; cbn [List.length]; [lia | reflexivity] |].
    intros tick [].
  - destruct (Hclock (reads w)) as [now Hnow].
    destruct (updateSimulation_running io id store simulation w z now
                Hsim Hrun Helapsed Hz Hnow)
      as (fuel1 & store1 & ticks1 & simulation1 & Hupd & _ & Hsim1 & Hel1
          & Hrun1 & Htimer1 & Hlen1 & Hph1).
    destruct (Z.leb_spec (z + 1) (365 * 86400)) as [Hle | Hgt].
    + assert (Htimer1' : own_property (simulationIntervals store1) id
                         = Some handle) by (now rewrite Htimer1).
      destruct (IH store1 simulation1 handle
                  {| clock := clock w; reads := S (reads w) |} (z + 1)%Z
                  Hsim1 Htimer1' Hrun1 Hel1 ltac:(lia) Hclock)
        as (fuel2 & store2 & ticks2 & w2 & simulation2 & Hrest & Hsim2
            & Hel2 & Hrun2 & Htimer2 & Hlen2 & Hph2).
      exists (Nat.max fuel1 fuel2), store2, (ticks1 ++ ticks2), w2,
        simulation2.
      cbn [timer_fires]. rewrite Htimer.
      rewrite (updateSimulation_more_fuel fuel1 _ _ _ _ _ _
                 (Nat.le_max_l fuel1 fuel2) Hupd).
      rewrite (timer_fires_more_fuel fuel2 _ _ _ _ _ _ _
                 (Nat.le_max_r fuel1 fuel2) Hrest).
      split; [reflexivity |]. split; [exact Hsim2 |].
      replace (z + Z.of_nat (S count))%Z with (z + 1 + Z.of_nat count)%Z
        by lia.
      split; [exact Hel2 |]. split; [exact Hrun2 |].
      split; [exact Htimer2 |].
      split.
      * rewrite length_app, Hlen1, Hlen2. destruct io; lia.
      * intros tick Hin. apply in_app_or in Hin. destruct Hin; auto.
    + exists fuel1, store1, (ticks1 ++ []), 
        {| clock := clock w; reads := S (reads w) |}, simulation1.
      cbn [timer_fires]. rewrite Htimer, Hupd.
      rewrite (timer_fires_cleared fuel1 io id count store1 _ Htimer1).
      split; [reflexivity |]. split; [exact Hsim1 |].
      split; [rewrite Hel1; do 2 f_equal; lia |].
      split; [rewrite Hrun1; symmetry; apply Z.leb_gt; lia |].
      split; [split; [lia | intros _; exact Htimer1] |].
      split.
      * rewrite app_nil_r, Hlen1. destruct io; lia.
      * rewrite app_nil_r. exact Hph1.
Qed.

(** X25: The life of a simulation.  Take a simulation as [POST /start] creates
    it -- running, with no elapsed time and a registered timer -- and a
    clock with finite readings, and let the timer come due [count] times.
    Then every call of [updateSimulation] returns, the elapsed time is
    [min(count, 365 * 86400 + 1)] seconds, the simulation runs as long as
    [count <= 365 * 86400] and is stopped, its timer cleared, from the next
    call on; with [global.io] set exactly one tick is emitted for each of
    the first [365 * 86400 + 1] calls and none afterwards, and the phase of
    every tick is LAUNCH, CRUISE, APPROACH or INTERCEPT -- never PLANNING,
    COMPLETE or FAILED. *)
Theorem simulation_lifecycle (io : bool) (id : string) (count : nat)
  (store : SimulationStore) (simulation : SimulationState.t) (handle : nat)
  (w : World) :
  own_property (simulations store) id = Some simulation ->
  own_property (simulationIntervals store) id = Some handle ->
  SimulationState.isRunning simulation = true ->
  SimulationState.elapsedTime simulation = Fin 0 ->
  (forall j : nat, exists r : R, clock w j = Fin r) ->
  exists (fuel : nat) (store' : SimulationStore)
         (ticks : list SimulationTick.t) (w' : World)
         (simulation' : SimulationState.t),
    timer_fires fuel io id count store w = Some (store', ticks, w') /\
    own_property (simulations store') id = Some simulation' /\
    SimulationState.elapsedTime simulation'
    = Fin (IZR (Z.min (Z.of_nat count) (365 * 86400 + 1))) /\
    SimulationState.isRunning simulation'
    = (Z.of_nat count <=? 365 * 86400)%Z /\
    (own_property (simulationIntervals store') id = None <->
     (365 * 86400 < Z.of_nat count)%Z) /\
    List.length ticks
    = (if io then Z.to_nat (Z.min (Z.of_nat count) (365 * 86400 + 1))
       else 0%nat) /\
    (forall tick : SimulationTick.t,
        In tick ticks ->
        active_phase (MissionStatus.phase (SimulationTick.status tick))).
Proof.
  intros Hsim Htimer Hrun Helapsed Hclock.
  destruct (timer_fires_from io id count store simulation handle w 0
              Hsim Htimer Hrun Helapsed ltac:(lia) Hclock)
    as (fuel & store' & ticks & w' & simulation' & Hfires & Hsim' & Hel
        & Hrun' & Htimer' & Hlen & Hph).
  exists fuel, store', ticks, w', simulation'.
  rewrite Z.add_0_l in Hel, Hrun', Htimer', Hlen.
  rewrite Z.sub_0_r in Hlen. auto 10.
Qed.

Lemma simulation_lifecycle_witness :
  exists (fuel : nat) (store' : SimulationStore)
         (ticks : list SimulationTick.t) (w' : World)
         (simulation' : SimulationState.t),
    timer_fires fuel true "sim_1" 3
      {| simulations :=
           [("sim_1"%string,
             {| SimulationState.id := "sim_1";
                SimulationState.isRunning := true;
                SimulationState.currentTime := Fin 1761696000000;
                SimulationState.timeAcceleration := Fin 1;
                SimulationState.elapsedTime := Fin 0;
                SimulationState.config := sample_config "ion" |})];
         simulationIntervals := [("sim_1"%string, 7%nat)] |}
      (frozen_clock 1761696000000)
    = Some (store', ticks, w') /\
    own_property (simulations store') "sim_1" = Some simulation' /\
    SimulationState.elapsedTime simulation'
    = Fin (IZR (Z.min (Z.of_nat 3) (365 * 86400 + 1))) /\
    SimulationState.isRunning simulation'
    = (Z.of_nat 3 <=? 365 * 86400)%Z /\
    (own_property (simulationIntervals store') "sim_1" = None <->
     (365 * 86400 < Z.of_nat 3)%Z) /\
    List.length ticks
    = Z.to_nat (Z.min (Z.of_nat 3) (365 * 86400 + 1)) /\
    (forall tick : SimulationTick.t,
        In tick ticks ->
        active_phase (MissionStatus.phase (SimulationTick.status tick))).
Proof.
  exact (simulation_lifecycle true "sim_1" 3
           {| simulations :=
                [("sim_1"%string,
                  {| SimulationState.id := "sim_1";
                     SimulationState.isRunning := true;
                     SimulationState.currentTime := Fin 1761696000000;
                     SimulationState.timeAcceleration := Fin 1;
                     SimulationState.elapsedTime := Fin 0;
                     SimulationState.config := sample_config "ion" |})];
              simulationIntervals := [("sim_1"%string, 7%nat)] |}
           _ 7%nat (frozen_clock 1761696000000)
           eq_refl eq_refl eq_refl eq_refl
           (fun _ => ex_intro _ 1761696000000 eq_refl)).
Defined.

(** ** The limit on simulations *)

Lemma own_property_set_property_other {A : Type} (obj : list (string * A))
  (key other : string) (value : A) :
  key <> other ->
  own_property (set_property obj key value) other = own_property obj other.
Proof.
  intros Hne. induction obj as [| [k x] rest IH];
    cbn [set_property own_property].
  - destruct (String.eqb_spec key other); [contradiction | reflexivity].
  - destruct (String.eqb_spec k key) as [-> | Hk]; cbn [own_property].
    + destruct (String.eqb_spec key other); [contradiction | reflexivity].
    + now rewrite IH.
Qed.

Lemma set_property_length {A : Type} (obj : list (string * A))
  (key : string) (value : A) :
  List.length (set_property obj key value)
  = match own_property obj key with
    | Some _ => List.length obj
    | None => S (List.length obj)
    end.
Proof.
  induction obj as [| [k x] rest IH]; cbn [set_property own_property];
    [reflexivity |].
  destruct (String.eqb k key); cbn [List.length]; [reflexivity |].
  rewrite IH. now destruct (own_property rest key).
Qed.

Lemma ge_of_nat (n m : nat) : ge (of_nat n) (of_nat m) = (m <=? n)%nat.
Proof.
  unfold of_nat. cbn [ge].
  destruct (Nat.leb_spec m n) as [H | H].
  - rewrite Rltb_false; [reflexivity |]. apply IZR_le. lia.
  - rewrite Rltb_true; [reflexivity |]. apply IZR_lt. lia.
Qed.

Lemma steady_set_property (store : SimulationStore) (id : string)
  (simulation : SimulationState.t) (intervals : list (string * nat)) :
  steady store ->
  (SimulationState.isRunning simulation = true ->
   exists z : Z,
     (0 <= z <= 365 * 86400)%Z /\
     SimulationState.elapsedTime simulation = Fin (IZR z)) ->
  steady {| simulations := set_property (simulations store) id simulation;
            simulationIntervals := intervals |}.
Proof.
  intros Hsteady Hnew other s. cbn [simulations].
  destruct (String.eqb_spec id other) as [<- | Hne].
  - rewrite own_property_set_property. intros [= <-]. exact Hnew.
  - rewrite own_property_set_property_other by exact Hne. apply Hsteady.
Qed.

(** Under the invariant every call of [updateSimulation] returns; it keeps
    the invariant and the number of simulations, and only reads the clock. *)
Lemma updateSimulation_steady (io : bool) (id : string)
  (store : SimulationStore) (w : World) :
  steady store ->
  (forall j : nat, exists r : R, clock w j = Fin r) ->
  exists (fuel : nat) (store' : SimulationStore)
         (ticks : list SimulationTick.t) (w' : World),
    updateSimulation fuel io id store w = Some (store', ticks, w') /\
    steady store' /\
    List.length (simulations store') = List.length (simulations store) /\
    clock w' = clock w.
Proof.
  intros Hsteady Hclock.
  destruct (own_property (simulations store) id) as [simulation |] eqn:Hsim.
  - destruct (SimulationState.isRunning simulation) eqn:Hrun.
    + destruct (Hsteady id simulation Hsim Hrun) as (z & Hz & Helapsed).
      destruct (Hclock (reads w)) as [now Hnow].
      destruct (updateSimulation_running io id store simulation w z now
                  Hsim Hrun Helapsed Hz Hnow)
        as (fuel & store' & ticks & simulation' & Hupd & Hstore & _ & Hel
            & Hrun' & _).
      exists fuel, store', ticks, {| clock := clock w; reads := S (reads w) |}.
      split; [exact Hupd |]. split; [| split; [| reflexivity]].
      * destruct store' as [sims' intervals']. cbn [simulations] in Hstore.
        subst sims'. apply steady_set_property; [exact Hsteady |].
        intros Hr. rewrite Hrun' in Hr. apply Z.leb_le in Hr.
        exists (z + 1)%Z. split; [lia | exact Hel].
      * rewrite Hstore, set_property_length, Hsim. reflexivity.
    + exists 0%nat, store, [], w. unfold updateSimulation.
      rewrite Hsim, Hrun. cbn [negb]. auto.
  - exists 0%nat, store, [], w. unfold updateSimulation. rewrite Hsim. auto.
Qed.

Section StartLimit.

Variable generateSimulationId : World -> string * World.
Variable max : nat.
Variable io : bool.

Hypothesis generateSimulationId_clock :
  forall w : World, clock (snd (generateSimulationId w)) = clock w.

Lemma start_steady (config : MissionConfig) (handle : nat)
  (store : SimulationStore) (w : World) :
  steady store ->
  (List.length (simulations store) <= max)%nat ->
  exists (answer : StartAnswer.t) (store' : SimulationStore) (w' : World),
    start generateSimulationId (of_nat max) config handle store w
    = (answer, store', w') /\
    steady store' /\ clock w' = clock w /\
    (List.length (simulations store) <= List.length (simulations store')
     <= max)%nat /\
    (if (max <=? List.length (simulations store))%nat
     then refused answer /\
          List.length (simulations store') = List.length (simulations store)
     else admitted answer).
Proof.
  intros Hsteady Hsize. unfold start.
  pose proof (generateSimulationId_clock w) as Hgen.
  destruct (generateSimulationId w) as [simulationId w1].
  cbn [snd] in Hgen. rewrite ge_of_nat. unfold Date_now.
  destruct (Nat.leb_spec max (List.length (simulations store))) as [Hfull | Hfree];
    cbv beta iota zeta; do 3 eexists; (split; [reflexivity |]).
  - split; [exact Hsteady |]. split; [exact Hgen |].
    split; [lia |]. split; [| reflexivity]. now split.
  - split.
    { apply steady_set_property; [exact Hsteady |].
      intros _. exists 0%Z. split; [lia | reflexivity]. }
    split; [exact Hgen |]. cbn [simulations].
    rewrite set_property_length.
    split; [| now split].
    destruct (own_property (simulations store) simulationId); lia.
Qed.

Lemma serve_more_fuel (n m : nat) (occurrences : list occurrence) :
  (n <= m)%nat ->
  forall (store : SimulationStore) (w : World)
         (result : list StartAnswer.t * SimulationStore * World),
    serve generateSimulationId (of_nat max) n io occurrences store w
    = Some result ->
    serve generateSimulationId (of_nat max) m io occurrences store w
    = Some result.
Proof.
  intros Hnm. induction occurrences as [| [config handle | id] rest IH];
    intros store w result; cbn [serve]; [trivial | |].
  - destruct (start _ _ _ _ _ _) as [[answer store1] w1].
    destruct (serve _ _ n _ rest store1 w1) as [[[answers store2] w2] |]
      eqn:Hrest; [| discriminate].
    now rewrite (IH _ _ _ Hrest).
  - destruct (own_property (simulationIntervals store) id); [| apply IH].
    destruct (updateSimulation n io id store w)
      as [[[store1 ticks] w1] |] eqn:Hupd; [| discriminate].
    rewrite (updateSimulation_more_fuel n m _ _ _ _ _ Hnm Hupd). apply IH.
Qed.

Lemma serve_steady (occurrences : list occurrence) :
  forall (store : SimulationStore) (w : World),
    steady store ->
    (List.length (simulations store) <= max)%nat ->
    (forall j : nat, exists r : R, clock w j = Fin r) ->
    exists (fuel : nat) (answers : list StartAnswer.t)
           (store' : SimulationStore) (w' : World),
      serve generateSimulationId (of_nat max) fuel io occurrences store w
      = Some (answers, store', w') /\
      (List.length (simulations store) <= List.length (simulations store')
       <= max)%nat /\
      ((max <= List.length (simulations store))%nat ->
       Forall refused answers) /\
      exists first last : list StartAnswer.t,
        answers = first ++ last /\
        Forall admitted first /\ Forall refused last.
Proof.
  induction occurrences as [| [config handle | id] rest IH];
    intros store w Hsteady Hsize Hclock.
  - exists 0%nat, [], store, w. cbn [serve]. split; [reflexivity |].
    split; [lia |]. split; [constructor |].
    exists [], []. repeat split; constructor.
  - destruct (start_steady config handle store w Hsteady Hsize)
      as (answer & store1 & w1 & Hstart & Hsteady1 & Hclock1 & Hsize1
          & Hanswer).
    destruct (IH store1 w1 Hsteady1 ltac:(lia)
                ltac:(intros j; rewrite Hclock1; apply Hclock))
      as (fuel & answers & store2 & w2 & Hrest & Hsize2 & Hfull2
          & first & last & Hsplit & Hfirst & Hlast).
    exists fuel, (answer :: answers), store2, w2. cbn [serve].
    rewrite Hstart, Hrest. split; [reflexivity |]. split; [lia |].
    destruct (Nat.leb_spec max (List.length (simulations store)))
      as [Hfull | Hfree].
    + destruct Hanswer as [Hrefused Hsame].
      assert (Hall : Forall refused answers) by (apply Hfull2; lia).
      split; [intros _; now constructor |].
      exists [], (answer :: answers).
      split; [reflexivity |]. split; constructor; assumption.
    + split; [lia |].
      exists (answer :: first), last. rewrite Hsplit.
      split; [reflexivity |]. split; [now constructor | exact Hlast].
  - cbn [serve].
    destruct (own_property (simulationIntervals store) id) as [handle |].
    + destruct (updateSimulation_steady io id store w Hsteady Hclock)
        as (fuel1 & store1 & ticks & w1 & Hupd & Hsteady1 & Hlen1 & Hclock1).
      destruct (IH store1 w1 Hsteady1 ltac:(lia)
                  ltac:(intros j; rewrite Hclock1; apply Hclock))
        as (fuel2 & answers & store2 & w2 & Hrest & Hsize2 & Hfull2 & Hsplit).
      exists (Nat.max fuel1 fuel2), answers, store2, w2.
      rewrite (updateSimulation_more_fuel fuel1 _ _ _ _ _ _
                 (Nat.le_max_l fuel1 fuel2) Hupd).
      rewrite (serve_more_fuel fuel2 _ rest (Nat.le_max_r fuel1 fuel2)
                 _ _ _ Hrest).
      split; [reflexivity |]. split; [lia |].
      split; [intros Hfull; apply Hfull2; lia | exact Hsplit].
    + apply IH; assumption.
Qed.

End StartLimit.

(** X26: The limit of [POST /start] counts every simulation ever stored, not the
    running ones.  From a store whose running simulations have whole
    elapsed times, under a limit [max] it does not exceed, and with a clock
    of finite readings, every sequence of start requests and timer firings
    is served -- each call returns -- and: the number of stored simulations
    never decreases and never exceeds [max]; the answers to the start
    requests are a run of admissions (status 200) followed by a run of
    refusals (status 429), so a refusal is never followed by an admission;
    and if the store is full at the beginning, every start request is
    refused, whatever timers fire and however many simulations stop. *)
Theorem simulations_are_never_released
  (generateSimulationId : World -> string * World) (max : nat) (io : bool)
  (occurrences : list occurrence) (store : SimulationStore) (w : World) :
  (forall w0 : World, clock (snd (generateSimulationId w0)) = clock w0) ->
  steady store ->
  (List.length (simulations store) <= max)%nat ->
  (forall j : nat, exists r : R, clock w j = Fin r) ->
  exists (fuel : nat) (answers : list StartAnswer.t)
         (store' : SimulationStore) (w' : World),
    serve generateSimulationId (of_nat max) fuel io occurrences store w
    = Some (answers, store', w') /\
    (List.length (simulations store) <= List.length (simulations store')
     <= max)%nat /\
    ((max <= List.length (simulations store))%nat ->
     Forall refused answers) /\
    exists first last : list StartAnswer.t,
      answers = first ++ last /\
      Forall admitted first /\ Forall refused last.
Proof.
  intros Hgen Hsteady Hsize Hclock.
  exact (serve_steady generateSimulationId max io Hgen occurrences store w
           Hsteady Hsize Hclock).
Qed.

Lemma stopped_store_steady :
  steady
    {| simulations :=
         [("sim_1"%string,
           {| SimulationState.id := "sim_1";
              SimulationState.isRunning := false;
              SimulationState.currentTime := Fin 1761696000000;
              SimulationState.timeAcceleration := Fin 1;
              SimulationState.elapsedTime := Fin 31536001;
              SimulationState.config := sample_config "ion" |})];
       simulationIntervals := [] |}.
Proof.
  intros id simulation. cbn [simulations own_property].
  destruct (String.eqb "sim_1" id); [| discriminate].
  intros [= <-]. cbn [SimulationState.isRunning]. discriminate.
Defined.

Lemma simulations_are_never_released_witness :
  exists (fuel : nat) (answers : list StartAnswer.t)
         (store' : SimulationStore) (w' : World),
    serve (fun w : World => ("sim_2"%string, snd (Date_now w))) (of_nat 1)
      fuel true
      [timer_due "sim_1"; start_request (sample_config "ion") 8%nat]
      {| simulations :=
           [("sim_1"%string,
             {| SimulationState.id := "sim_1";
                SimulationState.isRunning := false;
                SimulationState.currentTime := Fin 1761696000000;
                SimulationState.timeAcceleration := Fin 1;
                SimulationState.elapsedTime := Fin 31536001;
                SimulationState.config := sample_config "ion" |})];
         simulationIntervals := [] |}
      (frozen_clock 1761696000000)
    = Some (answers, store', w') /\
    (1 <= List.length (simulations store') <= 1)%nat /\
    ((1 <= 1)%nat -> Forall refused answers) /\
    exists first last : list StartAnswer.t,
      answers = first ++ last /\
      Forall admitted first /\ Forall refused last.
Proof.
  exact (simulations_are_never_released
           (fun w : World => ("sim_2"%string, snd (Date_now w))) 1 true
           [timer_due "sim_1"; start_request (sample_config "ion") 8%nat]
           _ (frozen_clock 1761696000000)
           (fun _ => eq_refl) stopped_store_steady (le_n 1)
           (fun _ => ex_intro _ 1761696000000 eq_refl)).
Defined.
